(** * Logger: a shallow embedding of [my_logger.py] and [jvlogger/jvlogger.py]

    The development follows the two Python modules:

    - [PyStr], [PyExc]: Python strings (sequences of code points) and the
      exception class hierarchy used by [issubclass] and [except Exception];
    - [Json]: the part of [json.dumps] / [json.loads] that
      [JsonFormatter.format] relies on;
    - [MyLogger]: [my_logger.py] (formatter, crash file, the three hooks,
      their installation, the [Logger] wrapper);
    - [JVLogger]: [jvlogger/jvlogger.py] (the wrapper with the optional
      single-instance lock and [close]).

    Definitions come first; the properties are proved in the second half. *)

From Stdlib Require Import ZArith NArith Ascii String List Bool Lia.
From Stdlib Require Import DecimalFacts DecimalPos DecimalN DecimalZ.
From stdpp Require Import gmap strings list.

Local Open Scope N_scope.

(* ===================================================================== *)
(** ** Python strings *)
(* ===================================================================== *)

Module PyStr.

(** A Python [str] is a sequence of Unicode code points. *)
Definition pystr : Type := list N.

(** ASCII literals of the source, written as Rocq strings. *)
Fixpoint lit (s : string) : pystr :=
  match s with
  | EmptyString => []
  | String a rest => N_of_ascii a :: lit rest
  end.

Definition QUOTE : N := 34.

End PyStr.
Export PyStr.

(* ===================================================================== *)
(** ** Exception classes *)
(* ===================================================================== *)

Module PyExc.

(** The built-in classes that matter here, and user classes derived from
    them (single inheritance; intermediate built-in classes such as
    [ArithmeticError] are left out). *)
Inductive exc_class : Type :=
| BaseException
| Exception
| KeyboardInterrupt
| SystemExit
| OSError
| RuntimeError
| ValueError
| UnicodeEncodeError
| ZeroDivisionError
| UserClass (name : pystr) (base : exc_class).

#[export] Instance exc_class_eq_dec : EqDecision exc_class.
Proof. solve_decision. Defined.

(** The method resolution order of a class: the class, then its bases up
    to [BaseException]. *)
Fixpoint mro (c : exc_class) : list exc_class :=
  match c with
  | BaseException => [BaseException]
  | Exception => [Exception; BaseException]
  | KeyboardInterrupt => [KeyboardInterrupt; BaseException]
  | SystemExit => [SystemExit; BaseException]
  | OSError => [OSError; Exception; BaseException]
  | RuntimeError => [RuntimeError; Exception; BaseException]
  | ValueError => [ValueError; Exception; BaseException]
  | UnicodeEncodeError => [UnicodeEncodeError; ValueError; Exception; BaseException]
  | ZeroDivisionError => [ZeroDivisionError; Exception; BaseException]
  | UserClass _ base => c :: mro base
  end.

(** [issubclass(c, d)]: [d] is [c] or one of its bases. *)
Definition issubclass (c d : exc_class) : bool := bool_decide (d ∈ mro c).

End PyExc.
Export PyExc.

(* ===================================================================== *)
(** ** JSON: [json.dumps(..., ensure_ascii=False)] and [json.loads] *)
(* ===================================================================== *)

Module Json.

(** The values [JsonFormatter.format] puts in its dictionary. *)
Inductive json : Type :=
| JStr (s : pystr)
| JInt (z : Z).

(** A [dict]: insertion-ordered pairs. *)
Definition jobject : Type := list (pystr * json).

(** *** Encoder *)

Definition hex_digit (n : N) : N := if n <? 10 then 48 + n else 87 + n.

(** [ESCAPE_DCT] of [json.encoder], as used by [py_encode_basestring]:
    the quote, the backslash, the five short escapes, and [\u00xx] for the
    other characters below 0x20.  Everything else is copied. *)
Definition escape_char (c : N) : pystr :=
  if c =? 34 then [92; 34]
  else if c =? 92 then [92; 92]
  else if c =? 10 then [92; 110]
  else if c =? 13 then [92; 114]
  else if c =? 9 then [92; 116]
  else if c =? 8 then [92; 98]
  else if c =? 12 then [92; 102]
  else if c <? 32 then
    [92; 117; 48; 48; hex_digit (c / 16); hex_digit (c mod 16)]
  else [c].

Definition py_encode_basestring (s : pystr) : pystr :=
  QUOTE :: flat_map escape_char s ++ [QUOTE].

Definition digit_char (d : N) : N := 48 + d.

Fixpoint uint_chars (u : Decimal.uint) : pystr :=
  match u with
  | Decimal.Nil => []
  | Decimal.D0 u => digit_char 0 :: uint_chars u
  | Decimal.D1 u => digit_char 1 :: uint_chars u
  | Decimal.D2 u => digit_char 2 :: uint_chars u
  | Decimal.D3 u => digit_char 3 :: uint_chars u
  | Decimal.D4 u => digit_char 4 :: uint_chars u
  | Decimal.D5 u => digit_char 5 :: uint_chars u
  | Decimal.D6 u => digit_char 6 :: uint_chars u
  | Decimal.D7 u => digit_char 7 :: uint_chars u
  | Decimal.D8 u => digit_char 8 :: uint_chars u
  | Decimal.D9 u => digit_char 9 :: uint_chars u
  end.

(** [int.__repr__]: decimal digits, a leading minus for negatives. *)
Definition int_repr (z : Z) : pystr :=
  match Z.to_int z with
  | Decimal.Pos u => uint_chars u
  | Decimal.Neg u => 45 :: uint_chars u
  end.

Definition dumps_value (v : json) : pystr :=
  match v with
  | JStr s => py_encode_basestring s
  | JInt z => int_repr z
  end.

Definition dumps_pair (kv : pystr * json) : pystr :=
  py_encode_basestring (fst kv) ++ lit ": " ++ dumps_value (snd kv).

(** The items joined by the default item separator [", "]. *)
Fixpoint dumps_items (o : jobject) : pystr :=
  match o with
  | [] => []
  | [kv] => dumps_pair kv
  | kv :: rest => dumps_pair kv ++ lit ", " ++ dumps_items rest
  end.

Definition dumps (o : jobject) : pystr :=
  lit "{" ++ dumps_items o ++ lit "}".

(** *** Decoder (strict mode, the default of [json.loads]) *)

Definition is_ws (c : N) : bool :=
  (c =? 32) || (c =? 9) || (c =? 10) || (c =? 13).

Fixpoint skip_ws (s : pystr) : pystr :=
  match s with
  | c :: rest => if is_ws c then skip_ws rest else s
  | [] => []
  end.

Definition hex_value (c : N) : option N :=
  if (48 <=? c) && (c <=? 57) then Some (c - 48)
  else if (97 <=? c) && (c <=? 102) then Some (c - 87)
  else if (65 <=? c) && (c <=? 70) then Some (c - 55)
  else None.

Definition decode_uXXXX (h1 h2 h3 h4 : N) : option N :=
  match hex_value h1, hex_value h2, hex_value h3, hex_value h4 with
  | Some a, Some b, Some c, Some d => Some (((a * 16 + b) * 16 + c) * 16 + d)
  | _, _, _, _ => None
  end.

(** [BACKSLASH] table of [json.decoder]. *)
Definition unescape (e : N) : option N :=
  if e =? 34 then Some 34
  else if e =? 92 then Some 92
  else if e =? 47 then Some 47
  else if e =? 98 then Some 8
  else if e =? 102 then Some 12
  else if e =? 110 then Some 10
  else if e =? 114 then Some 13
  else if e =? 116 then Some 9
  else None.

Definition is_high_surrogate (u : N) : bool := (0xd800 <=? u) && (u <=? 0xdbff).
Definition is_low_surrogate (u : N) : bool := (0xdc00 <=? u) && (u <=? 0xdfff).

Definition join_surrogates (hi lo : N) : N :=
  0x10000 + N.lor (N.shiftl (hi - 0xd800) 10) (lo - 0xdc00).

Definition cons_char (c : N) (r : option (pystr * pystr)) : option (pystr * pystr) :=
  match r with
  | Some (body, rest) => Some (c :: body, rest)
  | None => None
  end.

(** [scanstring]: the input starts just after the opening quote; the
    result is the decoded text and what follows the closing quote.  A raw
    control character is an error (strict mode). *)
Fixpoint scanstring (s : pystr) : option (pystr * pystr) :=
  match s with
  | [] => None
  | c :: rest =>
      if c =? 34 then Some ([], rest)
      else if c =? 92 then
        match rest with
        | [] => None
        | e :: rest1 =>
            if e =? 117 then
              match rest1 with
              | h1 :: h2 :: h3 :: h4 :: rest2 =>
                  match decode_uXXXX h1 h2 h3 h4 with
                  | None => None
                  | Some uni =>
                      if is_high_surrogate uni then
                        match rest2 with
                        | b :: u :: l1 :: l2 :: l3 :: l4 :: rest3 =>
                            if (b =? 92) && (u =? 117) then
                              match decode_uXXXX l1 l2 l3 l4 with
                              | None => None
                              | Some uni2 =>
                                  if is_low_surrogate uni2
                                  then cons_char (join_surrogates uni uni2) (scanstring rest3)
                                  else cons_char uni (scanstring rest2)
                              end
                            else cons_char uni (scanstring rest2)
                        | _ => cons_char uni (scanstring rest2)
                        end
                      else cons_char uni (scanstring rest2)
                  end
              | _ => None
              end
            else
              match unescape e with
              | Some ch => cons_char ch (scanstring rest1)
              | None => None
              end
        end
      else if c <? 32 then None
      else cons_char c (scanstring rest)
  end.

Definition digit_of (c : N) : option (Decimal.uint -> Decimal.uint) :=
  if c =? 48 then Some Decimal.D0
  else if c =? 49 then Some Decimal.D1
  else if c =? 50 then Some Decimal.D2
  else if c =? 51 then Some Decimal.D3
  else if c =? 52 then Some Decimal.D4
  else if c =? 53 then Some Decimal.D5
  else if c =? 54 then Some Decimal.D6
  else if c =? 55 then Some Decimal.D7
  else if c =? 56 then Some Decimal.D8
  else if c =? 57 then Some Decimal.D9
  else None.

Definition is_digit (c : N) : bool := (48 <=? c) && (c <=? 57).

Fixpoint scan_digits (s : pystr) : Decimal.uint * pystr :=
  match s with
  | [] => (Decimal.Nil, [])
  | c :: rest =>
      match digit_of c with
      | Some d => let (u, r) := scan_digits rest in (d u, r)
      | None => (Decimal.Nil, s)
      end
  end.

(** The integer part of [NUMBER_RE]: [0] or a digit sequence that does not
    start with [0]. *)
Definition match_digits (s : pystr) : option (Decimal.uint * pystr) :=
  match s with
  | [] => None
  | c :: rest =>
      if c =? 48 then Some (Decimal.D0 Decimal.Nil, rest)
      else if is_digit c then Some (scan_digits s)
      else None
  end.

(** A fraction or an exponent after the integer part makes the literal a
    float; the formatter never writes one and the model rejects it. *)
Definition starts_frac_or_exp (s : pystr) : bool :=
  match s with
  | c :: d :: rest =>
      if c =? 46 then is_digit d
      else if (c =? 101) || (c =? 69) then
        is_digit d
        || (((d =? 43) || (d =? 45))
            && match rest with
               | d' :: _ => is_digit d'
               | [] => false
               end)
      else false
  | _ => false
  end.

Definition match_number (s : pystr) : option (Z * pystr) :=
  match s with
  | [] => None
  | c :: rest =>
      let neg := c =? 45 in
      match match_digits (if neg then rest else s) with
      | None => None
      | Some (u, r) =>
          if starts_frac_or_exp r then None
          else Some (Z.of_int (if neg then Decimal.Neg u else Decimal.Pos u), r)
      end
  end.

(** [scan_once] for the two kinds of values of the model. *)
Definition scan_value (s : pystr) : option (json * pystr) :=
  match s with
  | [] => None
  | c :: rest =>
      if c =? 34 then
        match scanstring rest with
        | Some (body, r) => Some (JStr body, r)
        | None => None
        end
      else
        match match_number s with
        | Some (z, r) => Some (JInt z, r)
        | None => None
        end
  end.

(** The loop of [JSONObject], entered just after the quote that opens a
    key.  One unit of fuel is spent per member. *)
Fixpoint scan_members (fuel : nat) (s : pystr) : option (jobject * pystr) :=
  match fuel with
  | O => None
  | S fuel' =>
      match scanstring s with
      | None => None
      | Some (key, s1) =>
          match skip_ws s1 with
          | c :: s2 =>
              if c =? 58 then
                match scan_value (skip_ws s2) with
                | None => None
                | Some (v, s3) =>
                    match skip_ws s3 with
                    | d :: s4 =>
                        if d =? 125 then Some ([(key, v)], s4)
                        else if d =? 44 then
                          match skip_ws s4 with
                          | q :: s5 =>
                              if q =? 34 then
                                match scan_members fuel' s5 with
                                | Some (more, r) => Some ((key, v) :: more, r)
                                | None => None
                                end
                              else None
                          | [] => None
                          end
                        else None
                    | [] => None
                    end
                end
              else None
          | [] => None
          end
      end
  end.

Definition scan_object (s : pystr) : option (jobject * pystr) :=
  match skip_ws s with
  | c :: rest =>
      if c =? 125 then Some ([], rest)
      else if c =? 34 then scan_members (length s) rest
      else None
  | [] => None
  end.

(** [json.loads] on a text whose top-level value is an object: leading
    and trailing white space is allowed, anything else after the object is
    "Extra data". *)
Definition loads (s : pystr) : option jobject :=
  match skip_ws s with
  | c :: rest =>
      if c =? 123 then
        match scan_object rest with
        | Some (o, r) =>
            match skip_ws r with
            | [] => Some o
            | _ :: _ => None
            end
        | None => None
        end
      else None
  | [] => None
  end.

(** Reading a key of the parsed [dict]: a repeated key keeps its last
    value. *)
Fixpoint dict_get (k : pystr) (o : jobject) : option json :=
  match o with
  | [] => None
  | (k', v) :: rest =>
      match dict_get k rest with
      | Some v' => Some v'
      | None => if bool_decide (k = k') then Some v else None
      end
  end.

(** *** The shape of encoder output, for the proofs *)

(** A text without a raw line break. *)
Definition no_newline (s : pystr) : Prop := Forall (fun c => c <> 10) s.

(** What may follow a value inside an object: a comma or the closing
    brace. *)
Definition delimited (rest : pystr) : Prop :=
  exists c r, rest = c :: r /\ (c = 44 \/ c = 125).

(** The text of the members of an object after the quote that opens the
    first key. *)
Definition pair_body (kv : pystr * json) : pystr :=
  flat_map escape_char (fst kv) ++ QUOTE :: lit ": " ++ dumps_value (snd kv).

Fixpoint members_text (kv : pystr * json) (o : jobject) : pystr :=
  pair_body kv ++
  match o with
  | [] => []
  | kv' :: o' => lit ", " ++ QUOTE :: members_text kv' o'
  end.

End Json.

(* ===================================================================== *)
(** ** Calls with a state that may raise *)
(* ===================================================================== *)

Module Effects.

Inductive outcome (A : Type) : Type :=
| Returns (a : A)
| Raises (e : exc_class).
Arguments Returns {A} a.
Arguments Raises {A} e.

Definition StateExc (S A : Type) : Type := S -> outcome A * S.

#[export] Instance StateExc_ret {S : Type} : MRet (StateExc S) :=
  fun A a s => (Returns a, s).

#[export] Instance StateExc_bind {S : Type} : MBind (StateExc S) :=
  fun A B f m s =>
    match m s with
    | (Returns a, s') => f a s'
    | (Raises e, s') => (Raises e, s')
    end.

Section Ops.
Context {S : Type}.

Definition raise {A : Type} (e : exc_class) : StateExc S A :=
  fun s => (Raises e, s).

Definition gets {A : Type} (f : S -> A) : StateExc S A :=
  fun s => (Returns (f s), s).

Definition modify (f : S -> S) : StateExc S unit :=
  fun s => (Returns tt, f s).

(** [try: body / except Exception: pass] *)
Definition try_except_Exception_pass (body : StateExc S unit) : StateExc S unit :=
  fun s =>
    match body s with
    | (Returns a, s') => (Returns a, s')
    | (Raises e, s') =>
        if issubclass e Exception then (Returns tt, s') else (Raises e, s')
    end.

(** [try: body / finally: cleanup], for a cleanup that does not raise *)
Definition try_finally (body : StateExc S unit) (cleanup : S -> S) : StateExc S unit :=
  fun s =>
    match body s with
    | (r, s') => (r, cleanup s')
    end.
End Ops.

End Effects.
Export Effects.

(* ===================================================================== *)
(** ** The [logging] objects both modules configure *)
(* ===================================================================== *)

Module Logging.

(** The signers the package exports ([HMACSigner], [RSASigner]); only
    their identity matters here. *)
Inductive Signer : Type :=
| HMACSigner (key : pystr)
| RSASigner (key : pystr).

(** [JsonFormatter] of [my_logger.py] takes no signer; the one of the
    package receives the wrapper's signer through the configuration. *)
Inductive formatter : Type :=
| ColoredFormatter (fmt : pystr)
| PlainFormatter (fmt : pystr)
| JsonFormatter (signer : option Signer).

Inductive handler_kind : Type :=
| StreamHandler_stdout
| TimedRotatingFileHandler (path : pystr) (when : pystr) (backupCount : nat)
| RotatingFileHandler (path : pystr) (maxBytes : N) (backupCount : nat).

Record Handler : Type := mkHandler {
  h_kind : handler_kind;
  h_level : Z;
  h_formatter : formatter;
}.

Record LoggerState : Type := mkLogger {
  lg_level : Z;
  lg_propagate : bool;
  lg_handlers : list Handler;
}.

#[export] Instance Signer_eq_dec : EqDecision Signer.
Proof. solve_decision. Defined.
#[export] Instance formatter_eq_dec : EqDecision formatter.
Proof. solve_decision. Defined.
#[export] Instance handler_kind_eq_dec : EqDecision handler_kind.
Proof. solve_decision. Defined.
#[export] Instance Handler_eq_dec : EqDecision Handler.
Proof. solve_decision. Defined.

Definition DEBUG : Z := 10.
Definition INFO : Z := 20.
Definition WARNING : Z := 30.
Definition ERROR : Z := 40.
Definition CRITICAL : Z := 50.

(** A logger as [logging.getLogger] first makes it. *)
Definition fresh_logger : LoggerState := mkLogger 0 true [].

Definition setLevel (level : Z) (l : LoggerState) : LoggerState :=
  mkLogger level (lg_propagate l) (lg_handlers l).
Definition set_propagate (b : bool) (l : LoggerState) : LoggerState :=
  mkLogger (lg_level l) b (lg_handlers l).
Definition addHandler (h : Handler) (l : LoggerState) : LoggerState :=
  mkLogger (lg_level l) (lg_propagate l) (lg_handlers l ++ [h]).
Definition set_handlers (hs : list Handler) (l : LoggerState) : LoggerState :=
  mkLogger (lg_level l) (lg_propagate l) hs.

End Logging.
Export Logging.

(* ===================================================================== *)
(** ** [my_logger.py] *)
(* ===================================================================== *)

Module MyLogger.
Import Json.

(** *** Faults, log records and the library functions taken as given *)

Record Frame : Type := mkFrame {
  fr_filename : pystr;
  fr_lineno : Z;
  fr_name : pystr;
}.

(** The triple [(exc_type, exc_value, exc_traceback)]; an exception
    instance [e] stands for [(type(e), e, e.__traceback__)]. *)
Record FaultInfo : Type := mkFault {
  exc_type : exc_class;
  exc_value : pystr;
  exc_traceback : list Frame;
}.

(** Functions of the Python library that the module calls and whose text
    is not part of it. *)
Class PyLib : Type := {
  PyFloat : Type;
  (** [datetime.fromtimestamp(t).isoformat()] *)
  fromtimestamp_isoformat : PyFloat -> pystr;
  (** [logging.Formatter.formatException] *)
  formatException : FaultInfo -> pystr;
  (** the chunks [traceback.print_exception] writes to its file, in order *)
  format_exception : FaultInfo -> list pystr;
  (** [Path(p).name], [Path(p).stem], [Path(p).resolve().parent], [a / b] *)
  path_name : pystr -> pystr;
  path_stem : pystr -> pystr;
  path_resolve_parent : pystr -> pystr;
  path_join : pystr -> pystr -> pystr;
}.

(** The attributes of [logging.LogRecord] that [JsonFormatter.format]
    reads; [getMessage] is the message after argument substitution. *)
Record LogRecord `{L : PyLib} : Type := mkRecord {
  created : PyFloat;
  name : pystr;
  levelname : pystr;
  getMessage : pystr;
  filename : pystr;
  lineno : Z;
  funcName : pystr;
  exc_info : option FaultInfo;
}.

(** *** [JsonFormatter.format] *)

Definition log_record_dict `{L : PyLib} (record : LogRecord) : jobject :=
  let log_record :=
    [ (lit "timestamp", JStr (fromtimestamp_isoformat (created record)));
      (lit "name", JStr (name record));
      (lit "level", JStr (levelname record));
      (lit "message", JStr (getMessage record));
      (lit "filename", JStr (filename record));
      (lit "lineno", JInt (lineno record));
      (lit "funcName", JStr (funcName record)) ] in
  match exc_info record with
  | Some ei => log_record ++ [ (lit "traceback", JStr (formatException ei)) ]
  | None => log_record
  end.

Definition JsonFormatter_format `{L : PyLib} (record : LogRecord) : pystr :=
  dumps (log_record_dict record).

(** The keys the formatter writes for every record, in order. *)
Definition BASE_KEYS : list pystr :=
  [ lit "timestamp"; lit "name"; lit "level"; lit "message";
    lit "filename"; lit "lineno"; lit "funcName" ].

(** The reading of the field list of the spec: the line parses to an
    object whose keys are the seven listed names, with [signature] when and
    only when a signer is configured. *)
Definition SPEC_FIELDS : list pystr :=
  [ lit "timestamp"; lit "source"; lit "level"; lit "message";
    lit "file"; lit "line"; lit "function" ].

Definition fields_as_specified (signed : bool) (line : pystr) : Prop :=
  exists o,
    loads line = Some o
    /\ map fst o ≡ₚ SPEC_FIELDS ++ (if signed then [lit "signature"] else []).

(** *** The process: hooks, loggers, the crash file, what was done *)

Inductive sys_hook : Type :=
| Sys_default_excepthook
| Sys_excepthook_logger
| Sys_other (id : nat).

Inductive thread_hook : Type :=
| Thread_default_excepthook
| Thread_thread_excepthook
| Thread_other (id : nat).

Inductive loop_handler : Type :=
| Loop_asyncio_exception_handler
| Loop_other (id : nat).

Record EventLoop : Type := mkLoop {
  is_running : bool;
  exception_handler : option loop_handler;
}.

Record Hooks : Type := mkHooks {
  version_info : nat * nat;
  sys_excepthook : sys_hook;
  (** [threading.excepthook]; the attribute exists from Python 3.8 on *)
  threading_excepthook : thread_hook;
  (** the current event loop, when one is set *)
  event_loop : option EventLoop;
  (** whether [asyncio.get_event_loop()] makes a loop when none is set
      (it raises [RuntimeError] otherwise) *)
  loop_on_demand : bool;
}.

(** What a call did, oldest first. *)
Inductive event : Type :=
| LogCall (logger_name : pystr) (levelno : Z) (msg : pystr)
          (ei : option FaultInfo)
| DefaultExcepthook (fi : FaultInfo)
| CrashOpen
| CrashWrite (chunk : pystr)
| CrashClose.

Record Process : Type := mkProcess {
  hooks : Hooks;
  (** [logging.getLogger(name)] for the names met so far *)
  loggers : gmap pystr LoggerState;
  capture_warnings : bool;
  (** [sys.argv[0]] and [os.environ.get("COMPUTERNAME")] *)
  argv0 : pystr;
  computername : option pystr;
  (** the content of [LAST_CRASH_FILE]; [None] when it does not exist *)
  crash_file : option pystr;
  trace : list event;
}.

Definition set_hooks (h : Hooks) (p : Process) : Process :=
  mkProcess h (loggers p) (capture_warnings p) (argv0 p) (computername p)
            (crash_file p) (trace p).
Definition set_loggers (l : gmap pystr LoggerState) (p : Process) : Process :=
  mkProcess (hooks p) l (capture_warnings p) (argv0 p) (computername p)
            (crash_file p) (trace p).
Definition set_capture_warnings (b : bool) (p : Process) : Process :=
  mkProcess (hooks p) (loggers p) b (argv0 p) (computername p)
            (crash_file p) (trace p).
Definition set_crash_file (c : option pystr) (p : Process) : Process :=
  mkProcess (hooks p) (loggers p) (capture_warnings p) (argv0 p)
            (computername p) c (trace p).
Definition set_trace (t : list event) (p : Process) : Process :=
  mkProcess (hooks p) (loggers p) (capture_warnings p) (argv0 p)
            (computername p) (crash_file p) t.

(** Calls that change the process and may raise. *)
Abbreviation M := (StateExc Process).

Definition emit (ev : event) : M unit :=
  modify (fun p => set_trace (trace p ++ [ev]) p).

(** *** [dump_last_crash] *)

(** How the storage behaves during one call: all goes well, [open]
    raises, a write raises after [n] chunks went through, or closing
    raises. *)
Inductive Disk : Type :=
| DiskOk
| OpenFails (e : exc_class)
| WriteFails (n : nat) (e : exc_class)
| CloseFails (e : exc_class).

(** [open(LAST_CRASH_FILE, "w", encoding="utf-8")]: the file is created
    or truncated at once. *)
Definition open_w (d : Disk) : M unit :=
  match d with
  | OpenFails e => raise e
  | _ => modify (set_crash_file (Some [])) ;; emit CrashOpen
  end.

Definition f_write (chunk : pystr) : M unit :=
  modify (fun p => set_crash_file (Some (default [] (crash_file p) ++ chunk)) p) ;;
  emit (CrashWrite chunk).

Fixpoint write_chunks (budget : option (nat * exc_class))
         (chunks : list pystr) : M unit :=
  match chunks with
  | [] => mret tt
  | c :: rest =>
      match budget with
      | Some (O, e) => raise e
      | Some (S n, e) => f_write c ;; write_chunks (Some (n, e)) rest
      | None => f_write c ;; write_chunks None rest
      end
  end.

(** The writes that go through before one raises, if one does. *)
Definition budget_of (d : Disk) : option (nat * exc_class) :=
  match d with
  | WriteFails n e => Some (n, e)
  | _ => None
  end.

(** [traceback.print_exception(exc_type, exc_value, exc_traceback, file=f)] *)
Definition print_exception `{L : PyLib} (d : Disk) (fi : FaultInfo) : M unit :=
  write_chunks (budget_of d) (format_exception fi).

Definition f_close (d : Disk) : M unit :=
  emit CrashClose ;;
  match d with
  | CloseFails e => raise e
  | _ => mret tt
  end.

(** [with open(...) as f: body]: the file is closed on the way out, also
    when the body raises. *)
Definition closing (d : Disk) (body : M unit) : M unit :=
  fun p =>
    match body p with
    | (Returns _, p') => f_close d p'
    | (Raises e, p') =>
        match f_close d p' with
        | (Returns _, p'') => (Raises e, p'')
        | (Raises e', p'') => (Raises e', p'')
        end
    end.

Definition with_open (d : Disk) (body : M unit) : M unit :=
  open_w d ;; closing d body.

Definition dump_last_crash `{L : PyLib} (d : Disk) (fi : FaultInfo) : M unit :=
  try_except_Exception_pass (with_open d (print_exception d fi)).

(** *** The three hooks *)

Definition ROOT : pystr := lit "root".

(** [logging.getLogger().critical(msg, exc_info=...)] and [.error] *)
Definition logger_critical (msg : pystr) (ei : option FaultInfo) : M unit :=
  emit (LogCall ROOT CRITICAL msg ei).
Definition logger_error (msg : pystr) (ei : option FaultInfo) : M unit :=
  emit (LogCall ROOT ERROR msg ei).

(** [sys.__excepthook__] *)
Definition sys___excepthook__ (fi : FaultInfo) : M unit :=
  emit (DefaultExcepthook fi).

Definition E_ACUTE : N := 233.

(** The three messages of the hooks. *)
Definition MAIN_MESSAGE : pystr :=
  lit "Exception non g" ++ [E_ACUTE] ++ lit "r" ++ [E_ACUTE] ++ lit "e :".
Definition thread_message (thread_name : pystr) : pystr :=
  lit "Exception dans un thread '" ++ thread_name ++ lit "' :".
Definition asyncio_message (msg : pystr) : pystr :=
  lit "Exception asyncio : " ++ msg.

Definition excepthook_logger `{L : PyLib} (d : Disk) (fi : FaultInfo) : M unit :=
  if issubclass (exc_type fi) KeyboardInterrupt then
    sys___excepthook__ fi
  else
    logger_critical MAIN_MESSAGE (Some fi) ;;
    dump_last_crash d fi.

(** [threading.ExceptHookArgs] *)
Record ExceptHookArgs : Type := mkArgs {
  args_exc_type : exc_class;
  args_exc_value : pystr;
  args_exc_traceback : list Frame;
  args_thread_name : pystr;
}.

Definition args_fault (args : ExceptHookArgs) : FaultInfo :=
  mkFault (args_exc_type args) (args_exc_value args) (args_exc_traceback args).

Definition thread_excepthook `{L : PyLib} (d : Disk) (args : ExceptHookArgs) : M unit :=
  if issubclass (args_exc_type args) KeyboardInterrupt then
    mret tt
  else
    logger_critical (thread_message (args_thread_name args))
                    (Some (args_fault args)) ;;
    dump_last_crash d (args_fault args).

(** The [context] dictionary of the loop's exception handler. *)
Record Context : Type := mkContext {
  ctx_message : option pystr;
  ctx_exception : option FaultInfo;
}.

Definition asyncio_exception_handler `{L : PyLib} (d : Disk) (context : Context) : M unit :=
  let msg := default (lit "Erreur asyncio inconnue") (ctx_message context) in
  let exception := ctx_exception context in
  match exception with
  | Some exn =>
      logger_error (asyncio_message msg) (Some exn) ;;
      dump_last_crash d exn
  | None =>
      logger_error (asyncio_message msg) None
  end.

(** *** [install_global_exception_handlers] *)

Definition set_sys_excepthook (h : sys_hook) (k : Hooks) : Hooks :=
  mkHooks (version_info k) h (threading_excepthook k) (event_loop k)
          (loop_on_demand k).
Definition set_threading_excepthook (h : thread_hook) (k : Hooks) : Hooks :=
  mkHooks (version_info k) (sys_excepthook k) h (event_loop k)
          (loop_on_demand k).
Definition set_event_loop (l : option EventLoop) (k : Hooks) : Hooks :=
  mkHooks (version_info k) (sys_excepthook k) (threading_excepthook k) l
          (loop_on_demand k).

(** [sys.version_info >= (3, 8)] *)
Definition version_ge_3_8 (v : nat * nat) : bool :=
  (3 <? fst v)%nat || ((fst v =? 3)%nat && (8 <=? snd v)%nat).

(** [asyncio.get_event_loop()]: the loop, after it was made if need be,
    or [None] for [RuntimeError]. *)
Definition get_event_loop (k : Hooks) : option EventLoop * Hooks :=
  match event_loop k with
  | Some l => (Some l, k)
  | None =>
      if loop_on_demand k
      then (Some (mkLoop false None),
            set_event_loop (Some (mkLoop false None)) k)
      else (None, k)
  end.

Definition install_hooks (k : Hooks) : Hooks :=
  let k := set_sys_excepthook Sys_excepthook_logger k in
  let k :=
    if version_ge_3_8 (version_info k)
    then set_threading_excepthook Thread_thread_excepthook k
    else k in
  match get_event_loop k with
  | (Some loop, k) =>
      if negb (is_running loop)
      then set_event_loop
             (Some (mkLoop (is_running loop)
                           (Some Loop_asyncio_exception_handler))) k
      else k
  | (None, k) => k
  end.

Definition install_global_exception_handlers : M unit :=
  modify (fun p => set_hooks (install_hooks (hooks p)) p).

(** *** The class [Logger] *)

Record Logger : Type := mkLoggerObj {
  module_name : pystr;
  log_path : pystr;
  api_log_path : pystr;
}.

Definition application_base `{L : PyLib} (p : Process) : pystr :=
  match argv0 p with
  | [] => lit "application"
  | _ :: _ => path_stem (argv0 p)
  end.

Definition log_file_named `{L : PyLib} (ext : pystr) (p : Process) : pystr :=
  let base := application_base p in
  let log_dir := path_join (path_resolve_parent (argv0 p)) (lit "logs") in
  path_join log_dir
    (base ++ lit "_" ++ default (lit "unknown") (computername p) ++ ext).

Definition _log_path_for_module `{L : PyLib} (p : Process) : pystr :=
  log_file_named (lit ".log") p.
Definition _log_path_Jsonfor_module `{L : PyLib} (p : Process) : pystr :=
  log_file_named (lit ".json") p.

(** [logging.getLogger(name)]: the logger of that name, new when the name
    was not met before. *)
Definition getLogger (nm : pystr) (p : Process) : LoggerState :=
  default fresh_logger (loggers p !! nm).

(** [logging.getLogger(name).handlers] *)
Definition handlers_of (nm : pystr) (p : Process) : list Handler :=
  lg_handlers (getLogger nm p).

Definition update_logger (nm : pystr) (f : LoggerState -> LoggerState) : M unit :=
  modify (fun p => set_loggers (<[nm := f (getLogger nm p)]> (loggers p)) p).

Definition LINE_FORMAT : pystr :=
  lit "%(asctime)s - [%(name)s] - %(levelname)s - %(message)s".

Definition _setup_console_handler (self : Logger) (level : Z) : M unit :=
  update_logger (module_name self)
    (addHandler (mkHandler StreamHandler_stdout level (ColoredFormatter LINE_FORMAT))).

Definition _setup_file_handler (self : Logger) : M unit :=
  update_logger (module_name self)
    (addHandler (mkHandler (TimedRotatingFileHandler (log_path self) (lit "midnight") 7)
                           DEBUG (PlainFormatter LINE_FORMAT))).

Definition _setup_api_app (self : Logger) : M unit :=
  update_logger (module_name self)
    (addHandler (mkHandler (RotatingFileHandler (api_log_path self) 10485760 7)
                           DEBUG (JsonFormatter None))).

Definition is_main (nm : pystr) : bool := bool_decide (nm = lit "__main__").

(** [name if name and name != "__main__" else Path(sys.argv[0]).name] *)
Definition module_name_for `{L : PyLib} (name : option pystr) (p : Process) : pystr :=
  match name with
  | Some (c :: nm) =>
      if is_main (c :: nm) then path_name (argv0 p) else c :: nm
  | _ => path_name (argv0 p)
  end.

(** [Logger.__init__].  Creating the log directory and opening the log
    files are taken to succeed. *)
Definition Logger_init `{L : PyLib} (name : option pystr) (level : Z)
           (install_excepthook : bool) : M Logger :=
  module_name ← gets (module_name_for name) ;
  log_path ← gets _log_path_for_module ;
  api_log_path ← gets _log_path_Jsonfor_module ;
  let self := mkLoggerObj module_name log_path api_log_path in
  update_logger module_name (setLevel level) ;;
  update_logger module_name (set_propagate false) ;;
  handlers ← gets (handlers_of module_name) ;
  match handlers with
  | [] =>
      _setup_console_handler self level ;;
      _setup_file_handler self ;;
      _setup_api_app self
  | _ :: _ => mret tt
  end ;;
  modify (set_capture_warnings true) ;;
  (if install_excepthook then install_global_exception_handlers else mret tt) ;;
  emit (LogCall module_name DEBUG
          (lit "Logger initialis" ++ [E_ACUTE] ++ lit ". Log: " ++ log_path
             ++ lit ", JSON: " ++ api_log_path) None) ;;
  mret self.

(** *** Delivery of an uncaught fault by the interpreter *)

Inductive fault_event : Type :=
| MainFault (fi : FaultInfo)
| ThreadFault (args : ExceptHookArgs)
| TaskFault (context : Context).

(** The fault triple a context hands to its hook, when there is one. *)
Definition fault_of (f : fault_event) : option FaultInfo :=
  match f with
  | MainFault fi => Some fi
  | ThreadFault args => Some (args_fault args)
  | TaskFault context => ctx_exception context
  end.

(** The hook of this module for each context. *)
Definition hook_for `{L : PyLib} (d : Disk) (f : fault_event) : M unit :=
  match f with
  | MainFault fi => excepthook_logger d fi
  | ThreadFault args => thread_excepthook d args
  | TaskFault context => asyncio_exception_handler d context
  end.

(** Whether the hook of this module is the one installed for the
    context. *)
Definition installed_for (k : Hooks) (f : fault_event) : bool :=
  match f with
  | MainFault _ =>
      match sys_excepthook k with
      | Sys_excepthook_logger => true
      | _ => false
      end
  | ThreadFault _ =>
      match threading_excepthook k with
      | Thread_thread_excepthook => true
      | _ => false
      end
  | TaskFault _ =>
      match event_loop k with
      | Some (mkLoop _ (Some Loop_asyncio_exception_handler)) => true
      | _ => false
      end
  end.

(** The interpreter calls whatever is installed for the context.  A hook
    that is not one of this module's is not followed. *)
Definition deliver `{L : PyLib} (d : Disk) (f : fault_event) : M unit :=
  k ← gets hooks ;
  if installed_for k f then hook_for d f else mret tt.

(** *** Reading the trace *)

Definition is_log_at (level : Z) (ev : event) : bool :=
  match ev with
  | LogCall _ l _ _ => bool_decide (l = level)
  | _ => false
  end.

Definition is_crash_open (ev : event) : bool :=
  match ev with
  | CrashOpen => true
  | _ => false
  end.

Definition is_crash_event (ev : event) : bool :=
  match ev with
  | CrashOpen | CrashWrite _ | CrashClose => true
  | _ => false
  end.

Definition is_log (ev : event) : bool :=
  match ev with
  | LogCall _ _ _ _ => true
  | _ => false
  end.

Definition count (f : event -> bool) (t : list event) : nat :=
  length (List.filter f t).

(** The events a call added. *)
Definition new_events (before after : Process) : list event :=
  drop (length (trace before)) (trace after).

(** The content of the crash file after each of the events, for a reader
    that looks at the file between two steps of the writer. *)
Definition file_step (content : option pystr) (ev : event) : option pystr :=
  match ev with
  | CrashOpen => Some []
  | CrashWrite chunk => Some (default [] content ++ chunk)
  | _ => content
  end.

Fixpoint file_views (content : option pystr) (t : list event) : list (option pystr) :=
  match t with
  | [] => []
  | ev :: rest => file_step content ev :: file_views (file_step content ev) rest
  end.

Definition report `{L : PyLib} (fi : FaultInfo) : pystr :=
  concat (format_exception fi).

(** *** What one call of [dump_last_crash] does, in closed form *)

Definition written (budget : option (nat * exc_class)) (chunks : list pystr)
  : list pystr :=
  match budget with
  | Some (n, _) => take n chunks
  | None => chunks
  end.

Definition write_raised (budget : option (nat * exc_class))
           (chunks : list pystr) : option exc_class :=
  match budget with
  | Some (n, e) => if (n <? length chunks)%nat then Some e else None
  | None => None
  end.

Definition outcome_of (r : option exc_class) : outcome unit :=
  match r with
  | Some e => Raises e
  | None => Returns tt
  end.

Definition dump_events (d : Disk) (chunks : list pystr) : list event :=
  match d with
  | OpenFails _ => []
  | _ => CrashOpen :: map CrashWrite (written (budget_of d) chunks) ++ [CrashClose]
  end.

Definition dump_content (d : Disk) (chunks : list pystr)
           (previous : option pystr) : option pystr :=
  match d with
  | OpenFails _ => previous
  | _ => Some (concat (written (budget_of d) chunks))
  end.

(** What is raised inside the [try] block, if anything. *)
Definition dump_raised (d : Disk) (chunks : list pystr) : option exc_class :=
  match d with
  | DiskOk => None
  | OpenFails e => Some e
  | WriteFails n e => write_raised (Some (n, e)) chunks
  | CloseFails e => Some e
  end.

(** What the storage raises during the call, if anything. *)
Definition disk_error (d : Disk) : option exc_class :=
  match d with
  | DiskOk => None
  | OpenFails e | WriteFails _ e | CloseFails e => Some e
  end.

(** The reading of "atomic replacement": whenever a reader looks, the
    crash file holds what it held before the call or the whole new
    report. *)
Definition old_or_new `{L : PyLib} (d : Disk) (fi : FaultInfo) (p : Process) : Prop :=
  Forall (fun view => view = crash_file p \/ view = Some (report fi))
         (file_views (crash_file p)
                     (new_events p (snd (dump_last_crash d fi p)))).

(** The reading of "every fault is logged at CRITICAL and recorded": the
    hook of the context logs the fault triple at CRITICAL and goes through
    [dump_last_crash] for the same triple. *)
Definition logs_critical_and_records `{L : PyLib} (d : Disk) (f : fault_event)
           (p : Process) : Prop :=
  forall fi, fault_of f = Some fi ->
    let evs := new_events p (snd (hook_for d f p)) in
    (exists msg, In (LogCall ROOT CRITICAL msg (Some fi)) evs)
    /\ (exists before, evs = before ++ dump_events d (format_exception fi)).

(** The reading of "an interrupt is passed through": nothing is logged at
    CRITICAL, the crash file is not opened, and the default hook gets the
    interrupt. *)
Definition interrupt_passed_through `{L : PyLib} (d : Disk) (f : fault_event)
           (p : Process) : Prop :=
  let evs := new_events p (snd (hook_for d f p)) in
  count (is_log_at CRITICAL) evs = 0%nat
  /\ count is_crash_open evs = 0%nat
  /\ (exists fi, fault_of f = Some fi /\ In (DefaultExcepthook fi) evs).

(** What passes [except Exception: pass]. *)
Definition swallowed (r : option exc_class) : outcome unit :=
  match r with
  | Some e => if issubclass e Exception then Returns tt else Raises e
  | None => Returns tt
  end.

End MyLogger.

(* ===================================================================== *)
(** ** [jvlogger/jvlogger.py] *)
(* ===================================================================== *)

Module JVLogger.
Import MyLogger.

(** *** The modules of the package that the wrapper imports *)

(** Modelled from the spec: [exceptions.SingleInstanceError], whose module
    is not among the sources; the wrapper's docstring names it as what is
    raised when the lock cannot be taken, and the spec asks for a signal of
    its own, distinct from other failures. *)
Definition SingleInstanceError : exc_class :=
  UserClass (lit "SingleInstanceError") Exception.

(** A lock object made by [mutex.create_lock]. *)
Record Lock : Type := mkLock { lock_id : pystr }.

(** What differs from one platform and script to the next. *)
Record Platform : Type := mkPlatform {
  (** whether [create_lock] has a mechanism here (it returns [None]
      otherwise) *)
  lock_supported : bool;
  (** what [lock.release()] raises here, if anything *)
  release_error : option exc_class;
  hostname : pystr;
  (** [sys.executable] when [sys] has [_MEIPASS] *)
  frozen_executable : option pystr;
  (** the handlers [logging.json] declares for the application logger,
      given the logger name, the log directory and the signer; the test
      suite expects three of them (console, text, json) *)
  configured_handlers : pystr -> pystr -> option Signer -> list Handler;
  (** [Path(p).resolve()] *)
  path_resolve : pystr -> pystr;
}.

Inductive call : Type :=
| LockAcquire (name : pystr) (ok : bool)
| LockRelease (name : pystr)
| HandlerClose (h : Handler)
| LifecycleStart (app_name : pystr)
| LifecycleStop (app_name : pystr).

Record System : Type := mkSystem {
  process : Process;
  (** the names whose lock is held, by this process or another one *)
  held : gset pystr;
  calls : list call;
}.

Abbreviation J := (StateExc System).

Definition set_process (p : Process) (s : System) : System :=
  mkSystem p (held s) (calls s).
Definition set_held (h : gset pystr) (s : System) : System :=
  mkSystem (process s) h (calls s).
Definition note (c : call) : J unit :=
  modify (fun s => mkSystem (process s) (held s) (calls s ++ [c])).

(** A call of [my_logger]'s kind run on the process of the system. *)
Definition on_process {A : Type} (m : M A) : J A :=
  fun s =>
    match m (process s) with
    | (r, p') => (r, set_process p' s)
    end.

(** Modelled from the spec: [mutex.create_lock], whose module is not among
    the sources: a lock object for the name where the platform has a
    mechanism, [None] where it has none. *)
Definition create_lock (pf : Platform) (name : pystr) : option Lock :=
  if lock_supported pf then Some (mkLock name) else None.

(** Modelled from the spec: [lock.acquire()], called without a timeout:
    it answers at once, [False] when the name is held and [True], taking
    it, when it is free. *)
Definition acquire (lock : Lock) : J bool :=
  h ← gets held ;
  if bool_decide (lock_id lock ∈ h)
  then note (LockAcquire (lock_id lock) false) ;; mret false
  else modify (set_held ({[ lock_id lock ]} ∪ h)) ;;
       note (LockAcquire (lock_id lock) true) ;; mret true.

(** Modelled from the spec: [lock.release()], whose module is not among
    the sources: the name is no longer held; the platform may make the call
    raise instead. *)
Definition release (pf : Platform) (lock : Lock) : J unit :=
  note (LockRelease (lock_id lock)) ;;
  match release_error pf with
  | Some e => raise e
  | None => modify (fun s => set_held (held s ∖ {[ lock_id lock ]}) s)
  end.

(** *** The wrapper *)

Record JVLogger : Type := mkJVLogger {
  jv_name : pystr;
  signer : option Signer;
  _lock : option Lock;
  _lifecycle : bool;
  log_dir : pystr;
}.

Definition set_lock (l : option Lock) (self : JVLogger) : JVLogger :=
  mkJVLogger (jv_name self) (signer self) l (_lifecycle self) (log_dir self).
Definition set_lifecycle (b : bool) (self : JVLogger) : JVLogger :=
  mkJVLogger (jv_name self) (signer self) (_lock self) b (log_dir self).

(** [a or b] on strings: [a] unless it is [None] or empty. *)
Definition str_or (a : option pystr) (b : pystr) : pystr :=
  match a with
  | Some (c :: rest) => c :: rest
  | _ => b
  end.

Definition _log_dir `{L : PyLib} (pf : Platform) (log_dir : option pystr)
           (p : Process) : pystr :=
  match log_dir with
  | Some dir => path_resolve pf dir
  | None =>
      let base_dir :=
        match frozen_executable pf with
        | Some exe => path_resolve_parent exe
        | None => path_resolve_parent (argv0 p)
        end in
      path_join (path_join base_dir (lit "logs")) (hostname pf)
  end.

(** [_setup_logging_from_json]: of [dictConfig] the effect on the logger
    of this name is kept: it gets the handlers of the configuration. *)
Definition _setup_logging_from_json (pf : Platform) (self : JVLogger)
           (level : Z) : J unit :=
  on_process
    (update_logger (jv_name self)
       (set_handlers (configured_handlers pf (jv_name self) (log_dir self)
                                          (signer self))) ;;
     update_logger (jv_name self) (setLevel level)).

(** The block [if single_instance: ...] of [__init__]: the lock to keep
    in [self._lock], or [SingleInstanceError]. *)
Definition single_instance_lock (pf : Platform) (single_instance : bool)
           (mutex_name : option pystr) (base_name : pystr) : J (option Lock) :=
  if single_instance then
    let lock_id := str_or mutex_name base_name in
    match create_lock pf lock_id with
    | Some lock =>
        ok ← acquire lock ;
        if negb ok then raise SingleInstanceError
        else mret (Some lock)
    | None => mret None
    end
  else mret None.

(** The rest of [__init__], from "Setup logger object" on.  The module
    [hooks] of the package is not among the sources;
    [install_global_exception_handlers] of [my_logger.py] stands for the
    function of that name it exports. *)
Definition configure (pf : Platform) (self : JVLogger) (level : Z)
           (install_excepthooks lifecycle : bool) : J unit :=
  on_process (update_logger (jv_name self) (setLevel level)) ;;
  on_process (update_logger (jv_name self) (set_propagate false)) ;;
  handlers ← gets (fun s => handlers_of (jv_name self) (process s)) ;
  match handlers with
  | [] => _setup_logging_from_json pf self level
  | _ :: _ => mret tt
  end ;;
  on_process (modify (set_capture_warnings true)) ;;
  (if install_excepthooks
   then on_process install_global_exception_handlers
   else mret tt) ;;
  (if lifecycle
   then note (LifecycleStart (jv_name self))
   else on_process (emit (LogCall (jv_name self) DEBUG
                                  (lit "Logger initialized") None))).

Definition base_name_for `{L : PyLib} (name : option pystr) (s : System) : pystr :=
  str_or name (application_base (process s)).

(** [JVLogger.__init__].  Creating the log directory and reading the
    configuration are taken to succeed. *)
Definition JVLogger_init `{L : PyLib} (pf : Platform)
           (name : option pystr) (level : Z) (install_excepthooks : bool)
           (single_instance : bool) (mutex_name : option pystr)
           (signer : option Signer) (log_dir : option pystr)
           (lifecycle : bool) : J JVLogger :=
  base_name ← gets (base_name_for name) ;
  dir ← gets (fun s => _log_dir pf log_dir (process s)) ;
  lock ← single_instance_lock pf single_instance mutex_name base_name ;
  let self := mkJVLogger base_name signer lock lifecycle dir in
  configure pf self level install_excepthooks lifecycle ;;
  mret self.

(** [logger.removeHandler(h)]: the first occurrence goes. *)
Fixpoint remove_first (h : Handler) (hs : list Handler) : list Handler :=
  match hs with
  | [] => []
  | h' :: rest =>
      if bool_decide (h = h') then rest else h' :: remove_first h rest
  end.

Definition removeHandler (h : Handler) (l : LoggerState) : LoggerState :=
  set_handlers (remove_first h (lg_handlers l)) l.

(** The loop of [close] over [list(self.logger.handlers)]. *)
Fixpoint close_handlers (nm : pystr) (hs : list Handler) : J unit :=
  match hs with
  | [] => mret tt
  | h :: rest =>
      note (HandlerClose h) ;;
      on_process (update_logger nm (removeHandler h)) ;;
      close_handlers nm rest
  end.

(** The wrapper object and the system it lives in: [close] changes both,
    also when it raises. *)
Record Instance : Type := mkInstance {
  self_of : JVLogger;
  system_of : System;
}.

Definition on_system {A : Type} (m : J A) : StateExc Instance A :=
  fun i =>
    match m (system_of i) with
    | (r, s') => (r, mkInstance (self_of i) s')
    end.

Definition on_self (f : JVLogger -> JVLogger) : Instance -> Instance :=
  fun i => mkInstance (f (self_of i)) (system_of i).

(** [JVLogger.close] *)
Definition close (pf : Platform) : StateExc Instance unit :=
  self ← gets self_of ;
  (if _lifecycle self
   then on_system (note (LifecycleStop (jv_name self))) ;;
        modify (on_self (set_lifecycle false))
   else mret tt) ;;
  handlers ← gets (fun i => handlers_of (jv_name self) (process (system_of i))) ;
  on_system (close_handlers (jv_name self) handlers) ;;
  match _lock self with
  | Some lock =>
      try_finally (on_system (release pf lock)) (on_self (set_lock None))
  | None => mret tt
  end.

(** *** Reading the calls *)

Definition is_release (c : call) : bool :=
  match c with
  | LockRelease _ => true
  | _ => false
  end.

(** The calls made since an earlier state of the system. *)
Definition new_calls (before after : System) : list call :=
  drop (length (calls before)) (calls after).

End JVLogger.

(* ===================================================================== *)
(** ** Concrete values, for the worked cases *)
(* ===================================================================== *)

Module Samples.
Import MyLogger JVLogger.

Definition NEWLINE : N := 10.

(** A stand-in for the library: a fixed time stamp, a two-line traceback
    text, paths joined with a slash. *)
Definition sample_traceback (fi : FaultInfo) : list pystr :=
  [ lit "Traceback (most recent call last):" ++ [NEWLINE];
    lit "Error: " ++ exc_value fi ++ [NEWLINE] ].

Definition sample_lib : PyLib := {|
  PyFloat := Z;
  fromtimestamp_isoformat := fun _ => lit "2024-05-01T12:00:00.000000";
  formatException := fun fi => concat (sample_traceback fi);
  format_exception := sample_traceback;
  path_name := fun p => p;
  path_stem := fun p => p;
  path_resolve_parent := fun _ => lit "/srv/app";
  path_join := fun a b => a ++ lit "/" ++ b;
|}.

Definition sample_fault : FaultInfo :=
  mkFault ZeroDivisionError (lit "division by zero")
          [mkFrame (lit "main.py") 12 (lit "<module>")].

Definition sample_interrupt : FaultInfo :=
  mkFault KeyboardInterrupt [] [mkFrame (lit "main.py") 30 (lit "run")].

Definition sample_args : ExceptHookArgs :=
  mkArgs ZeroDivisionError (lit "division by zero")
         [mkFrame (lit "worker.py") 7 (lit "work")] (lit "Thread-1").

Definition sample_interrupt_args : ExceptHookArgs :=
  mkArgs KeyboardInterrupt [] [] (lit "Thread-1").

Definition sample_context : Context :=
  mkContext (Some (lit "Task exception was never retrieved")) (Some sample_fault).

Definition sample_interrupt_context : Context :=
  mkContext (Some (lit "Task exception was never retrieved")) (Some sample_interrupt).

Definition sample_hooks : Hooks :=
  mkHooks (3, 11)%nat Sys_default_excepthook Thread_default_excepthook
          (Some (mkLoop false None)) false.

(** A process that has not configured anything and whose crash file
    holds an earlier report. *)
Definition sample_process : Process :=
  mkProcess sample_hooks ∅ false (lit "app.py") None
            (Some (lit "Traceback of an earlier crash")) [].

(** [h] then the character U+00E9, [llo "world"]. *)
Definition sample_message : pystr :=
  [104; 233] ++ lit "llo " ++ [QUOTE] ++ lit "world" ++ [QUOTE].

Definition sample_record : @LogRecord sample_lib :=
  @mkRecord sample_lib 0%Z (lit "app") (lit "INFO") sample_message
            (lit "main.py") 3 (lit "<module>") None.

Definition sample_record_with_fault : @LogRecord sample_lib :=
  @mkRecord sample_lib 0%Z (lit "app") (lit "ERROR") (lit "failed")
            (lit "main.py") 12 (lit "<module>") (Some sample_fault).

Definition sample_handlers (name dir : pystr) (sg : option Signer) : list Handler :=
  [ mkHandler StreamHandler_stdout INFO (ColoredFormatter LINE_FORMAT);
    mkHandler (TimedRotatingFileHandler (dir ++ lit "/" ++ name ++ lit ".log")
                                        (lit "midnight") 7)
              DEBUG (PlainFormatter LINE_FORMAT);
    mkHandler (RotatingFileHandler (dir ++ lit "/" ++ name ++ lit ".json")
                                   10485760 7)
              DEBUG (JsonFormatter sg) ].

Definition sample_platform : Platform :=
  mkPlatform true None (lit "host1") None sample_handlers (fun p => p).

Definition sample_system : System := mkSystem sample_process ∅ [].

(** The same system when another instance holds the lock named [app]. *)
Definition sample_system_locked : System :=
  mkSystem sample_process {[ lit "app" ]} [].

End Samples.

(* ===================================================================== *)
(** ** [my_logger.py]: the console formatter *)
(* ===================================================================== *)

Module Console.
Import MyLogger.

(** The escape sequences of colorama: [ESC], an opening bracket, the code
    and [m]. *)
Definition ESC : N := 27.
Definition CSI (code : pystr) : pystr := ESC :: 91 :: code ++ [109].

Definition Fore_BLUE : pystr := CSI (lit "34").
Definition Fore_GREEN : pystr := CSI (lit "32").
Definition Fore_YELLOW : pystr := CSI (lit "33").
Definition Fore_RED : pystr := CSI (lit "31").
Definition Style_DIM : pystr := CSI (lit "2").
Definition Style_BRIGHT : pystr := CSI (lit "1").
Definition Style_RESET_ALL : pystr := CSI (lit "0").

Definition COLOR_TABLE : list (pystr * pystr) :=
  [ (lit "DEBUG", Fore_BLUE ++ Style_DIM);
    (lit "INFO", Fore_GREEN);
    (lit "WARNING", Fore_YELLOW);
    (lit "ERROR", Fore_RED);
    (lit "CRITICAL", Fore_RED ++ Style_BRIGHT) ].

Definition COLOR_LEVELS : gmap pystr pystr := list_to_map COLOR_TABLE.

Section Colored.
Context `{L : PyLib}.

(** [logging.Formatter.format] for a format string; its text is not part of
    the module. *)
Variable Formatter_format : pystr -> LogRecord -> pystr.

(** [logging.makeLogRecord(record.__dict__.copy())] with a new
    [levelname]. *)
Definition with_levelname (record : LogRecord) (lv : pystr) : LogRecord :=
  @mkRecord L (created record) (name record) lv (getMessage record)
            (filename record) (lineno record) (funcName record)
            (exc_info record).

(** [ColoredFormatter.format] *)
Definition ColoredFormatter_format (fmt : pystr) (record : LogRecord) : pystr :=
  let levelname := levelname record in
  let color := default [] (COLOR_LEVELS !! levelname) in
  let reset := Style_RESET_ALL in
  let record_copy := with_levelname record (color ++ levelname ++ reset) in
  Formatter_format fmt record_copy.

End Colored.

End Console.

(* ===================================================================== *)
(** ** [jvlogger/jvlogger.py]: the configuration and the context manager *)
(* ===================================================================== *)

Module Config.
Import MyLogger JVLogger.

(** *** [str.replace] *)

Fixpoint starts_with (pre s : pystr) : bool :=
  match pre, s with
  | [], _ => true
  | _ :: _, [] => false
  | a :: pre', b :: s' => (a =? b) && starts_with pre' s'
  end.

(** Left to right, without overlap: where [old] starts, [new] is written
    and the rest of that occurrence is skipped. *)
Fixpoint replace_from (skip : nat) (old new s : pystr) : pystr :=
  match s with
  | [] => []
  | c :: rest =>
      match skip with
      | S k => replace_from k old new rest
      | O =>
          if starts_with old s
          then new ++ replace_from (length old - 1) old new rest
          else c :: replace_from 0 old new rest
      end
  end.

(** [s.replace(old, new)]; an empty [old] matches before every character
    and at the end. *)
Definition str_replace (old new s : pystr) : pystr :=
  match old with
  | [] => new ++ flat_map (fun c => c :: new) s
  | _ :: _ => replace_from 0 old new s
  end.

(** *** The dictionary read from [logging.json] *)

(** The values found in the entries of the configuration. *)
Inductive conf : Type :=
| CStr (s : pystr)
| CInt (z : Z)
| CBool (b : bool)
| CNames (l : list pystr)
| CSigner (sg : option Signer).

(** The three sections [_setup_logging_from_json] reads; each is a
    dictionary of dictionaries, and may be missing from the file. *)
Record config : Type := mkConfig {
  c_loggers : option (gmap pystr (gmap pystr conf));
  c_handlers : option (gmap pystr (gmap pystr conf));
  c_formatters : option (gmap pystr (gmap pystr conf));
}.

Inductive config_error : Type :=
| KeyError (key : pystr)
| AttributeError.

Definition APP_LOGGER : pystr := lit "APP_LOGGER".
Definition APP_NAME : pystr := lit "APP_NAME".
Definition FILENAME : pystr := lit "filename".

(** [config["loggers"][self.name] = config["loggers"].pop("APP_LOGGER")] *)
Definition rename_logger (name : pystr) (ls : gmap pystr (gmap pystr conf))
  : config_error + gmap pystr (gmap pystr conf) :=
  match ls !! APP_LOGGER with
  | None => inl (KeyError APP_LOGGER)
  | Some e => inr (<[name := e]> (delete APP_LOGGER ls))
  end.

(** Whether the body of the loop over the handlers goes through: a
    [filename] that is not a string has no [replace]. *)
Definition filename_ok (h : gmap pystr conf) : bool :=
  match h !! FILENAME with
  | None | Some (CStr _) => true
  | Some _ => false
  end.

(** The body of the loop, for a handler on which it goes through. *)
Definition set_filename `{L : PyLib} (name log_dir : pystr) (h : gmap pystr conf)
  : gmap pystr conf :=
  match h !! FILENAME with
  | Some (CStr f) =>
      <[FILENAME := CStr (path_join log_dir (str_replace APP_NAME name f))]> h
  | _ => h
  end.

Definition set_filenames `{L : PyLib} (name log_dir : pystr)
           (hs : gmap pystr (gmap pystr conf))
  : config_error + gmap pystr (gmap pystr conf) :=
  if bool_decide (map_Forall (fun _ h => filename_ok h = true) hs)
  then inr (set_filename name log_dir <$> hs)
  else inl AttributeError.

(** The part of [_setup_logging_from_json] between reading the file and
    [dictConfig]: the "dynamic injection" into the dictionary. *)
Definition inject_config `{L : PyLib} (self : JVLogger) (c : config)
  : config_error + config :=
  match c_loggers c with
  | None => inl (KeyError (lit "loggers"))
  | Some ls =>
      match rename_logger (jv_name self) ls with
      | inl e => inl e
      | inr ls' =>
          match c_handlers c with
          | None => inl (KeyError (lit "handlers"))
          | Some hs =>
              match set_filenames (jv_name self) (log_dir self) hs with
              | inl e => inl e
              | inr hs' =>
                  match c_formatters c with
                  | None => inl (KeyError (lit "formatters"))
                  | Some fs =>
                      match fs !! lit "json" with
                      | None => inl (KeyError (lit "json"))
                      | Some j =>
                          inr (mkConfig
                                 (Some ls') (Some hs')
                                 (Some (<[lit "json" :=
                                            <[lit "signer" := CSigner (signer self)]> j]>
                                          fs)))
                      end
                  end
              end
          end
      end
  end.

(** *** The wrapper as a context manager *)

(** [get_logger] and [__enter__] hand out the logger, known by its name. *)
Definition get_logger (self : JVLogger) : pystr := jv_name self.
Definition JVLogger_enter (self : JVLogger) : pystr := get_logger self.

(** [__exit__] closes and returns [None], so that an exception of the
    block is not suppressed. *)
Definition JVLogger_exit (pf : Platform) : StateExc Instance unit := close pf.

(** [with wrapper as log: body] *)
Definition with_wrapper (pf : Platform) (body : pystr -> StateExc Instance unit)
  : StateExc Instance unit :=
  fun i =>
    match body (JVLogger_enter (self_of i)) i with
    | (Returns _, i') => JVLogger_exit pf i'
    | (Raises e, i') =>
        match JVLogger_exit pf i' with
        | (Returns _, i'') => (Raises e, i'')
        | (Raises e', i'') => (Raises e', i'')
        end
    end.

(** *** Reading the trace and the hooks *)

Definition is_crash_close (ev : event) : bool :=
  match ev with
  | CrashClose => true
  | _ => false
  end.

(** Whether [asyncio.get_event_loop()] gives a loop that is not running. *)
Definition loop_configurable (k : Hooks) : bool :=
  match event_loop k with
  | Some l => negb (is_running l)
  | None => loop_on_demand k
  end.

End Config.

(* ===================================================================== *)
(** ** More concrete values *)
(* ===================================================================== *)

Module MoreSamples.
Import MyLogger JVLogger Config Samples.

(** A configuration in the shape the wrapper expects. *)
Definition sample_config : config :=
  mkConfig
    (Some {[ APP_LOGGER := {[ lit "handlers" := CNames [lit "console"; lit "json"] ]} ]})
    (Some (<[ lit "console" := {[ lit "class" := CStr (lit "logging.StreamHandler") ]} ]>
             {[ lit "json" := {[ FILENAME := CStr (lit "APP_NAME.json") ]} ]}))
    (Some {[ lit "json" := {[ lit "()" := CStr (lit "JsonFormatter") ]} ]}).

Definition sample_wrapper : JVLogger :=
  mkJVLogger (lit "app") (Some (HMACSigner (lit "k"))) None false (lit "/var/log/app").

Definition sample_locked_wrapper : JVLogger :=
  mkJVLogger (lit "app") None (Some (mkLock (lit "app"))) true (lit "/var/log/app").

(** A storage on which the user interrupts the second write. *)
Definition interrupted_disk : Disk := WriteFails 1 KeyboardInterrupt.

End MoreSamples.

(* ===================================================================== *)
(** * Properties *)
(* ===================================================================== *)

(** ** The JSON encoder and decoder are inverse on formatter output *)

Module JsonFacts.
Import Json.

Lemma below_32_cases (P : N -> Prop) :
  (forall n : nat, (n < 32)%nat -> P (N.of_nat n)) ->
  forall c : N, c < 32 -> P c.
Proof.
  intros HP c Hc. rewrite <- (N2Nat.id c). apply HP. lia.
Qed.

(** One encoded character is read back as that character. *)
Lemma scanstring_escape_char (c : N) (t : pystr) :
  scanstring (escape_char c ++ t) = cons_char c (scanstring t).
Proof.
  destruct (N.ltb_spec c 32) as [Hlt | Hge].
  - revert c Hlt. apply below_32_cases. intros n Hn.
    do 32 (destruct n as [| n]; [reflexivity |]). lia.
  - unfold escape_char.
    destruct (N.eqb_spec c 34) as [-> | H34]; [reflexivity |].
    destruct (N.eqb_spec c 92) as [-> | H92]; [reflexivity |].
    destruct (N.eqb_spec c 10) as [-> | _]; [lia |].
    destruct (N.eqb_spec c 13) as [-> | _]; [lia |].
    destruct (N.eqb_spec c 9) as [-> | _]; [lia |].
    destruct (N.eqb_spec c 8) as [-> | _]; [lia |].
    destruct (N.eqb_spec c 12) as [-> | _]; [lia |].
    destruct (N.ltb_spec c 32) as [Hlt | _]; [lia |].
    cbn [app scanstring].
    rewrite (proj2 (N.eqb_neq c 34) H34), (proj2 (N.eqb_neq c 92) H92).
    rewrite (proj2 (N.ltb_ge c 32) Hge). reflexivity.
Qed.

Lemma scanstring_escaped (s rest : pystr) :
  scanstring (flat_map escape_char s ++ QUOTE :: rest) = Some (s, rest).
Proof.
  induction s as [| c s IH]; [reflexivity |].
  cbn [flat_map]. rewrite <- app_assoc, scanstring_escape_char, IH.
  reflexivity.
Qed.

Example loads_dumps_ex :
  loads (dumps [(lit "a", JStr [104; 233; 10; 34; 1; 65536]); (lit "n", JInt (-42))])
  = Some [(lit "a", JStr [104; 233; 10; 34; 1; 65536]); (lit "n", JInt (-42))].
Proof. vm_compute. reflexivity. Qed.

Example dumps_ex :
  dumps [(lit "a", JStr [104; 233; 10; 1]); (lit "n", JInt 42)]
  = [123; 34; 97; 34; 58; 32; 34; 104; 233; 92; 110; 92; 117; 48; 48; 48; 49; 34;
     44; 32; 34; 110; 34; 58; 32; 52; 50; 125].
Proof. vm_compute. reflexivity. Qed.

Lemma scan_value_string (s rest : pystr) :
  scan_value (py_encode_basestring s ++ rest) = Some (JStr s, rest).
Proof.
  unfold py_encode_basestring, scan_value. cbn [app].
  change (QUOTE =? 34) with true. cbn iota.
  rewrite <- app_assoc. cbn [app]. rewrite scanstring_escaped. reflexivity.
Qed.

Lemma delimited_no_digit (rest : pystr) :
  delimited rest -> scan_digits rest = (Decimal.Nil, rest).
Proof.
  intros (c & r & -> & [-> | ->]); reflexivity.
Qed.

Lemma delimited_no_frac (rest : pystr) :
  delimited rest -> starts_frac_or_exp rest = false.
Proof.
  intros (c & r & -> & [-> | ->]); destruct r; reflexivity.
Qed.

Lemma scan_digits_uint_chars (u : Decimal.uint) (rest : pystr) :
  delimited rest -> scan_digits (uint_chars u ++ rest) = (u, rest).
Proof.
  intros Hd.
  induction u as [| u IH | u IH | u IH | u IH | u IH | u IH | u IH | u IH
                  | u IH | u IH];
    [ exact (delimited_no_digit rest Hd) | .. ];
    cbn [uint_chars app scan_digits];
    match goal with
    | |- context [digit_of (digit_char ?k)] =>
        change (digit_of (digit_char k)) with
          (Some (match k with
                 | 0 => Decimal.D0 | 1 => Decimal.D1 | 2 => Decimal.D2
                 | 3 => Decimal.D3 | 4 => Decimal.D4 | 5 => Decimal.D5
                 | 6 => Decimal.D6 | 7 => Decimal.D7 | 8 => Decimal.D8
                 | _ => Decimal.D9
                 end))
    end;
    rewrite IH; reflexivity.
Qed.

(** The digits of a positive number do not start with [0]. *)
Lemma match_digits_positive (p : positive) (rest : pystr) :
  delimited rest ->
  match_digits (uint_chars (Pos.to_uint p) ++ rest) = Some (Pos.to_uint p, rest).
Proof.
  intros Hd.
  assert (Hnorm : Decimal.unorm (Pos.to_uint p) = Pos.to_uint p).
  { rewrite <- (DecimalPos.Unsigned.to_of (Pos.to_uint p)).
    rewrite DecimalPos.Unsigned.of_to. reflexivity. }
  pose proof (DecimalPos.Unsigned.to_uint_nonzero p) as Hnz.
  pose proof (scan_digits_uint_chars (Pos.to_uint p) rest Hd) as Hscan.
  destruct (Pos.to_uint p) as [| u | u | u | u | u | u | u | u | u | u] eqn:E;
    try (unfold match_digits; cbn [uint_chars app] in *;
         cbn [uint_chars app]; rewrite Hscan; reflexivity).
  - unfold Decimal.unorm in Hnorm. cbn in Hnorm. discriminate.
  - exfalso. rewrite DecimalFacts.unorm_D0 in Hnorm.
    unfold Decimal.unorm in Hnorm.
    destruct (Decimal.nzhead u) eqn:Eh; try discriminate.
    + apply Hnz. congruence.
    + exact (DecimalFacts.nzhead_nonzero _ _ Eh).
Qed.

Lemma match_number_nonneg (s r : pystr) (u : Decimal.uint) :
  match_digits s = Some (u, r) ->
  starts_frac_or_exp r = false ->
  match_number s = Some (Z.of_int (Decimal.Pos u), r).
Proof.
  intros Hm Hf. destruct s as [| c s']; [discriminate |].
  unfold match_number.
  destruct (N.eqb_spec c 45) as [-> | _]; [discriminate |].
  rewrite Hm, Hf. reflexivity.
Qed.

Lemma match_number_neg (s r : pystr) (u : Decimal.uint) :
  match_digits s = Some (u, r) ->
  starts_frac_or_exp r = false ->
  match_number (45 :: s) = Some (Z.of_int (Decimal.Neg u), r).
Proof.
  intros Hm Hf. unfold match_number. change (45 =? 45) with true.
  cbn iota. rewrite Hm, Hf. reflexivity.
Qed.

Lemma match_number_int_repr (z : Z) (rest : pystr) :
  delimited rest ->
  match_number (int_repr z ++ rest) = Some (z, rest).
Proof.
  intros Hd. pose proof (DecimalZ.of_to z) as Hz.
  pose proof (delimited_no_frac rest Hd) as Hf.
  unfold int_repr. destruct z as [| p | p]; cbn [Z.to_int] in *.
  - rewrite <- Hz at 1. apply match_number_nonneg; [reflexivity | exact Hf].
  - rewrite <- Hz at 1.
    apply match_number_nonneg; [apply match_digits_positive, Hd | exact Hf].
  - rewrite <- Hz at 1.
    apply match_number_neg; [apply match_digits_positive, Hd | exact Hf].
Qed.

Lemma scan_value_dumps_value (v : json) (rest : pystr) :
  delimited rest ->
  scan_value (dumps_value v ++ rest) = Some (v, rest).
Proof.
  intros Hd. destruct v as [s | z]; [apply scan_value_string |].
  pose proof (match_number_int_repr z rest Hd) as Hm.
  cbn [dumps_value]. unfold scan_value.
  destruct (int_repr z ++ rest) as [| c t] eqn:E; [discriminate |].
  destruct (N.eqb_spec c 34) as [-> | _]; [discriminate |].
  rewrite Hm. reflexivity.
Qed.

Lemma scan_value_no_ws (s : pystr) (x : json * pystr) :
  scan_value s = Some x -> skip_ws s = s.
Proof.
  destruct s as [| c t]; [reflexivity |]. intros Hs. cbn [skip_ws].
  destruct (is_ws c) eqn:Ews; [| reflexivity]. exfalso.
  unfold is_ws in Ews.
  repeat (apply orb_prop in Ews as [Ews | Ews]);
    apply N.eqb_eq in Ews; subst c; discriminate.
Qed.

Lemma dumps_pair_body (kv : pystr * json) :
  dumps_pair kv = QUOTE :: pair_body kv.
Proof.
  unfold dumps_pair, pair_body, py_encode_basestring.
  cbn [app]. rewrite <- app_assoc. reflexivity.
Qed.

Lemma dumps_items_members (kv : pystr * json) (o : jobject) :
  dumps_items (kv :: o) = QUOTE :: members_text kv o.
Proof.
  revert kv. induction o as [| kv' o IH]; intros kv.
  - cbn [dumps_items members_text]. rewrite dumps_pair_body, app_nil_r.
    reflexivity.
  - change (dumps_items (kv :: kv' :: o))
      with (dumps_pair kv ++ lit ", " ++ dumps_items (kv' :: o)).
    rewrite IH, dumps_pair_body. reflexivity.
Qed.

Lemma pair_body_app (k : pystr) (v : json) (tail : pystr) :
  pair_body (k, v) ++ tail
  = flat_map escape_char k ++ QUOTE :: 58 :: 32 :: dumps_value v ++ tail.
Proof. unfold pair_body. cbn [fst snd]. rewrite <- app_assoc. reflexivity. Qed.

(** One turn of the loop of [scan_members]. *)
Lemma scan_members_step (fuel : nat) (k : pystr) (v : json) (d : N) (s4 : pystr) :
  d = 44 \/ d = 125 ->
  scan_members (S fuel) (pair_body (k, v) ++ d :: s4)
  = if d =? 125 then Some ([(k, v)], s4)
    else match skip_ws s4 with
         | [] => None
         | q :: s5 =>
             if q =? 34 then
               match scan_members fuel s5 with
               | Some (more, r) => Some ((k, v) :: more, r)
               | None => None
               end
             else None
         end.
Proof.
  intros Hd.
  assert (Hv : scan_value (dumps_value v ++ d :: s4) = Some (v, d :: s4))
    by (apply scan_value_dumps_value; exists d, s4; auto).
  rewrite pair_body_app. cbn [scan_members]. rewrite scanstring_escaped.
  change (skip_ws (58 :: 32 :: ?x)) with (58 :: 32 :: x).
  change (58 =? 58) with true. cbn iota.
  change (skip_ws (32 :: ?x)) with (skip_ws x).
  rewrite (scan_value_no_ws _ _ Hv), Hv.
  destruct Hd as [-> | ->]; reflexivity.
Qed.

Lemma scan_members_text (o : jobject) :
  forall (kv : pystr * json) (fuel : nat) (rest : pystr),
    (length o < fuel)%nat ->
    scan_members fuel (members_text kv o ++ 125 :: rest) = Some (kv :: o, rest).
Proof.
  induction o as [| kv' o IH]; intros [k v] fuel rest Hfuel;
    (destruct fuel as [| fuel]; [cbn in Hfuel; lia |]).
  - cbn [members_text]. rewrite app_nil_r, scan_members_step by auto.
    reflexivity.
  - cbn [members_text]. rewrite <- app_assoc.
    change (lit ", " ++ QUOTE :: members_text kv' o)
      with (44 :: 32 :: 34 :: members_text kv' o).
    cbn [app]. rewrite scan_members_step by auto.
    change (44 =? 125) with false. cbn iota.
    change (skip_ws (32 :: 34 :: ?x)) with (34 :: x).
    change (34 =? 34) with true. cbn iota.
    rewrite IH by (cbn in Hfuel; lia). reflexivity.
Qed.

Lemma length_dumps_items (o : jobject) :
  (length o <= length (dumps_items o))%nat.
Proof.
  induction o as [| kv o IH]; [cbn; lia |].
  destruct o as [| kv' o].
  - rewrite dumps_items_members. cbn. lia.
  - change (dumps_items (kv :: kv' :: o))
      with (dumps_pair kv ++ lit ", " ++ dumps_items (kv' :: o)).
    rewrite !length_app. change (length (lit ", ")) with 2%nat.
    cbn [length] in *. lia.
Qed.

(** Parsing the text of a dictionary gives the dictionary back. *)
Theorem loads_dumps (o : jobject) : loads (dumps o) = Some o.
Proof.
  unfold dumps, loads. destruct o as [| kv o]; [reflexivity |].
  rewrite dumps_items_members.
  change (lit "{") with [123]. change (lit "}") with [125].
  cbn [app]. change (skip_ws (123 :: ?x)) with (123 :: x).
  change (123 =? 123) with true. cbn iota.
  unfold scan_object.
  change (skip_ws (QUOTE :: ?x)) with (QUOTE :: x).
  change (QUOTE =? 125) with false. change (QUOTE =? 34) with true.
  cbn iota.
  rewrite scan_members_text; [reflexivity |].
  pose proof (length_dumps_items (kv :: o)) as Hlen.
  rewrite dumps_items_members in Hlen.
  cbn [length] in *. rewrite length_app. cbn [length]. lia.
Qed.

End JsonFacts.

(** ** [my_logger.py]: the crash file *)

Module CrashFacts.
Import MyLogger.

Section WithLib.
Context `{L : PyLib}.

Lemma f_write_run (ch : pystr) (p : Process) :
  f_write ch p
  = (Returns tt,
     set_trace (trace p ++ [CrashWrite ch])
       (set_crash_file (Some (default [] (crash_file p) ++ ch)) p)).
Proof. reflexivity. Qed.

Lemma bind_run {S A B : Type} (m : StateExc S A) (k : A -> StateExc S B) (s : S) :
  (m ≫= k) s
  = match m s with
    | (Returns a, s') => k a s'
    | (Raises e, s') => (Raises e, s')
    end.
Proof. reflexivity. Qed.

Lemma gets_run {S A : Type} (f : S -> A) (s : S) :
  gets f s = (Returns (f s), s).
Proof. reflexivity. Qed.

Lemma modify_run {S : Type} (f : S -> S) (s : S) :
  modify f s = (Returns tt, f s).
Proof. reflexivity. Qed.

Lemma mret_run {S A : Type} (a : A) (s : S) :
  (mret a : StateExc S A) s = (Returns a, s).
Proof. reflexivity. Qed.

Lemma emit_run (ev : event) (p : Process) :
  emit ev p = (Returns tt, set_trace (trace p ++ [ev]) p).
Proof. reflexivity. Qed.

Lemma write_chunks_run (chunks : list pystr) :
  forall (budget : option (nat * exc_class)) (p : Process) (c : pystr),
    crash_file p = Some c ->
    write_chunks budget chunks p
    = (outcome_of (write_raised budget chunks),
       set_trace (trace p ++ map CrashWrite (written budget chunks))
         (set_crash_file (Some (c ++ concat (written budget chunks))) p)).
Proof.
  induction chunks as [| c0 rest IH]; intros budget p c Hc.
  - destruct p; cbn in *; subst.
    destruct budget as [[n e] |]; cbn;
      rewrite ?take_nil; cbn; rewrite !app_nil_r; reflexivity.
  - destruct budget as [[[| n] e] |].
    + destruct p; cbn in *; subst. rewrite !app_nil_r. reflexivity.
    + cbn [write_chunks]. rewrite bind_run, f_write_run.
      rewrite (IH _ _ (c ++ c0)) by (rewrite Hc; reflexivity).
      destruct p; cbn in *; subst. rewrite <- !app_assoc. reflexivity.
    + cbn [write_chunks]. rewrite bind_run, f_write_run.
      rewrite (IH _ _ (c ++ c0)) by (rewrite Hc; reflexivity).
      destruct p; cbn in *; subst. rewrite <- !app_assoc. reflexivity.
Qed.

Lemma f_close_run (d : Disk) (p : Process) :
  f_close d p
  = (match d with
     | CloseFails e => Raises e
     | _ => Returns tt
     end, set_trace (trace p ++ [CrashClose]) p).
Proof. destruct d; reflexivity. Qed.

Lemma dump_last_crash_run (d : Disk) (fi : FaultInfo) (p : Process) :
  dump_last_crash d fi p
  = (swallowed (dump_raised d (format_exception fi)),
     set_trace (trace p ++ dump_events d (format_exception fi))
       (set_crash_file
          (dump_content d (format_exception fi) (crash_file p)) p)).
Proof.
  unfold dump_last_crash, try_except_Exception_pass, with_open.
  rewrite bind_run.
  destruct d as [| e | n e | e];
    [ | destruct p; cbn; rewrite app_nil_r;
        destruct (issubclass e Exception); reflexivity | | ];
    cbn [open_w]; rewrite bind_run; unfold closing, print_exception;
    change (modify (set_crash_file (Some [])) p)
      with (Returns tt, set_crash_file (Some []) p);
    cbn iota;
    change (emit CrashOpen (set_crash_file (Some []) p))
      with (Returns tt, set_trace (trace p ++ [CrashOpen])
                          (set_crash_file (Some []) p));
    cbn iota;
    rewrite (write_chunks_run _ _ _ []) by reflexivity;
    rewrite f_close_run.
  - destruct p; cbn. rewrite <- !app_assoc. reflexivity.
  - cbn [budget_of dump_raised dump_events dump_content].
    destruct (write_raised (Some (n, e)) (format_exception fi)) as [e' |];
      destruct p; cbn; rewrite <- !app_assoc;
      try destruct (issubclass e' Exception); reflexivity.
  - destruct p; cbn. rewrite <- !app_assoc.
    destruct (issubclass e Exception); reflexivity.
Qed.

Lemma new_events_app (p p' : Process) (evs : list event) :
  trace p' = trace p ++ evs -> new_events p p' = evs.
Proof.
  intros E. unfold new_events. rewrite E. apply drop_app_length.
Qed.

Lemma dump_last_crash_events (d : Disk) (fi : FaultInfo) (p : Process) :
  new_events p (snd (dump_last_crash d fi p))
  = dump_events d (format_exception fi).
Proof.
  rewrite dump_last_crash_run. apply new_events_app. reflexivity.
Qed.

Lemma dump_events_crash_only (d : Disk) (chunks : list pystr) :
  Forall (fun ev => is_crash_event ev = true) (dump_events d chunks).
Proof.
  destruct d; cbn [dump_events]; try constructor; try reflexivity;
    apply Forall_app; split;
    try (apply Forall_forall; intros ev Hin;
         apply list_elem_of_In, in_map_iff in Hin as (c & <- & _);
         reflexivity);
    repeat constructor.
Qed.

Lemma disk_error_raised (d : Disk) (chunks : list pystr) (e : exc_class) :
  dump_raised d chunks = Some e -> disk_error d = Some e.
Proof.
  destruct d as [| e' | n e' | e'];
    unfold dump_raised, write_raised, disk_error; try congruence.
  destruct (n <? length chunks)%nat; congruence.
Qed.

(** The views of a reader while chunks are appended and the file is
    closed. *)
Lemma file_views_writes (ws : list pystr) :
  forall c : pystr,
    Forall (fun view => exists k, view = Some (c ++ concat (take k ws)))
           (file_views (Some c) (map CrashWrite ws ++ [CrashClose])).
Proof.
  induction ws as [| w ws IH]; intros c.
  - cbn. constructor; [| constructor]. exists 0%nat. cbn.
    rewrite app_nil_r. reflexivity.
  - cbn [map app file_views file_step default].
    constructor.
    + exists 1%nat. cbn. rewrite app_nil_r. reflexivity.
    + eapply Forall_impl; [apply (IH (c ++ w)) |].
      intros view [k ->]. exists (S k). cbn. rewrite app_assoc. reflexivity.
Qed.

Lemma written_prefix (d : Disk) (chunks : list pystr) (k : nat) :
  exists k', take k (written (budget_of d) chunks) = take k' chunks.
Proof.
  destruct d as [| e | n e | e]; cbn [budget_of written]; eauto.
  exists (k `min` n)%nat. apply take_take.
Qed.

(** C8.  Whatever the storage does during the call, as long as what it
    raises is an error (an instance of [Exception]: [OSError],
    [UnicodeEncodeError], ...), [dump_last_crash] returns normally for
    every fault triple: nothing reaches the caller.  The call leaves no
    diagnostic: all it does is open, write and close the crash file; it
    logs nothing, calls no hook and installs none, so a failure while
    reporting cannot lead back into the reporting code. *)
Theorem dump_last_crash_never_propagates
        (d : Disk) (fi : FaultInfo) (p : Process) :
  (forall e, disk_error d = Some e -> issubclass e Exception = true) ->
  fst (dump_last_crash d fi p) = Returns tt
  /\ Forall (fun ev => is_crash_event ev = true)
            (new_events p (snd (dump_last_crash d fi p)))
  /\ hooks (snd (dump_last_crash d fi p)) = hooks p
  /\ loggers (snd (dump_last_crash d fi p)) = loggers p.
Proof.
  intros Herr. rewrite dump_last_crash_events.
  rewrite dump_last_crash_run. cbn [fst snd].
  repeat split.
  - unfold swallowed.
    destruct (dump_raised d (format_exception fi)) as [e |] eqn:E;
      [| reflexivity].
    rewrite (Herr e (disk_error_raised _ _ _ E)). reflexivity.
  - apply dump_events_crash_only.
Qed.

(** C2, as the code has it.  [dump_last_crash] rewrites the crash file
    in place: opening it for writing empties it at once and the chunks of
    the traceback are then appended.  So a reader that looks during the
    call finds a prefix of the new report, which may be empty or partial;
    when nothing fails the file ends as exactly the new report, whatever it
    held before (the old report is overwritten, not appended to); when
    [open] itself fails the file is left as it was. *)
Theorem dump_last_crash_in_place (d : Disk) (fi : FaultInfo) (p : Process) :
  Forall (fun view =>
            exists k, view = Some (concat (take k (format_exception fi))))
         (file_views (crash_file p)
                     (new_events p (snd (dump_last_crash d fi p))))
  /\ crash_file (snd (dump_last_crash DiskOk fi p)) = Some (report fi)
  /\ (forall e, crash_file (snd (dump_last_crash (OpenFails e) fi p))
                = crash_file p).
Proof.
  repeat split.
  - rewrite dump_last_crash_events.
    assert (Hviews :
      Forall (fun view =>
                exists k, view = Some (concat (take k (format_exception fi))))
             (file_views (crash_file p)
                (CrashOpen
                   :: map CrashWrite (written (budget_of d) (format_exception fi))
                   ++ [CrashClose]))).
    { cbn [file_views file_step]. constructor.
      - exists 0%nat. reflexivity.
      - eapply Forall_impl; [apply (file_views_writes _ []) |].
        intros view [k ->]. cbn [app].
        destruct (written_prefix d (format_exception fi) k) as [k' ->].
        eauto. }
    destruct d; try exact Hviews. constructor.
  - rewrite dump_last_crash_run. reflexivity.
  - intros e. rewrite dump_last_crash_run. reflexivity.
Qed.

End WithLib.

Import Samples.

Lemma dump_last_crash_never_propagates_witness :
  (forall e, disk_error (WriteFails 1 OSError) = Some e ->
             issubclass e Exception = true)
  /\ fst (dump_last_crash (L := sample_lib) (WriteFails 1 OSError)
                          sample_fault sample_process) = Returns tt.
Proof.
  assert (H : forall e, disk_error (WriteFails 1 OSError) = Some e ->
                        issubclass e Exception = true).
  { intros e E. inversion E. reflexivity. }
  split; [exact H |].
  exact (proj1 (dump_last_crash_never_propagates
                  (WriteFails 1 OSError) sample_fault sample_process H)).
Defined.

(** C2, as the spec has it, fails: with an earlier report in the file and
    a storage that works, the first thing a reader can meet is the empty
    file, which is neither the earlier report nor the new one. *)
Lemma dump_last_crash_not_atomic :
  ~ old_or_new (L := sample_lib) DiskOk sample_fault sample_process.
Proof.
  unfold old_or_new. rewrite dump_last_crash_events.
  intros H. apply Forall_inv in H. cbn in H.
  destruct H as [H | H]; discriminate H.
Qed.

(** The same with a storage that fails after one chunk: the call returns
    and the file is left holding the first line only. *)
Example dump_last_crash_partial :
  dump_last_crash (L := sample_lib) (WriteFails 1 OSError) sample_fault sample_process
  = (Returns tt,
     set_trace [CrashOpen;
                CrashWrite (lit "Traceback (most recent call last):" ++ [10]);
                CrashClose]
       (set_crash_file (Some (lit "Traceback (most recent call last):" ++ [10]))
                       sample_process)).
Proof. reflexivity. Qed.

End CrashFacts.

(** ** [my_logger.py]: the hooks and their installation *)

Module HookFacts.
Import MyLogger CrashFacts.

Section WithLib.
Context `{L : PyLib}.

(** A log call on the root logger followed by [dump_last_crash]. *)
Lemma log_then_dump_run (level : Z) (msg : pystr) (ei : option FaultInfo)
      (d : Disk) (fi : FaultInfo) (p : Process) :
  (emit (LogCall ROOT level msg ei) ;; dump_last_crash d fi) p
  = (swallowed (dump_raised d (format_exception fi)),
     set_trace (trace p ++ LogCall ROOT level msg ei
                        :: dump_events d (format_exception fi))
       (set_crash_file
          (dump_content d (format_exception fi) (crash_file p)) p)).
Proof.
  rewrite bind_run.
  change (emit (LogCall ROOT level msg ei) p)
    with (Returns tt, set_trace (trace p ++ [LogCall ROOT level msg ei]) p).
  cbn iota. rewrite dump_last_crash_run.
  destruct p; cbn. rewrite <- app_assoc. reflexivity.
Qed.

Lemma count_app (f : event -> bool) (t u : list event) :
  count f (t ++ u) = (count f t + count f u)%nat.
Proof. unfold count. rewrite List.filter_app, length_app. reflexivity. Qed.

Lemma count_writes (f : event -> bool) (ws : list pystr) :
  (forall w, f (CrashWrite w) = false) ->
  count f (map CrashWrite ws) = 0%nat.
Proof.
  intros Hf. induction ws as [| w ws IH]; [reflexivity |].
  unfold count in *. cbn. rewrite Hf. exact IH.
Qed.

Lemma count_log_dump_events (level : Z) (d : Disk) (chunks : list pystr) :
  count (is_log_at level) (dump_events d chunks) = 0%nat
  /\ count is_log (dump_events d chunks) = 0%nat.
Proof.
  destruct d; cbn [dump_events]; split; try reflexivity;
    change (CrashOpen :: ?l ++ [CrashClose]) with ([CrashOpen] ++ l ++ [CrashClose]);
    rewrite !count_app, count_writes by reflexivity; reflexivity.
Qed.

Lemma count_open_dump_events (d : Disk) (chunks : list pystr) :
  count is_crash_open (dump_events d chunks)
  = match d with
    | OpenFails _ => 0%nat
    | _ => 1%nat
    end.
Proof.
  destruct d; cbn [dump_events]; try reflexivity;
    change (CrashOpen :: ?l ++ [CrashClose]) with ([CrashOpen] ++ l ++ [CrashClose]);
    rewrite !count_app, count_writes by reflexivity; reflexivity.
Qed.

Lemma install_hooks_idempotent (k : Hooks) :
  install_hooks (install_hooks k) = install_hooks k.
Proof.
  destruct k as [v sh th [[running handler] |] demand];
    unfold install_hooks, get_event_loop; cbn;
    destruct (version_ge_3_8 v) eqn:Ev; cbn; rewrite ?Ev; cbn;
    try destruct running; try destruct demand; cbn; rewrite ?Ev; reflexivity.
Qed.

Lemma excepthook_logger_run (d : Disk) (fi : FaultInfo) (p : Process) :
  issubclass (exc_type fi) KeyboardInterrupt = false ->
  excepthook_logger d fi p
  = (swallowed (dump_raised d (format_exception fi)),
     set_trace (trace p ++ LogCall ROOT CRITICAL MAIN_MESSAGE (Some fi)
                        :: dump_events d (format_exception fi))
       (set_crash_file
          (dump_content d (format_exception fi) (crash_file p)) p)).
Proof.
  intros Hk. unfold excepthook_logger. rewrite Hk. apply log_then_dump_run.
Qed.

Lemma thread_excepthook_run (d : Disk) (args : ExceptHookArgs) (p : Process) :
  issubclass (args_exc_type args) KeyboardInterrupt = false ->
  thread_excepthook d args p
  = (swallowed (dump_raised d (format_exception (args_fault args))),
     set_trace (trace p
                  ++ LogCall ROOT CRITICAL
                       (thread_message (args_thread_name args))
                       (Some (args_fault args))
                  :: dump_events d (format_exception (args_fault args)))
       (set_crash_file
          (dump_content d (format_exception (args_fault args))
                        (crash_file p)) p)).
Proof.
  intros Hk. unfold thread_excepthook. rewrite Hk. apply log_then_dump_run.
Qed.

(** C1, as the code has it.  A fault that is not a [KeyboardInterrupt]
    and reaches the main-path hook or the worker-thread hook is logged
    once, at CRITICAL, on the root logger, with the fault triple as
    [exc_info], and [dump_last_crash] is then run on the same triple.
    The asyncio handler logs at ERROR, not CRITICAL: with the exception
    of the context as [exc_info], followed by [dump_last_crash] on that
    exception, when the context has one; with no [exc_info] and without
    touching the crash file when it has none. *)
Theorem hooks_log_and_record (d : Disk) (f : fault_event) (p : Process) :
  match f with
  | MainFault fi =>
      issubclass (exc_type fi) KeyboardInterrupt = false ->
      hook_for d f p
      = (swallowed (dump_raised d (format_exception fi)),
         set_trace (trace p ++ LogCall ROOT CRITICAL MAIN_MESSAGE (Some fi)
                            :: dump_events d (format_exception fi))
           (set_crash_file
              (dump_content d (format_exception fi) (crash_file p)) p))
  | ThreadFault args =>
      issubclass (args_exc_type args) KeyboardInterrupt = false ->
      hook_for d f p
      = (swallowed (dump_raised d (format_exception (args_fault args))),
         set_trace (trace p
                      ++ LogCall ROOT CRITICAL
                           (thread_message (args_thread_name args))
                           (Some (args_fault args))
                      :: dump_events d (format_exception (args_fault args)))
           (set_crash_file
              (dump_content d (format_exception (args_fault args))
                            (crash_file p)) p))
  | TaskFault context =>
      let msg := asyncio_message
                   (default (lit "Erreur asyncio inconnue") (ctx_message context)) in
      match ctx_exception context with
      | Some exn =>
          hook_for d f p
          = (swallowed (dump_raised d (format_exception exn)),
             set_trace (trace p ++ LogCall ROOT ERROR msg (Some exn)
                                :: dump_events d (format_exception exn))
               (set_crash_file
                  (dump_content d (format_exception exn) (crash_file p)) p))
      | None =>
          hook_for d f p
          = (Returns tt, set_trace (trace p ++ [LogCall ROOT ERROR msg None]) p)
      end
  end.
Proof.
  destruct f as [fi | args | context]; cbn [hook_for].
  - apply excepthook_logger_run.
  - apply thread_excepthook_run.
  - unfold asyncio_exception_handler.
    destruct (ctx_exception context) as [exn |].
    + apply log_then_dump_run.
    + reflexivity.
Qed.

(** C3, as the code has it.  A [KeyboardInterrupt] (or a subclass of it)
    that reaches the main-path hook is handed to [sys.__excepthook__] and
    nothing else is done: no log entry, no crash file.  One that reaches
    the worker-thread hook is dropped: the hook returns at once, without
    logging, without the crash file, and without forwarding it. *)
Theorem interrupts_not_reported (d : Disk) (p : Process) :
  (forall fi,
      issubclass (exc_type fi) KeyboardInterrupt = true ->
      excepthook_logger d fi p
      = (Returns tt, set_trace (trace p ++ [DefaultExcepthook fi]) p))
  /\ (forall args,
         issubclass (args_exc_type args) KeyboardInterrupt = true ->
         thread_excepthook d args p = (Returns tt, p)).
Proof.
  split.
  - intros fi Hk. unfold excepthook_logger. rewrite Hk. reflexivity.
  - intros args Hk. unfold thread_excepthook. rewrite Hk. reflexivity.
Qed.

Lemma install_twice (p : Process) :
  snd (install_global_exception_handlers
         (snd (install_global_exception_handlers p)))
  = snd (install_global_exception_handlers p).
Proof.
  unfold install_global_exception_handlers, modify. cbn [snd].
  destruct p; cbn. rewrite install_hooks_idempotent. reflexivity.
Qed.

Lemma installed_main (k : Hooks) (fi : FaultInfo) :
  installed_for (install_hooks k) (MainFault fi) = true.
Proof.
  destruct k as [v sh th [[running handler] |] demand];
    unfold install_hooks, get_event_loop; cbn;
    destruct (version_ge_3_8 v); cbn;
    try destruct running; try destruct demand; reflexivity.
Qed.

Lemma installed_thread (k : Hooks) (args : ExceptHookArgs) :
  version_ge_3_8 (version_info k) = true ->
  installed_for (install_hooks k) (ThreadFault args) = true.
Proof.
  destruct k as [v sh th [[running handler] |] demand]; cbn [version_info];
    intros Ev; unfold install_hooks, get_event_loop; cbn; rewrite Ev; cbn;
    try destruct running; try destruct demand; reflexivity.
Qed.

Lemma deliver_installed (d : Disk) (f : fault_event) (p : Process) :
  installed_for (hooks p) f = true -> deliver d f p = hook_for d f p.
Proof.
  intros Hi. unfold deliver. rewrite bind_run.
  change (gets hooks p) with (Returns (hooks p), p). cbn iota.
  rewrite Hi. reflexivity.
Qed.

(** C7.  Installing the hooks a second time changes nothing: the process
    after two installations is the process after one, each slot holding
    the one hook of this module.  So a fault after two installations is
    handled once: a main-path fault, and a worker-thread fault on Python
    3.8 or later, gives exactly one log entry, at CRITICAL, and the crash
    file is opened once (not at all when opening it fails). *)
Theorem install_is_idempotent (d : Disk) (p : Process) :
  let once := snd (install_global_exception_handlers p) in
  let twice := snd (install_global_exception_handlers once) in
  twice = once
  /\ (forall fi,
         issubclass (exc_type fi) KeyboardInterrupt = false ->
         let evs := new_events twice (snd (deliver d (MainFault fi) twice)) in
         count (is_log_at CRITICAL) evs = 1%nat
         /\ count is_log evs = 1%nat
         /\ count is_crash_open evs
            = match d with OpenFails _ => 0%nat | _ => 1%nat end)
  /\ (forall args,
         version_ge_3_8 (version_info (hooks p)) = true ->
         issubclass (args_exc_type args) KeyboardInterrupt = false ->
         let evs := new_events twice (snd (deliver d (ThreadFault args) twice)) in
         count (is_log_at CRITICAL) evs = 1%nat
         /\ count is_log evs = 1%nat
         /\ count is_crash_open evs
            = match d with OpenFails _ => 0%nat | _ => 1%nat end).
Proof.
  intros once twice.
  assert (Htwice : twice = once) by apply install_twice.
  split; [exact Htwice |]. rewrite Htwice. clear Htwice twice.
  assert (Hhooks : hooks once = install_hooks (hooks p)) by reflexivity.
  split.
  - intros fi Hk evs. subst evs.
    rewrite deliver_installed by (rewrite Hhooks; apply installed_main).
    cbn [hook_for]. rewrite (excepthook_logger_run d fi once Hk). cbn [snd].
    erewrite new_events_app by reflexivity.
    change (?e :: ?l) with ([e] ++ l).
    rewrite !count_app, count_open_dump_events.
    destruct (count_log_dump_events CRITICAL d (format_exception fi)) as [-> ->].
    repeat split.
  - intros args Hv Hk evs. subst evs.
    rewrite deliver_installed
      by (rewrite Hhooks; apply installed_thread; exact Hv).
    cbn [hook_for]. rewrite (thread_excepthook_run d args once Hk). cbn [snd].
    erewrite new_events_app by reflexivity.
    change (?e :: ?l) with ([e] ++ l).
    rewrite !count_app, count_open_dump_events.
    destruct (count_log_dump_events CRITICAL d
                (format_exception (args_fault args))) as [-> ->].
    repeat split.
Qed.

End WithLib.

Import Samples.

Lemma hooks_log_and_record_witness :
  issubclass (exc_type sample_fault) KeyboardInterrupt = false
  /\ fst (hook_for (L := sample_lib) DiskOk (MainFault sample_fault)
                    sample_process)
     = Returns tt.
Proof.
  split; [reflexivity |].
  rewrite (hooks_log_and_record (L := sample_lib) DiskOk (MainFault sample_fault)
             sample_process eq_refl).
  reflexivity.
Defined.

(** C1, as the spec has it, fails in the cooperative-task context: the
    handler logs the fault of the context at ERROR, and no CRITICAL entry
    is made. *)
Lemma asyncio_fault_not_critical :
  ~ logs_critical_and_records (L := sample_lib) DiskOk
      (TaskFault sample_context) sample_process.
Proof.
  intros H. destruct (H sample_fault eq_refl) as [[msg Hin] _].
  cbn in Hin.
  repeat (destruct Hin as [Hin | Hin]; [discriminate Hin |]).
  exact Hin.
Qed.

Lemma interrupts_not_reported_witness :
  issubclass (exc_type sample_interrupt) KeyboardInterrupt = true
  /\ excepthook_logger (L := sample_lib) DiskOk sample_interrupt sample_process
     = (Returns tt, set_trace [DefaultExcepthook sample_interrupt] sample_process).
Proof.
  split; [reflexivity |].
  exact (proj1 (interrupts_not_reported (L := sample_lib) DiskOk sample_process)
               sample_interrupt eq_refl).
Defined.

(** C3, as the spec has it, fails twice: in the cooperative-task context
    an interrupt is logged and written to the crash file like any other
    exception, and in the worker-thread context it is not forwarded to any
    default handling. *)
Lemma interrupt_not_passed_through :
  ~ interrupt_passed_through (L := sample_lib) DiskOk
      (TaskFault sample_interrupt_context) sample_process
  /\ ~ interrupt_passed_through (L := sample_lib) DiskOk
         (ThreadFault sample_interrupt_args) sample_process.
Proof.
  split.
  - intros (_ & Hopen & _). discriminate Hopen.
  - intros (_ & _ & fi & _ & Hin). exact Hin.
Qed.

Lemma install_is_idempotent_witness :
  issubclass (exc_type sample_fault) KeyboardInterrupt = false
  /\ count (is_log_at CRITICAL)
       (trace (snd (deliver (L := sample_lib) DiskOk (MainFault sample_fault)
                      (snd (install_global_exception_handlers
                              (snd (install_global_exception_handlers
                                      sample_process)))))))
     = 1%nat.
Proof.
  split; [reflexivity |].
  exact (proj1 (proj1 (proj2 (install_is_idempotent (L := sample_lib) DiskOk
                                sample_process))
                      sample_fault eq_refl)).
Defined.

End HookFacts.

(** ** [my_logger.py]: the JSON formatter *)

Module FormatterFacts.
Import Json JsonFacts MyLogger.

(** *** No raw line break in encoder output *)

Lemma escape_char_no_newline (c : N) : no_newline (escape_char c).
Proof.
  unfold no_newline.
  destruct (N.ltb_spec c 32) as [Hlt | Hge].
  - revert c Hlt. apply below_32_cases. intros n Hn.
    do 32 (destruct n as [| n];
           [apply Forall_forall; intros x Hx; cbn in Hx;
            repeat (apply elem_of_cons in Hx as [-> | Hx]; [discriminate |]);
            inversion Hx |]).
    lia.
  - unfold escape_char.
    destruct (N.eqb_spec c 34) as [-> | H34]; [repeat constructor; discriminate |].
    destruct (N.eqb_spec c 92) as [-> | H92]; [repeat constructor; discriminate |].
    destruct (N.eqb_spec c 10) as [-> | _]; [lia |].
    destruct (N.eqb_spec c 13) as [-> | _]; [lia |].
    destruct (N.eqb_spec c 9) as [-> | _]; [lia |].
    destruct (N.eqb_spec c 8) as [-> | _]; [lia |].
    destruct (N.eqb_spec c 12) as [-> | _]; [lia |].
    destruct (N.ltb_spec c 32) as [Hlt | _]; [lia |].
    repeat constructor. lia.
Qed.

Lemma no_newline_app (s t : pystr) :
  no_newline s -> no_newline t -> no_newline (s ++ t).
Proof. intros Hs Ht. apply Forall_app. split; assumption. Qed.

Lemma encode_basestring_no_newline (s : pystr) :
  no_newline (py_encode_basestring s).
Proof.
  unfold py_encode_basestring. constructor; [discriminate |].
  apply no_newline_app; [| repeat constructor; discriminate].
  induction s as [| c s IH]; [constructor |].
  cbn [flat_map]. apply no_newline_app; [apply escape_char_no_newline | exact IH].
Qed.

Lemma uint_chars_no_newline (u : Decimal.uint) : no_newline (uint_chars u).
Proof.
  induction u; cbn [uint_chars]; constructor;
    solve [discriminate | assumption].
Qed.

Lemma dumps_value_no_newline (v : json) : no_newline (dumps_value v).
Proof.
  destruct v as [s | z]; [apply encode_basestring_no_newline |].
  cbn [dumps_value]. unfold int_repr.
  destruct (Z.to_int z); [| constructor; [discriminate |]];
    apply uint_chars_no_newline.
Qed.

Lemma dumps_pair_no_newline (kv : pystr * json) : no_newline (dumps_pair kv).
Proof.
  unfold dumps_pair.
  apply no_newline_app; [apply encode_basestring_no_newline |].
  apply no_newline_app; [repeat constructor; discriminate |].
  apply dumps_value_no_newline.
Qed.

Lemma dumps_no_newline (o : jobject) : no_newline (dumps o).
Proof.
  unfold dumps.
  apply no_newline_app; [repeat constructor; discriminate |].
  apply no_newline_app; [| repeat constructor; discriminate].
  induction o as [| kv o IH]; [constructor |].
  destruct o as [| kv' o]; [apply dumps_pair_no_newline |].
  change (dumps_items (kv :: kv' :: o))
    with (dumps_pair kv ++ lit ", " ++ dumps_items (kv' :: o)).
  apply no_newline_app; [apply dumps_pair_no_newline |].
  apply no_newline_app; [repeat constructor; discriminate | exact IH].
Qed.

Section WithLib.
Context `{L : PyLib}.

Lemma log_record_keys (record : LogRecord) :
  map fst (log_record_dict record)
  = BASE_KEYS ++ match exc_info record with
                 | Some _ => [lit "traceback"]
                 | None => []
                 end.
Proof.
  unfold log_record_dict. destruct (exc_info record); reflexivity.
Qed.

(** C4, as the code has it.  Every line the formatter returns is one
    JSON object on one line (no raw line break in it) that parses back to
    the dictionary it was made from; its keys are, in this order,
    [timestamp], [name], [level], [message], [filename], [lineno],
    [funcName], followed by [traceback] exactly when the record carries
    exception information.  This formatter has no signer: no line has a
    [signature] key. *)
Theorem JsonFormatter_fields (record : LogRecord) :
  loads (JsonFormatter_format record) = Some (log_record_dict record)
  /\ no_newline (JsonFormatter_format record)
  /\ map fst (log_record_dict record)
     = BASE_KEYS ++ match exc_info record with
                    | Some _ => [lit "traceback"]
                    | None => []
                    end
  /\ ~ In (lit "signature") (map fst (log_record_dict record)).
Proof.
  repeat split.
  - apply loads_dumps.
  - apply dumps_no_newline.
  - apply log_record_keys.
  - rewrite log_record_keys. intros Hin.
    destruct (exc_info record); vm_compute in Hin;
      repeat (destruct Hin as [Hin | Hin]; [discriminate Hin |]);
      exact Hin.
Qed.

(** C5.  For every record, whatever its message text (quotes, line
    breaks, control characters, characters outside ASCII), the line of the
    formatter parses, and the [message] of the parsed object is the
    message of the record, character for character. *)
Theorem message_round_trip (record : LogRecord) :
  exists o,
    loads (JsonFormatter_format record) = Some o
    /\ dict_get (lit "message") o = Some (JStr (getMessage record)).
Proof.
  exists (log_record_dict record). split; [apply loads_dumps |].
  unfold log_record_dict. destruct (exc_info record); reflexivity.
Qed.

End WithLib.

Import Samples.

(** The message [h], U+00E9, [llo "world"] of the spec's scenario comes
    back as it was. *)
Example message_round_trip_sample :
  loads (JsonFormatter_format sample_record) ≫= dict_get (lit "message")
  = Some (JStr sample_message).
Proof. vm_compute. reflexivity. Qed.

Lemma traceback_key_not_specified (signed : bool) :
  ~ fields_as_specified signed (JsonFormatter_format sample_record_with_fault).
Proof.
  intros (o & Hloads & Hperm).
  unfold JsonFormatter_format in Hloads. rewrite loads_dumps in Hloads.
  injection Hloads as <-.
  assert (Hin : In (lit "traceback")
                   (SPEC_FIELDS ++ (if signed then [lit "signature"] else []))).
  { eapply Permutation_in; [exact Hperm |]. vm_compute. tauto. }
  destruct signed; vm_compute in Hin;
    repeat (destruct Hin as [Hin | Hin]; [discriminate Hin |]);
    exact Hin.
Qed.

(** C4, as the spec has it, fails: a record with exception information
    gives a line with a [traceback] key, which is not among the fields of the
    spec, without a signer and with one; and the other keys are [name],
    [filename], [lineno], [funcName], not [source], [file], [line],
    [function]. *)
Lemma fields_not_as_specified :
  ~ fields_as_specified false (JsonFormatter_format sample_record_with_fault)
  /\ ~ fields_as_specified true (JsonFormatter_format sample_record_with_fault).
Proof. split; apply traceback_key_not_specified. Qed.

End FormatterFacts.

(** ** The wrappers: handlers are configured once *)

Module WrapperFacts.
Import MyLogger JVLogger CrashFacts.

Section WithLib.
Context `{L : PyLib}.

Lemma getLogger_update (nm : pystr) (f : LoggerState -> LoggerState) (p : Process) :
  getLogger nm (snd (update_logger nm f p)) = f (getLogger nm p).
Proof.
  unfold update_logger, modify, getLogger. cbn.
  rewrite lookup_insert_eq. reflexivity.
Qed.

Lemma update_logger_run (nm : pystr) (f : LoggerState -> LoggerState)
      (p : Process) :
  update_logger nm f p = (Returns tt, snd (update_logger nm f p)).
Proof. reflexivity. Qed.

Lemma handlers_of_update (nm : pystr) (f : LoggerState -> LoggerState)
      (p : Process) :
  handlers_of nm (snd (update_logger nm f p)) = lg_handlers (f (getLogger nm p)).
Proof. unfold handlers_of. rewrite getLogger_update. reflexivity. Qed.

Lemma Logger_init_handlers (name : option pystr) (level : Z)
      (install_excepthook : bool) (p : Process) :
  let nm := module_name_for name p in
  handlers_of nm (snd (Logger_init name level install_excepthook p))
  = match handlers_of nm p with
    | [] =>
        [ mkHandler StreamHandler_stdout level (ColoredFormatter LINE_FORMAT);
          mkHandler (TimedRotatingFileHandler (_log_path_for_module p)
                                              (lit "midnight") 7)
                    DEBUG (PlainFormatter LINE_FORMAT);
          mkHandler (RotatingFileHandler (_log_path_Jsonfor_module p)
                                         10485760 7)
                    DEBUG (JsonFormatter None) ]
    | h :: hs => h :: hs
    end.
Proof.
  intros nm. unfold Logger_init.
  rewrite bind_run, gets_run. cbn iota. fold nm.
  rewrite bind_run, gets_run. cbn iota.
  rewrite bind_run, gets_run. cbn iota.
  rewrite bind_run, update_logger_run. cbn iota.
  set (p1 := snd (update_logger nm (setLevel level) p)).
  rewrite bind_run, update_logger_run. cbn iota.
  set (p2 := snd (update_logger nm (set_propagate false) p1)).
  assert (H2 : handlers_of nm p2 = handlers_of nm p).
  { unfold p2, p1, handlers_of. rewrite !getLogger_update. reflexivity. }
  rewrite bind_run, gets_run. cbn iota. rewrite H2.
  rewrite bind_run.
  destruct (handlers_of nm p) as [| h hs] eqn:Eh.
  - unfold _setup_console_handler, _setup_file_handler, _setup_api_app.
    cbn [module_name log_path api_log_path].
    rewrite bind_run, update_logger_run. cbn iota.
    rewrite bind_run, update_logger_run. cbn iota.
    rewrite update_logger_run. cbn iota.
    match goal with
    | |- context [(?m ≫= ?k) ?q] =>
        assert (Hq : handlers_of nm q = 
          [ mkHandler StreamHandler_stdout level (ColoredFormatter LINE_FORMAT);
            mkHandler (TimedRotatingFileHandler (_log_path_for_module p)
                                                (lit "midnight") 7)
                      DEBUG (PlainFormatter LINE_FORMAT);
            mkHandler (RotatingFileHandler (_log_path_Jsonfor_module p)
                                           10485760 7)
                      DEBUG (JsonFormatter None) ])
          by (unfold handlers_of in *; rewrite !getLogger_update;
              cbn [addHandler lg_handlers]; rewrite H2; reflexivity);
        generalize dependent q
    end.
    intros q Hq. rewrite bind_run, modify_run. cbn iota.
    destruct install_excepthook; rewrite bind_run;
      [unfold install_global_exception_handlers; rewrite modify_run
      | rewrite mret_run];
      cbn iota; rewrite bind_run, emit_run; cbn iota; rewrite mret_run;
      cbn [snd]; exact Hq.
  - rewrite mret_run. cbn iota.
    rewrite bind_run, modify_run. cbn iota.
    destruct install_excepthook; rewrite bind_run;
      [unfold install_global_exception_handlers; rewrite modify_run
      | rewrite mret_run];
      cbn iota; rewrite bind_run, emit_run; cbn iota; rewrite mret_run;
      cbn [snd]; exact H2.
Qed.

(** *** The wrapper of the package *)

Lemma on_process_run {A : Type} (m : M A) (s : System) :
  on_process m s = (fst (m (process s)), set_process (snd (m (process s))) s).
Proof. unfold on_process. destruct (m (process s)); reflexivity. Qed.

Lemma note_run (c : call) (s : System) :
  note c s = (Returns tt, mkSystem (process s) (held s) (calls s ++ [c])).
Proof. reflexivity. Qed.

Lemma configure_run (pf : Platform) (self : JVLogger) (level : Z)
      (install_excepthooks lifecycle : bool) (s : System) :
  exists s',
    configure pf self level install_excepthooks lifecycle s = (Returns tt, s')
    /\ held s' = held s
    /\ argv0 (process s') = argv0 (process s)
    /\ handlers_of (jv_name self) (process s')
       = match handlers_of (jv_name self) (process s) with
         | [] => configured_handlers pf (jv_name self) (log_dir self) (signer self)
         | h :: hs => h :: hs
         end.
Proof.
  unfold configure. set (nm := jv_name self).
  rewrite bind_run, on_process_run, update_logger_run. cbn [fst snd]. cbn iota.
  rewrite bind_run, on_process_run, update_logger_run. cbn [fst snd]. cbn iota.
  rewrite bind_run, gets_run. cbn iota.
  match goal with
  | |- context [handlers_of nm (process ?q)] =>
      assert (H2 : handlers_of nm (process q) = handlers_of nm (process s))
        by (cbn [process set_process]; unfold handlers_of;
            rewrite !getLogger_update; reflexivity);
      assert (Hh : held q = held s) by reflexivity;
      assert (Ha : argv0 (process q) = argv0 (process s)) by reflexivity;
      generalize dependent q
  end.
  intros q H2 Hh Ha. rewrite H2. rewrite bind_run.
  assert (Hstep : exists q',
             (match handlers_of nm (process s) with
              | [] => _setup_logging_from_json pf self level
              | _ :: _ => mret tt
              end) q = (Returns tt, q')
             /\ held q' = held s
             /\ argv0 (process q') = argv0 (process s)
             /\ handlers_of nm (process q')
                = match handlers_of nm (process s) with
                  | [] => configured_handlers pf nm (log_dir self) (signer self)
                  | h :: hs => h :: hs
                  end).
  { destruct (handlers_of nm (process s)) as [| h hs] eqn:Eh.
    - unfold _setup_logging_from_json. rewrite on_process_run.
      rewrite bind_run, update_logger_run. cbn iota.
      rewrite update_logger_run. cbn [fst snd].
      eexists. split; [reflexivity |].
      repeat split; try assumption.
      cbn [process set_process]. unfold handlers_of.
      rewrite !getLogger_update. reflexivity.
    - rewrite mret_run. eexists. split; [reflexivity |].
      repeat split; assumption. }
  destruct Hstep as (q' & -> & Hh' & Ha' & H2'). cbn iota.
  clear q H2 Hh Ha.
  rewrite bind_run, on_process_run, modify_run. cbn [fst snd]. cbn iota.
  assert (Hlast : forall q : System,
             held q = held s ->
             argv0 (process q) = argv0 (process s) ->
             handlers_of nm (process q) = handlers_of nm (process q') ->
             exists s',
               (if lifecycle
                then note (LifecycleStart nm)
                else on_process (emit (LogCall nm DEBUG
                                         (lit "Logger initialized") None))) q
               = (Returns tt, s')
               /\ held s' = held s
               /\ argv0 (process s') = argv0 (process s)
               /\ handlers_of nm (process s') = handlers_of nm (process q')).
  { intros q Hq1 Hq2 Hq3. destruct lifecycle.
    - rewrite note_run. eexists. split; [reflexivity |].
      repeat split; assumption.
    - rewrite on_process_run, emit_run. cbn [fst snd].
      eexists. split; [reflexivity |]. repeat split; assumption. }
  rewrite <- H2'.
  destruct install_excepthooks; rewrite bind_run.
  - unfold install_global_exception_handlers.
    rewrite on_process_run, modify_run. cbn [fst snd]. cbn iota.
    apply Hlast; [assumption | assumption | reflexivity].
  - rewrite mret_run. cbn iota.
    apply Hlast; [assumption | assumption | reflexivity].
Qed.

Lemma acquire_run (lock : Lock) (s : System) :
  acquire lock s
  = if bool_decide (lock_id lock ∈ held s)
    then (Returns false,
          mkSystem (process s) (held s)
                   (calls s ++ [LockAcquire (lock_id lock) false]))
    else (Returns true,
          mkSystem (process s) ({[ lock_id lock ]} ∪ held s)
                   (calls s ++ [LockAcquire (lock_id lock) true])).
Proof.
  unfold acquire. rewrite bind_run, gets_run. cbn iota.
  destruct (bool_decide (lock_id lock ∈ held s)).
  - rewrite bind_run, note_run. reflexivity.
  - rewrite bind_run, modify_run. cbn iota.
    rewrite bind_run, note_run. reflexivity.
Qed.

Lemma single_instance_lock_held (pf : Platform) (mutex_name : option pystr)
      (base_name : pystr) (s : System) :
  lock_supported pf = true ->
  str_or mutex_name base_name ∈ held s ->
  single_instance_lock pf true mutex_name base_name s
  = (Raises SingleInstanceError,
     mkSystem (process s) (held s)
              (calls s ++ [LockAcquire (str_or mutex_name base_name) false])).
Proof.
  intros Hsup Hheld. unfold single_instance_lock, create_lock.
  rewrite Hsup, bind_run, acquire_run. cbn [lock_id].
  rewrite bool_decide_eq_true_2 by exact Hheld. reflexivity.
Qed.

Lemma single_instance_lock_free (pf : Platform) (mutex_name : option pystr)
      (base_name : pystr) (s : System) :
  lock_supported pf = true ->
  str_or mutex_name base_name ∉ held s ->
  single_instance_lock pf true mutex_name base_name s
  = (Returns (Some (mkLock (str_or mutex_name base_name))),
     mkSystem (process s) ({[ str_or mutex_name base_name ]} ∪ held s)
              (calls s ++ [LockAcquire (str_or mutex_name base_name) true])).
Proof.
  intros Hsup Hfree. unfold single_instance_lock, create_lock.
  rewrite Hsup, bind_run, acquire_run. cbn [lock_id].
  rewrite bool_decide_eq_false_2 by exact Hfree. reflexivity.
Qed.

Lemma single_instance_lock_process (pf : Platform) (single_instance : bool)
      (mutex_name : option pystr) (base_name : pystr) (s : System) :
  process (snd (single_instance_lock pf single_instance mutex_name base_name s))
  = process s.
Proof.
  unfold single_instance_lock, create_lock.
  destruct single_instance; [| reflexivity].
  destruct (lock_supported pf); [| reflexivity].
  rewrite bind_run, acquire_run. cbn [lock_id].
  destruct (bool_decide _); reflexivity.
Qed.

Lemma JVLogger_init_run (pf : Platform) (name : option pystr) (level : Z)
      (install_excepthooks single_instance : bool)
      (mutex_name : option pystr) (signer : option Signer)
      (log_dir : option pystr) (lifecycle : bool) (s : System) :
  JVLogger_init pf name level install_excepthooks single_instance
                mutex_name signer log_dir lifecycle s
  = match single_instance_lock pf single_instance mutex_name
                               (base_name_for name s) s with
    | (Returns lock, s1) =>
        let self := mkJVLogger (base_name_for name s) signer lock lifecycle
                               (_log_dir pf log_dir (process s)) in
        match configure pf self level install_excepthooks lifecycle s1 with
        | (Returns _, s2) => (Returns self, s2)
        | (Raises e, s2) => (Raises e, s2)
        end
    | (Raises e, s1) => (Raises e, s1)
    end.
Proof.
  unfold JVLogger_init.
  rewrite bind_run, gets_run. cbn iota.
  rewrite bind_run, gets_run. cbn iota.
  rewrite bind_run.
  destruct (single_instance_lock _ _ _ _ s) as [[lock | e] s1];
    [| reflexivity].
  rewrite bind_run.
  destruct (configure _ _ _ _ _ s1) as [[[] | e] s2]; reflexivity.
Qed.

(** C6.  On a platform with a lock mechanism and with single-instance
    enforcement switched on, the constructor asks for the lock named by
    [mutex_name], or by the logger name, without waiting.  When that name
    is held, construction stops there with [SingleInstanceError], a class
    of its own that no built-in exception class is an instance of: nothing
    was configured and nothing was taken.  When the
    name is free, the lock is taken, construction goes on to the end and
    the wrapper keeps the lock in [_lock]. *)
Theorem single_instance_enforced
        (pf : Platform) (name : option pystr) (level : Z)
        (install_excepthooks : bool) (mutex_name : option pystr)
        (signer : option Signer) (log_dir : option pystr)
        (lifecycle : bool) (s : System) :
  lock_supported pf = true ->
  let lock_name := str_or mutex_name (base_name_for name s) in
  (lock_name ∈ held s ->
   JVLogger_init pf name level install_excepthooks true mutex_name signer
                 log_dir lifecycle s
   = (Raises SingleInstanceError,
      mkSystem (process s) (held s)
               (calls s ++ [LockAcquire lock_name false])))
  /\ (lock_name ∉ held s ->
      exists self s',
        JVLogger_init pf name level install_excepthooks true mutex_name
                      signer log_dir lifecycle s
        = (Returns self, s')
        /\ _lock self = Some (mkLock lock_name)
        /\ held s' = {[ lock_name ]} ∪ held s)
  /\ (forall c : exc_class,
         (forall n b, c <> UserClass n b) ->
         issubclass c SingleInstanceError = false).
Proof.
  intros Hsup lock_name. repeat split.
  - intros Hheld. rewrite JVLogger_init_run.
    rewrite single_instance_lock_held by assumption. reflexivity.
  - intros Hfree. rewrite JVLogger_init_run.
    rewrite single_instance_lock_free by assumption. cbn zeta.
    match goal with
    | |- context [configure pf ?self level install_excepthooks lifecycle ?q] =>
        destruct (configure_run pf self level install_excepthooks lifecycle q)
          as (s' & -> & Hh & _)
    end.
    eexists _, s'. split; [reflexivity |]. split; [reflexivity | exact Hh].
  - intros c Hc. destruct c; try reflexivity.
    exfalso. eapply Hc. reflexivity.
Qed.

(** *** Both wrappers leave configured handlers alone *)

Lemma bind_keeps {A B X : Type} (f : Process -> X) (m : M A) (k : A -> M B) :
  (forall p, f (snd (m p)) = f p) ->
  (forall a p, f (snd (k a p)) = f p) ->
  forall p, f (snd ((m ≫= k) p)) = f p.
Proof.
  intros Hm Hk p. rewrite bind_run. specialize (Hm p).
  destruct (m p) as [[a | e] p']; cbn [snd] in *;
    [rewrite Hk |]; exact Hm.
Qed.

Lemma Logger_init_argv0 (name : option pystr) (level : Z)
      (install_excepthook : bool) (p : Process) :
  argv0 (snd (Logger_init name level install_excepthook p)) = argv0 p.
Proof.
  revert p. unfold Logger_init.
  apply bind_keeps; [reflexivity | intros nm].
  apply bind_keeps; [reflexivity | intros lp].
  apply bind_keeps; [reflexivity | intros ap].
  apply bind_keeps; [reflexivity | intros _].
  apply bind_keeps; [reflexivity | intros _].
  apply bind_keeps; [reflexivity | intros hs].
  apply bind_keeps.
  { destruct hs; [| reflexivity].
    apply bind_keeps; [reflexivity | intros _].
    apply bind_keeps; [reflexivity | intros _]. reflexivity. }
  intros _. apply bind_keeps; [reflexivity | intros _].
  apply bind_keeps; [destruct install_excepthook; reflexivity | intros _].
  apply bind_keeps; [reflexivity | intros _]. reflexivity.
Qed.

Lemma match_nonempty {A : Type} (l d : list A) :
  l <> [] -> match l with [] => d | h :: t => h :: t end = l.
Proof. destruct l; [contradiction | reflexivity]. Qed.

(** C10.  Both wrappers configure handlers only on a logger that has
    none.  A construction on a logger name that already has handlers
    leaves its list of handlers as it was; and after a first construction
    a second one for the same name leaves the list as the first one left
    it, so no handler is there twice.  (For the wrapper of the package the
    first construction is one that returned, and the second one uses the
    same log directory and signer.) *)
Lemma JVLogger_init_cases (pf : Platform) (name : option pystr) (level : Z)
      (ie si : bool) (mutex_name : option pystr) (sg : option Signer)
      (ld : option pystr) (lifecycle : bool) (s : System) :
  let nm := base_name_for name s in
  (exists e s1,
      JVLogger_init pf name level ie si mutex_name sg ld lifecycle s
      = (Raises e, s1)
      /\ process s1 = process s)
  \/ (exists self s1,
         JVLogger_init pf name level ie si mutex_name sg ld lifecycle s
         = (Returns self, s1)
         /\ argv0 (process s1) = argv0 (process s)
         /\ handlers_of nm (process s1)
            = match handlers_of nm (process s) with
              | [] => configured_handlers pf nm (_log_dir pf ld (process s)) sg
              | h :: hs => h :: hs
              end).
Proof.
  intros nm. rewrite JVLogger_init_run.
  pose proof (single_instance_lock_process pf si mutex_name
                (base_name_for name s) s) as Hp.
  destruct (single_instance_lock pf si mutex_name (base_name_for name s) s)
    as [[lock | e] s0]; cbn [snd] in Hp.
  - right. cbn zeta.
    match goal with
    | |- context [configure pf ?self level ie lifecycle s0] =>
        destruct (configure_run pf self level ie lifecycle s0)
          as (s' & -> & _ & Ha & Hh)
    end.
    cbn [jv_name log_dir signer] in Hh. rewrite Hp in Ha, Hh.
    eexists _, s'. split; [reflexivity |]. split; assumption.
  - left. exists e, s0. split; [reflexivity | exact Hp].
Qed.

Lemma base_name_for_argv0 (name : option pystr) (s s' : System) :
  argv0 (process s') = argv0 (process s) ->
  base_name_for name s' = base_name_for name s.
Proof.
  intros Ha. unfold base_name_for, application_base. rewrite Ha. reflexivity.
Qed.

Lemma _log_dir_argv0 (pf : Platform) (ld : option pystr) (p p' : Process) :
  argv0 p' = argv0 p -> _log_dir pf ld p' = _log_dir pf ld p.
Proof. intros Ha. unfold _log_dir. rewrite Ha. reflexivity. Qed.

(** C10.  Both wrappers configure handlers only on a logger that has
    none.  A construction on a logger name that already has handlers
    leaves its list of handlers as it was; and after a first construction
    a second one for the same name leaves the list as the first one left
    it, so no handler is there twice.  (For the wrapper of the package the
    first construction is one that returned, and the second one uses the
    same log directory and signer.) *)
Theorem handlers_configured_once :
  (forall name level install_excepthook p,
      let nm := module_name_for name p in
      handlers_of nm p <> [] ->
      handlers_of nm (snd (Logger_init name level install_excepthook p))
      = handlers_of nm p)
  /\ (forall name level install_excepthook level' install_excepthook' p,
         let nm := module_name_for name p in
         let p1 := snd (Logger_init name level install_excepthook p) in
         handlers_of nm (snd (Logger_init name level' install_excepthook' p1))
         = handlers_of nm p1)
  /\ (forall pf name level ie si mutex_name sg ld lifecycle s,
         let nm := base_name_for name s in
         handlers_of nm (process s) <> [] ->
         handlers_of nm
           (process (snd (JVLogger_init pf name level ie si mutex_name sg
                                        ld lifecycle s)))
         = handlers_of nm (process s))
  /\ (forall pf name sg ld level ie si mutex_name lifecycle
             level' ie' si' mutex_name' lifecycle' s self s1,
         let nm := base_name_for name s in
         JVLogger_init pf name level ie si mutex_name sg ld lifecycle s
         = (Returns self, s1) ->
         handlers_of nm
           (process (snd (JVLogger_init pf name level' ie' si' mutex_name' sg
                                        ld lifecycle' s1)))
         = handlers_of nm (process s1)).
Proof.
  assert (Hfirst : forall name level install_excepthook p,
             handlers_of (module_name_for name p) p <> [] ->
             handlers_of (module_name_for name p)
                         (snd (Logger_init name level install_excepthook p))
             = handlers_of (module_name_for name p) p).
  { intros name level ie p Hne.
    rewrite (Logger_init_handlers name level ie p).
    apply match_nonempty, Hne. }
  repeat split.
  - exact Hfirst.
  - intros name level ie level' ie' p. cbv zeta.
    assert (Hnm : module_name_for name (snd (Logger_init name level ie p))
                  = module_name_for name p).
    { unfold module_name_for. rewrite Logger_init_argv0. reflexivity. }
    rewrite <- Hnm. apply Hfirst. rewrite Hnm.
    rewrite (Logger_init_handlers name level ie p).
    destruct (handlers_of (module_name_for name p) p); discriminate.
  - intros pf name level ie si mutex_name sg ld lifecycle s nm Hne.
    destruct (JVLogger_init_cases pf name level ie si mutex_name sg ld lifecycle s)
      as [(e & s1 & -> & Hp) | (self & s1 & -> & _ & H)]; cbn [snd].
    + rewrite Hp. reflexivity.
    + fold nm in H. rewrite H. apply match_nonempty, Hne.
  - intros pf name sg ld level ie si mutex_name lifecycle
           level' ie' si' mutex_name' lifecycle' s self s1 nm Hinit.
    destruct (JVLogger_init_cases pf name level ie si mutex_name sg ld lifecycle s)
      as [(e & s0 & E & _) | (self0 & s0 & E & Ha & H)];
      rewrite E in Hinit; [discriminate Hinit |].
    injection Hinit as <- <-. fold nm in H.
    pose proof (base_name_for_argv0 name s s0 Ha) as Hnm. fold nm in Hnm.
    destruct (JVLogger_init_cases pf name level' ie' si' mutex_name' sg ld
                                  lifecycle' s0)
      as [(e & s2 & -> & Hp) | (self2 & s2 & -> & _ & H')];
      cbn [snd].
    + rewrite Hp. reflexivity.
    + rewrite Hnm in H'. rewrite H'.
      destruct (handlers_of nm (process s0)) as [| h hs] eqn:E'; [| reflexivity].
      rewrite (_log_dir_argv0 pf ld (process s) (process s0) Ha).
      destruct (handlers_of nm (process s)); [| discriminate H].
      symmetry. exact H.
Qed.

End WithLib.

(** *** [close] *)

Lemma on_system_run {A : Type} (m : J A) (i : Instance) :
  on_system m i
  = (fst (m (system_of i)), mkInstance (self_of i) (snd (m (system_of i)))).
Proof. unfold on_system. destruct (m (system_of i)); reflexivity. Qed.

Lemma close_handlers_run (nm : pystr) (hs : list Handler) :
  forall s : System,
    fst (close_handlers nm hs s) = Returns tt
    /\ held (snd (close_handlers nm hs s)) = held s
    /\ calls (snd (close_handlers nm hs s)) = calls s ++ map HandlerClose hs.
Proof.
  induction hs as [| h hs IH]; intros s.
  - cbn. rewrite app_nil_r. auto.
  - cbn [close_handlers]. rewrite bind_run, note_run. cbn iota.
    rewrite bind_run, on_process_run, update_logger_run. cbn [fst snd]. cbn iota.
    match goal with
    | |- context [close_handlers nm hs ?q] =>
        destruct (IH q) as (Hr & Hh & Hc); rewrite Hr, Hh, Hc
    end.
    cbn. rewrite <- app_assoc. auto.
Qed.

Lemma filter_release_closes (hs : list Handler) :
  List.filter is_release (map HandlerClose hs) = [].
Proof. induction hs as [| h hs IH]; [reflexivity | exact IH]. Qed.

(** What one call of [close] leaves: no lock in the wrapper; and, when the
    wrapper had none to begin with, a normal return, the same names held,
    and no release among the calls made. *)
Lemma close_run (pf : Platform) (i : Instance) :
  _lock (self_of (snd (close pf i))) = None
  /\ (_lock (self_of i) = None ->
      fst (close pf i) = Returns tt
      /\ held (system_of (snd (close pf i))) = held (system_of i)
      /\ List.filter is_release
           (new_calls (system_of i) (system_of (snd (close pf i)))) = []).
Proof.
  unfold close. rewrite bind_run, gets_run. cbn iota.
  set (self := self_of i). rewrite bind_run.
  assert (Hstep : exists q,
             (if _lifecycle self
              then on_system (note (LifecycleStop (jv_name self))) ;;
                   modify (on_self (set_lifecycle false))
              else mret tt) i = (Returns tt, q)
             /\ _lock (self_of q) = _lock self
             /\ held (system_of q) = held (system_of i)
             /\ exists cs, calls (system_of q) = calls (system_of i) ++ cs
                           /\ List.filter is_release cs = []).
  { destruct (_lifecycle self).
    - rewrite bind_run, on_system_run, note_run. cbn [fst snd]. cbn iota.
      rewrite modify_run. eexists. split; [reflexivity |].
      repeat split. eexists. split; reflexivity.
    - rewrite mret_run. eexists. split; [reflexivity |].
      repeat split. exists []. rewrite app_nil_r. split; reflexivity. }
  destruct Hstep as (q & -> & Hl & Hh & cs & Hc & Hf). cbn iota.
  rewrite bind_run, gets_run. cbn iota.
  rewrite bind_run, on_system_run.
  destruct (close_handlers_run (jv_name self)
              (handlers_of (jv_name self) (process (system_of q)))
              (system_of q)) as (Hr & Hh' & Hc').
  rewrite Hr. cbn [fst snd]. cbn iota.
  set (q' := snd (close_handlers (jv_name self)
                    (handlers_of (jv_name self) (process (system_of q)))
                    (system_of q))) in *.
  destruct (_lock self) as [lock |] eqn:El.
  - split; [| intros Hnone; unfold self in El; congruence].
    unfold try_finally. rewrite on_system_run. reflexivity.
  - rewrite mret_run. cbn [fst snd self_of system_of].
    split; [exact Hl |]. intros _. repeat split.
    + rewrite Hh'. exact Hh.
    + unfold new_calls. rewrite Hc', Hc, <- app_assoc, drop_app_length.
      rewrite List.filter_app, Hf. apply filter_release_closes.
Qed.

(** C9.  [close] releases the lock at most once.  After a call of
    [close] the wrapper holds no lock, also when releasing raised; a further
    call of [close], in whatever state the system is by then, returns
    normally, makes no release call and leaves the set of held names as it
    found it. *)
Theorem close_twice_releases_once (pf : Platform) (i : Instance) :
  let closed := self_of (snd (close pf i)) in
  _lock closed = None
  /\ forall later : System,
       let again := close pf (mkInstance closed later) in
       fst again = Returns tt
       /\ held (system_of (snd again)) = held later
       /\ List.filter is_release (new_calls later (system_of (snd again))) = [].
Proof.
  intros closed. destruct (close_run pf i) as [Hnone _].
  split; [exact Hnone |].
  intros later again.
  exact (proj2 (close_run pf (mkInstance closed later)) Hnone).
Qed.

Import Samples.

Lemma single_instance_enforced_witness :
  lock_supported sample_platform = true
  /\ lit "app" ∈ held sample_system_locked
  /\ fst (JVLogger_init (L := sample_lib) sample_platform (Some (lit "app")) INFO
                        true true None None None false sample_system_locked)
     = Raises SingleInstanceError.
Proof.
  assert (Hheld : lit "app" ∈ held sample_system_locked)
    by (unfold sample_system_locked; cbn [held];
        apply elem_of_singleton; reflexivity).
  split; [reflexivity |]. split; [exact Hheld |].
  rewrite (proj1 (single_instance_enforced (L := sample_lib) sample_platform
                    (Some (lit "app")) INFO true None None None false
                    sample_system_locked eq_refl) Hheld).
  reflexivity.
Defined.

(** The same construction when nobody holds the name: it returns, with
    the lock, and the logger has the three handlers of the configuration. *)
Example single_instance_free_sample :
  match JVLogger_init (L := sample_lib) sample_platform (Some (lit "app")) INFO
                      true true None None None false sample_system with
  | (Returns self, s') =>
      _lock self = Some (mkLock (lit "app"))
      /\ held s' = {[ lit "app" ]}
      /\ length (handlers_of (lit "app") (process s')) = 3%nat
  | (Raises _, _) => False
  end.
Proof. vm_compute. repeat split. Qed.

(** A process in which the first wrapper was already constructed. *)
Lemma handlers_configured_once_witness :
  let p1 := snd (Logger_init (L := sample_lib) (Some (lit "app")) INFO false
                             sample_process) in
  handlers_of (lit "app") p1 <> []
  /\ handlers_of (lit "app")
       (snd (Logger_init (L := sample_lib) (Some (lit "app")) DEBUG true p1))
     = handlers_of (lit "app") p1.
Proof.
  intros p1.
  assert (Hne : handlers_of (lit "app") p1 <> []) by (vm_compute; discriminate).
  split; [exact Hne |].
  exact (proj1 (handlers_configured_once (L := sample_lib))
               (Some (lit "app")) DEBUG true p1 Hne).
Defined.

(** Closing twice a wrapper that holds the lock [app]: the first call
    releases it, the second one makes no call at all. *)
Example close_twice_sample :
  let i := mkInstance (mkJVLogger (lit "app") None (Some (mkLock (lit "app")))
                                  false (lit "/srv/app/logs/host1"))
                      sample_system_locked in
  let i1 := snd (close sample_platform i) in
  let i2 := snd (close sample_platform i1) in
  calls (system_of i1) = [LockRelease (lit "app")]
  /\ held (system_of i1) = ∅
  /\ calls (system_of i2) = [LockRelease (lit "app")]
  /\ i2 = i1.
Proof. vm_compute. repeat split. Qed.

End WrapperFacts.

(** ** More on the crash file, the hooks and their installation *)

Module MoreHookFacts.
Import MyLogger Config CrashFacts HookFacts.

Section WithLib.
Context `{L : PyLib}.

(** X1.  [except Exception] does not catch what is not an [Exception]: when
    the storage raises, inside the [try] block, something such as
    [KeyboardInterrupt] or [SystemExit], [dump_last_crash] lets it through to
    its caller. *)
Theorem dump_last_crash_lets_signals_through
        (d : Disk) (fi : FaultInfo) (p : Process) (e : exc_class) :
  dump_raised d (format_exception fi) = Some e ->
  issubclass e Exception = false ->
  fst (dump_last_crash d fi p) = Raises e.
Proof.
  intros Hraised Hsig. rewrite dump_last_crash_run. cbn [fst].
  unfold swallowed. rewrite Hraised, Hsig. reflexivity.
Qed.

Lemma dump_events_last (d : Disk) (chunks : list pystr) :
  last (dump_events d chunks)
  = match d with
    | OpenFails _ => None
    | _ => Some CrashClose
    end.
Proof.
  destruct d; cbn [dump_events]; try reflexivity;
    rewrite app_comm_cons; apply last_snoc.
Qed.

(** X2.  The [with] statement closes what it opened, whatever happens in
    between: in every call of [dump_last_crash] the crash file is opened at
    most once and closed as often as it was opened, and when it was opened
    closing it is the last thing the call does. *)
Theorem crash_file_always_closed (d : Disk) (fi : FaultInfo) (p : Process) :
  let evs := new_events p (snd (dump_last_crash d fi p)) in
  count is_crash_close evs = count is_crash_open evs
  /\ (count is_crash_open evs <= 1)%nat
  /\ last evs = match d with
                | OpenFails _ => None
                | _ => Some CrashClose
                end.
Proof.
  intros evs. unfold evs. rewrite dump_last_crash_events.
  split; [| split; [| apply dump_events_last]].
  - destruct d; cbn [dump_events]; try reflexivity;
      change (CrashOpen :: ?l ++ [CrashClose]) with ([CrashOpen] ++ l ++ [CrashClose]);
      rewrite !count_app, !count_writes by reflexivity; reflexivity.
  - rewrite count_open_dump_events. destruct d; lia.
Qed.

Lemma swallowed_errors (d : Disk) (chunks : list pystr) :
  (forall e, disk_error d = Some e -> issubclass e Exception = true) ->
  swallowed (dump_raised d chunks) = Returns tt.
Proof.
  intros Herr. unfold swallowed.
  destruct (dump_raised d chunks) as [e |] eqn:E; [| reflexivity].
  rewrite (Herr e (disk_error_raised _ _ _ E)). reflexivity.
Qed.

(** X3.  No hook fails because the crash file cannot be written: as long
    as what the storage raises is an error (an instance of [Exception]),
    each of the three hooks returns normally, for every fault, interrupts
    included; and a hook changes neither the installed hooks nor any
    logger. *)
Theorem hooks_survive_storage_errors (d : Disk) (f : fault_event) (p : Process) :
  (forall e, disk_error d = Some e -> issubclass e Exception = true) ->
  fst (hook_for d f p) = Returns tt
  /\ hooks (snd (hook_for d f p)) = hooks p
  /\ loggers (snd (hook_for d f p)) = loggers p.
Proof.
  intros Herr. destruct f as [fi | args | context]; cbn [hook_for].
  - destruct (issubclass (exc_type fi) KeyboardInterrupt) eqn:Hk.
    + unfold excepthook_logger. rewrite Hk. repeat split.
    + rewrite (excepthook_logger_run d fi p Hk). cbn [fst snd].
      rewrite swallowed_errors by exact Herr. repeat split.
  - destruct (issubclass (args_exc_type args) KeyboardInterrupt) eqn:Hk.
    + unfold thread_excepthook. rewrite Hk. repeat split.
    + rewrite (thread_excepthook_run d args p Hk). cbn [fst snd].
      rewrite swallowed_errors by exact Herr. repeat split.
  - unfold asyncio_exception_handler.
    destruct (ctx_exception context) as [exn |].
    + unfold logger_error. rewrite log_then_dump_run. cbn [fst snd].
      rewrite swallowed_errors by exact Herr. repeat split.
    + repeat split.
Qed.

(** X4.  When the loop handler ends up installed.  After
    [install_global_exception_handlers] the handler of this module is the
    one of the event loop exactly when [asyncio.get_event_loop()] gave a loop
    that was not running, or the loop already had it.  A loop that is running
    is left exactly as it was, and without a loop (and none made on demand)
    there is still none afterwards. *)
Theorem asyncio_handler_installed_iff (k : Hooks) (context : Context) :
  (installed_for (install_hooks k) (TaskFault context) = true
   <-> loop_configurable k = true
       \/ installed_for k (TaskFault context) = true)
  /\ (forall l, event_loop k = Some l -> is_running l = true ->
                event_loop (install_hooks k) = Some l)
  /\ (event_loop k = None -> loop_on_demand k = false ->
      event_loop (install_hooks k) = None).
Proof.
  destruct k as [v sh th [[[] [[| n] |]] |] []];
    unfold install_hooks, get_event_loop, loop_configurable; cbn;
    destruct (version_ge_3_8 v); cbn;
    (split; [| split]);
    try (intros l Hl Hr; injection Hl as <-; try discriminate Hr; reflexivity);
    try (intros; first [discriminate | reflexivity]);
    intuition discriminate.
Qed.

Lemma install_hooks_sys (k : Hooks) :
  sys_excepthook (install_hooks k) = Sys_excepthook_logger.
Proof.
  destruct k as [v sh th [[[] handler] |] []];
    unfold install_hooks, get_event_loop; cbn;
    destruct (version_ge_3_8 v); reflexivity.
Qed.

Lemma install_hooks_thread (k : Hooks) :
  threading_excepthook (install_hooks k)
  = if version_ge_3_8 (version_info k)
    then Thread_thread_excepthook
    else threading_excepthook k.
Proof.
  destruct k as [v sh th [[[] handler] |] []];
    unfold install_hooks, get_event_loop; cbn;
    destruct (version_ge_3_8 v); reflexivity.
Qed.

(** X5.  The main-path slot is always taken over, whatever hook was there;
    the worker-thread slot only from Python 3.8 on.  On an older Python the
    installer leaves [threading.excepthook] alone, so unless the hook of this
    module was put there by other means a fault in a worker thread is not
    handled by this module: nothing is logged and the crash file is not
    touched. *)
Theorem thread_hook_needs_3_8 (d : Disk) (p : Process) (args : ExceptHookArgs) :
  let installed := snd (install_global_exception_handlers p) in
  sys_excepthook (hooks installed) = Sys_excepthook_logger
  /\ (version_ge_3_8 (version_info (hooks p)) = true ->
      threading_excepthook (hooks installed) = Thread_thread_excepthook)
  /\ (version_ge_3_8 (version_info (hooks p)) = false ->
      threading_excepthook (hooks installed) = threading_excepthook (hooks p)
      /\ (threading_excepthook (hooks p) <> Thread_thread_excepthook ->
          deliver d (ThreadFault args) installed = (Returns tt, installed))).
Proof.
  intros installed.
  assert (Hh : hooks installed = install_hooks (hooks p)) by reflexivity.
  clearbody installed.
  split; [rewrite Hh; apply install_hooks_sys |].
  split; intros Ev.
  - rewrite Hh, install_hooks_thread, Ev. reflexivity.
  - assert (Hth : threading_excepthook (hooks installed)
                  = threading_excepthook (hooks p))
      by (rewrite Hh, install_hooks_thread, Ev; reflexivity).
    split; [exact Hth |]. intros Hne.
    unfold deliver. rewrite bind_run, gets_run. cbn iota.
    cbn [installed_for]. rewrite Hth.
    destruct (threading_excepthook (hooks p)); try reflexivity.
    contradiction.
Qed.

End WithLib.

Import Samples MoreSamples.

Lemma dump_last_crash_lets_signals_through_witness :
  dump_raised interrupted_disk (format_exception (PyLib := sample_lib) sample_fault)
  = Some KeyboardInterrupt
  /\ issubclass KeyboardInterrupt Exception = false
  /\ fst (dump_last_crash (L := sample_lib) interrupted_disk sample_fault
                          sample_process)
     = Raises KeyboardInterrupt.
Proof.
  split; [reflexivity |]. split; [reflexivity |].
  exact (dump_last_crash_lets_signals_through (L := sample_lib) interrupted_disk
           sample_fault sample_process KeyboardInterrupt eq_refl eq_refl).
Defined.

Lemma hooks_survive_storage_errors_witness :
  (forall e, disk_error (OpenFails OSError) = Some e ->
             issubclass e Exception = true)
  /\ fst (hook_for (L := sample_lib) (OpenFails OSError)
                   (ThreadFault sample_args) sample_process)
     = Returns tt.
Proof.
  assert (H : forall e, disk_error (OpenFails OSError) = Some e ->
                        issubclass e Exception = true).
  { intros e E. inversion E. reflexivity. }
  split; [exact H |].
  exact (proj1 (hooks_survive_storage_errors (L := sample_lib) (OpenFails OSError)
                  (ThreadFault sample_args) sample_process H)).
Defined.

Lemma asyncio_handler_installed_iff_witness :
  let l := mkLoop true None in
  let k := mkHooks (3, 11)%nat Sys_default_excepthook Thread_default_excepthook
                   (Some l) false in
  is_running l = true /\ event_loop (install_hooks k) = Some l.
Proof.
  intros l k. split; [reflexivity |].
  exact (proj1 (proj2 (asyncio_handler_installed_iff k sample_context))
               l eq_refl eq_refl).
Defined.

Lemma thread_hook_needs_3_8_witness :
  let p := mkProcess (mkHooks (3, 7)%nat Sys_default_excepthook
                              Thread_default_excepthook None false)
                     ∅ false (lit "app.py") None None [] in
  let installed := snd (install_global_exception_handlers p) in
  version_ge_3_8 (version_info (hooks p)) = false
  /\ threading_excepthook (hooks p) <> Thread_thread_excepthook
  /\ deliver (L := sample_lib) DiskOk (ThreadFault sample_args) installed
     = (Returns tt, installed).
Proof.
  intros p installed.
  assert (H : threading_excepthook (hooks p) <> Thread_thread_excepthook)
    by discriminate.
  split; [reflexivity |]. split; [exact H |].
  exact (proj2 (proj2 (proj2 (thread_hook_needs_3_8 (L := sample_lib) DiskOk p
                                sample_args))
                      eq_refl) H).
Defined.

End MoreHookFacts.

(** ** More on the two formatters *)

Module MoreFormatterFacts.
Import Json JsonFacts MyLogger Console FormatterFacts.

Section WithLib.
Context `{L : PyLib}.

(** X6.  The line determines the record as far as the formatter reads it:
    two records that give the same line have the same time stamp text, name,
    level, message, file name, line number and function name, and the same
    traceback text if any.  No two different messages are ever written as the
    same line. *)
Theorem JsonFormatter_injective (r1 r2 : LogRecord) :
  JsonFormatter_format r1 = JsonFormatter_format r2 ->
  log_record_dict r1 = log_record_dict r2
  /\ fromtimestamp_isoformat (created r1) = fromtimestamp_isoformat (created r2)
  /\ name r1 = name r2
  /\ levelname r1 = levelname r2
  /\ getMessage r1 = getMessage r2
  /\ filename r1 = filename r2
  /\ lineno r1 = lineno r2
  /\ funcName r1 = funcName r2
  /\ (formatException <$> exc_info r1) = (formatException <$> exc_info r2).
Proof.
  intros Hline.
  assert (Hdict : log_record_dict r1 = log_record_dict r2).
  { apply (f_equal loads) in Hline. unfold JsonFormatter_format in Hline.
    rewrite !loads_dumps in Hline. congruence. }
  split; [exact Hdict |].
  unfold log_record_dict in Hdict.
  destruct (exc_info r1), (exc_info r2); cbn in Hdict;
    simplify_eq; cbn; repeat split; congruence.
Qed.

(** X7.  Every field is read back, not only the message: for each key and
    value the formatter put in its dictionary, the line parses and the parsed
    object has that value at that key (the line number as an integer, the
    traceback as one string). *)
Theorem every_field_round_trips (record : LogRecord) (k : pystr) (v : json) :
  In (k, v) (log_record_dict record) ->
  exists o,
    loads (JsonFormatter_format record) = Some o /\ dict_get k o = Some v.
Proof.
  intros Hin. exists (log_record_dict record). split; [apply loads_dumps |].
  unfold log_record_dict in *.
  destruct (exc_info record); cbn in Hin;
    repeat (destruct Hin as [Hin | Hin]; [inversion Hin; subst; reflexivity |]);
    contradiction.
Qed.

Variable Formatter_format : pystr -> LogRecord -> pystr.

(** X8.  The console formatter formats a copy of the record that differs
    in its level name only: the name is wrapped between a colour and the
    reset sequence.  A level name that is not one of the five standard names
    gets no colour, but still the reset sequence; the five standard names
    get their (non-empty) colour from the table. *)
Theorem ColoredFormatter_levelname (fmt : pystr) (record : LogRecord) :
  exists color,
    ColoredFormatter_format Formatter_format fmt record
    = Formatter_format fmt
        (with_levelname record (color ++ levelname record ++ Style_RESET_ALL))
    /\ (color = [] <-> levelname record ∉ COLOR_TABLE.*1)
    /\ (forall c, (levelname record, c) ∈ COLOR_TABLE -> color = c).
Proof.
  exists (default [] (COLOR_LEVELS !! levelname record)).
  split; [reflexivity |].
  assert (Hnodup : NoDup (COLOR_TABLE.*1)).
  { apply (bool_decide_unpack _). vm_compute. exact I. }
  assert (Hcolors : forall lv c, (lv, c) ∈ COLOR_TABLE -> c <> []).
  { intros lv c. unfold COLOR_TABLE.
    rewrite !elem_of_cons, elem_of_nil. intuition (simplify_eq; discriminate). }
  unfold COLOR_LEVELS.
  destruct (list_to_map COLOR_TABLE !! levelname record) as [c |] eqn:E;
    cbn [from_option id].
  - pose proof (elem_of_list_to_map_2 _ _ _ E) as Hin.
    split.
    + split.
      * intros ->. exfalso. exact (Hcolors _ _ Hin eq_refl).
      * intros Hnot. exfalso. apply Hnot.
        apply (list_elem_of_fmap_2 fst _ _ Hin).
    + intros c' Hin'.
      pose proof (elem_of_list_to_map_1 _ _ _ Hnodup Hin') as E'.
      enough (Some c = Some c') by congruence.
      exact (eq_trans (eq_sym E) E').
  - split.
    + split; [| reflexivity]. intros _.
      apply not_elem_of_list_to_map. exact E.
    + intros c' Hin'.
      pose proof (elem_of_list_to_map_1 _ _ _ Hnodup Hin') as E'.
      exfalso. enough (@None pystr = Some c') by discriminate.
      exact (eq_trans (eq_sym E) E').
Qed.

End WithLib.

Import Samples.

Lemma JsonFormatter_injective_witness :
  let r2 := @mkRecord sample_lib 86400%Z (lit "app") (lit "INFO") sample_message
                      (lit "main.py") 3 (lit "<module>") None in
  JsonFormatter_format sample_record = JsonFormatter_format r2
  /\ getMessage sample_record = getMessage r2.
Proof.
  intros r2.
  assert (H : JsonFormatter_format sample_record = JsonFormatter_format r2)
    by reflexivity.
  split; [exact H |].
  exact (proj1 (proj2 (proj2 (proj2 (proj2
           (JsonFormatter_injective (L := sample_lib) sample_record r2 H)))))).
Defined.

Lemma every_field_round_trips_witness :
  In (lit "lineno", JInt 12) (log_record_dict sample_record_with_fault)
  /\ exists o,
       loads (JsonFormatter_format sample_record_with_fault) = Some o
       /\ dict_get (lit "lineno") o = Some (JInt 12).
Proof.
  assert (H : In (lit "lineno", JInt 12) (log_record_dict sample_record_with_fault))
    by (vm_compute; tauto).
  split; [exact H |].
  exact (every_field_round_trips (L := sample_lib) sample_record_with_fault
           (lit "lineno") (JInt 12) H).
Defined.

Lemma ColoredFormatter_levelname_witness :
  let Formatter_format := fun (_ : pystr) (r : @LogRecord sample_lib) =>
                            levelname r ++ lit " " ++ getMessage r in
  (levelname sample_record, Fore_GREEN) ∈ COLOR_TABLE
  /\ ColoredFormatter_format Formatter_format LINE_FORMAT sample_record
     = Formatter_format LINE_FORMAT
         (with_levelname sample_record
            (Fore_GREEN ++ levelname sample_record ++ Style_RESET_ALL)).
Proof.
  intros Formatter_format.
  assert (Hin : (levelname sample_record, Fore_GREEN) ∈ COLOR_TABLE).
  { unfold COLOR_TABLE. rewrite !elem_of_cons.
    right. left. reflexivity. }
  split; [exact Hin |].
  destruct (ColoredFormatter_levelname (L := sample_lib) Formatter_format
              LINE_FORMAT sample_record) as (color & E & _ & Hc).
  rewrite E, (Hc _ Hin). reflexivity.
Defined.

End MoreFormatterFacts.

(** ** More on the wrapper of [my_logger.py] *)

Module MoreLoggerFacts.
Import MyLogger CrashFacts WrapperFacts.

Section WithLib.
Context `{L : PyLib}.

Lemma bind_inv {S A B : Type} (P : S -> Prop) (m : StateExc S A)
      (k : A -> StateExc S B) :
  (forall s, P s -> P (snd (m s))) ->
  (forall a s, P s -> P (snd (k a s))) ->
  forall s, P s -> P (snd ((m ≫= k) s)).
Proof.
  intros Hm Hk s Hs. rewrite bind_run. specialize (Hm s Hs).
  destruct (m s) as [[a | e] s']; cbn [snd] in *; [apply Hk |]; exact Hm.
Qed.

Lemma update_logger_first (nm : pystr) (g : LoggerState -> LoggerState)
      (p : Process) :
  update_logger nm g p
  = (Returns tt, set_loggers (<[nm := g (getLogger nm p)]> (loggers p)) p).
Proof. reflexivity. Qed.

Lemma update_logger_next (nm : pystr) (g : LoggerState -> LoggerState)
      (x : LoggerState) (m : gmap pystr LoggerState) (p : Process) :
  update_logger nm g (set_loggers (<[nm := x]> m) p)
  = (Returns tt, set_loggers (<[nm := g x]> m) p).
Proof.
  unfold update_logger. rewrite modify_run. unfold getLogger.
  cbn [loggers set_loggers]. rewrite lookup_insert_eq, insert_insert_eq.
  destruct p; reflexivity.
Qed.

Lemma handlers_of_set (nm : pystr) (x : LoggerState)
      (m : gmap pystr LoggerState) (p : Process) :
  handlers_of nm (set_loggers (<[nm := x]> m) p) = lg_handlers x.
Proof.
  unfold handlers_of, getLogger. cbn [loggers set_loggers].
  rewrite lookup_insert_eq. reflexivity.
Qed.

(** [Logger.__init__] in closed form: what it returns and the process it
    leaves. *)
Lemma Logger_init_closed (name : option pystr) (level : Z)
      (install_excepthook : bool) (p : Process) :
  let nm := module_name_for name p in
  let hs :=
    match handlers_of nm p with
    | [] =>
        [ mkHandler StreamHandler_stdout level (ColoredFormatter LINE_FORMAT);
          mkHandler (TimedRotatingFileHandler (_log_path_for_module p)
                                              (lit "midnight") 7)
                    DEBUG (PlainFormatter LINE_FORMAT);
          mkHandler (RotatingFileHandler (_log_path_Jsonfor_module p)
                                         10485760 7)
                    DEBUG (JsonFormatter None) ]
    | h :: t => h :: t
    end in
  Logger_init name level install_excepthook p
  = (Returns (mkLoggerObj nm (_log_path_for_module p)
                          (_log_path_Jsonfor_module p)),
     set_trace
       (trace p
          ++ [LogCall nm DEBUG
                (lit "Logger initialis" ++ [E_ACUTE] ++ lit ". Log: "
                   ++ _log_path_for_module p ++ lit ", JSON: "
                   ++ _log_path_Jsonfor_module p) None])
       (set_hooks (if install_excepthook
                   then install_hooks (hooks p)
                   else hooks p)
          (set_capture_warnings true
             (set_loggers (<[nm := mkLogger level false hs]> (loggers p)) p)))).
Proof.
  intros nm hs. unfold Logger_init.
  rewrite bind_run, gets_run. cbn iota. fold nm.
  rewrite bind_run, gets_run. cbn iota.
  rewrite bind_run, gets_run. cbn iota.
  rewrite bind_run, update_logger_first. cbn iota.
  rewrite bind_run, update_logger_next. cbn iota.
  rewrite bind_run, gets_run. cbn iota.
  rewrite handlers_of_set.
  cbn [setLevel set_propagate lg_handlers lg_level lg_propagate].
  fold (handlers_of nm p). unfold hs. clear hs.
  destruct (handlers_of nm p) as [| h t] eqn:Eh.
  - unfold _setup_console_handler, _setup_file_handler, _setup_api_app.
    cbn [module_name log_path api_log_path].
    rewrite bind_run, bind_run, update_logger_next. cbn iota.
    rewrite bind_run, update_logger_next. cbn iota.
    rewrite update_logger_next. cbn iota.
    cbn [addHandler lg_handlers lg_level lg_propagate app].
    rewrite bind_run, modify_run. cbn iota.
    destruct install_excepthook; rewrite bind_run;
      [unfold install_global_exception_handlers; rewrite modify_run
      | rewrite mret_run];
      cbn iota; rewrite bind_run, emit_run; cbn iota; rewrite mret_run;
      unfold addHandler, set_propagate, setLevel;
      cbn [lg_handlers lg_level lg_propagate];
      fold (handlers_of nm p); rewrite Eh;
      destruct p; reflexivity.
  - rewrite bind_run, mret_run. cbn iota.
    rewrite bind_run, modify_run. cbn iota.
    destruct install_excepthook; rewrite bind_run;
      [unfold install_global_exception_handlers; rewrite modify_run
      | rewrite mret_run];
      cbn iota; rewrite bind_run, emit_run; cbn iota; rewrite mret_run;
      unfold addHandler, set_propagate, setLevel;
      cbn [lg_handlers lg_level lg_propagate];
      fold (handlers_of nm p); rewrite Eh;
      destruct p; reflexivity.
Qed.

Lemma module_name_for_argv0 (name : option pystr) (p q : Process) :
  argv0 q = argv0 p -> module_name_for name q = module_name_for name p.
Proof. intros Ha. unfold module_name_for. rewrite Ha. reflexivity. Qed.

Lemma log_paths_same (p q : Process) :
  argv0 q = argv0 p -> computername q = computername p ->
  _log_path_for_module q = _log_path_for_module p
  /\ _log_path_Jsonfor_module q = _log_path_Jsonfor_module p.
Proof.
  intros Ha Hc.
  unfold _log_path_for_module, _log_path_Jsonfor_module, log_file_named,
    application_base.
  rewrite Ha, Hc. split; reflexivity.
Qed.

(** X9.  On a logger that has no handler yet the constructor puts exactly
    three, in this order: the console at the requested level, the daily text
    file and the JSON file rotated at 10485760 bytes, the two files at DEBUG
    whatever the requested level, each with 7 backups.  A second construction
    for the same name with another level sets the level of the logger to the
    new one, while the console handler keeps the level of the first
    construction. *)
Theorem reconstruction_changes_level_only
        (name : option pystr) (level1 level2 : Z) (ie1 ie2 : bool) (p : Process) :
  let nm := module_name_for name p in
  let handlers :=
    [ mkHandler StreamHandler_stdout level1 (ColoredFormatter LINE_FORMAT);
      mkHandler (TimedRotatingFileHandler (_log_path_for_module p)
                                          (lit "midnight") 7)
                DEBUG (PlainFormatter LINE_FORMAT);
      mkHandler (RotatingFileHandler (_log_path_Jsonfor_module p) 10485760 7)
                DEBUG (JsonFormatter None) ] in
  let p1 := snd (Logger_init name level1 ie1 p) in
  let p2 := snd (Logger_init name level2 ie2 p1) in
  handlers_of nm p = [] ->
  getLogger nm p1 = mkLogger level1 false handlers
  /\ getLogger nm p2 = mkLogger level2 false handlers.
Proof.
  intros nm handlers p1 p2 Hfresh.
  assert (H1 : getLogger nm p1 = mkLogger level1 false handlers).
  { unfold p1. rewrite Logger_init_closed. fold nm. rewrite Hfresh.
    unfold getLogger. cbn [snd loggers set_trace set_hooks set_capture_warnings
                             set_loggers].
    rewrite lookup_insert_eq. reflexivity. }
  split; [exact H1 |].
  assert (Ha : argv0 p1 = argv0 p)
    by (unfold p1; rewrite Logger_init_closed; reflexivity).
  unfold p2. rewrite Logger_init_closed.
  rewrite (module_name_for_argv0 name p p1 Ha). fold nm.
  unfold handlers_of. rewrite H1. cbn [lg_handlers handlers].
  unfold getLogger. cbn [snd loggers set_trace set_hooks set_capture_warnings
                           set_loggers].
  rewrite lookup_insert_eq. reflexivity.
Qed.

(** X10.  A missing name, an empty name and the name [__main__] all stand
    for the name of the script: the wrapper returned carries that name, and
    two constructions with any two of these names work on one and the same
    logger, the second finding the handlers of the first and adding none. *)
Theorem default_names_share_one_logger
        (n1 n2 : option pystr) (level1 level2 : Z) (ie1 ie2 : bool) (p : Process) :
  (n1 = None \/ n1 = Some [] \/ n1 = Some (lit "__main__")) ->
  (n2 = None \/ n2 = Some [] \/ n2 = Some (lit "__main__")) ->
  let script := path_name (argv0 p) in
  let r1 := Logger_init n1 level1 ie1 p in
  let r2 := Logger_init n2 level2 ie2 (snd r1) in
  (forall self, fst r1 = Returns self -> module_name self = script)
  /\ (forall self, fst r2 = Returns self -> module_name self = script)
  /\ handlers_of script (snd r2) = handlers_of script (snd r1)
  /\ handlers_of script (snd r1) <> [].
Proof.
  intros Hn1 Hn2 script r1 r2.
  assert (Hname : forall n q,
             (n = None \/ n = Some [] \/ n = Some (lit "__main__")) ->
             argv0 q = argv0 p -> module_name_for n q = script).
  { intros n q [-> | [-> | ->]] Ha; unfold script; rewrite <- Ha; reflexivity. }
  assert (Ha : argv0 (snd r1) = argv0 p)
    by (unfold r1; rewrite Logger_init_closed; reflexivity).
  assert (H1 : handlers_of script (snd r1) <> []).
  { unfold r1. rewrite Logger_init_closed, (Hname n1 p Hn1 eq_refl).
    cbn [snd]. unfold handlers_of, getLogger.
    cbn [loggers set_trace set_hooks set_capture_warnings set_loggers].
    rewrite lookup_insert_eq. cbn [from_option id lg_handlers].
    destruct (lg_handlers (default fresh_logger (loggers p !! script)));
      discriminate. }
  repeat split.
  - unfold r1. rewrite Logger_init_closed, (Hname n1 p Hn1 eq_refl).
    intros self [= <-]. reflexivity.
  - unfold r2. rewrite Logger_init_closed, (Hname n2 (snd r1) Hn2 Ha).
    intros self [= <-]. reflexivity.
  - unfold r2. rewrite Logger_init_closed, (Hname n2 (snd r1) Hn2 Ha).
    cbn [snd]. unfold handlers_of at 1. unfold getLogger.
    cbn [loggers set_trace set_hooks set_capture_warnings set_loggers].
    rewrite lookup_insert_eq. cbn [from_option id lg_handlers].
    destruct (handlers_of script (snd r1)) eqn:E; [contradiction | reflexivity].
  - exact H1.
Qed.


End WithLib.

Import Samples.

Lemma reconstruction_changes_level_only_witness :
  let p1 := snd (Logger_init (L := sample_lib) (Some (lit "svc")) INFO true
                             sample_process) in
  let p2 := snd (Logger_init (L := sample_lib) (Some (lit "svc")) DEBUG false p1) in
  handlers_of (lit "svc") sample_process = []
  /\ lg_level (getLogger (lit "svc") p2) = DEBUG
  /\ h_level <$> handlers_of (lit "svc") p2 = [INFO; DEBUG; DEBUG].
Proof.
  intros p1 p2. split; [reflexivity |].
  pose proof (proj2 (reconstruction_changes_level_only (L := sample_lib)
                       (Some (lit "svc")) INFO DEBUG true false sample_process
                       eq_refl)) as H.
  split.
  - exact (f_equal lg_level H).
  - exact (f_equal (fun l => h_level <$> lg_handlers l) H).
Defined.

Lemma default_names_share_one_logger_witness :
  let r1 := Logger_init (L := sample_lib) None INFO false sample_process in
  let r2 := Logger_init (L := sample_lib) (Some (lit "__main__")) DEBUG false
                        (snd r1) in
  (@None pystr = None \/ @None pystr = Some [] \/ None = Some (lit "__main__"))
  /\ (Some (lit "__main__") = None \/ Some (lit "__main__") = Some []
      \/ Some (lit "__main__") = Some (lit "__main__"))
  /\ handlers_of (lit "app.py") (snd r2) = handlers_of (lit "app.py") (snd r1).
Proof.
  intros r1 r2.
  assert (H1 : @None pystr = None \/ @None pystr = Some []
               \/ None = Some (lit "__main__")) by (left; reflexivity).
  assert (H2 : Some (lit "__main__") = None \/ Some (lit "__main__") = Some []
               \/ Some (lit "__main__") = Some (lit "__main__"))
    by (right; right; reflexivity).
  split; [exact H1 |]. split; [exact H2 |].
  exact (proj1 (proj2 (proj2 (default_names_share_one_logger (L := sample_lib)
                                None (Some (lit "__main__")) INFO DEBUG false
                                false sample_process H1 H2)))).
Defined.


End MoreLoggerFacts.

(** ** More on the wrapper of the package *)

Module MoreJVFacts.
Import MyLogger JVLogger Config CrashFacts WrapperFacts MoreLoggerFacts.

Lemma process_on_process {A : Type} (m : M A) (s : System) :
  process (snd (on_process m s)) = snd (m (process s)).
Proof. rewrite on_process_run. reflexivity. Qed.

Lemma remove_first_head (h : Handler) (hs : list Handler) :
  remove_first h (h :: hs) = hs.
Proof. cbn. rewrite bool_decide_eq_true_2 by reflexivity. reflexivity. Qed.

(** The loop of [close] on the handlers the logger has. *)
Lemma close_handlers_all (nm : pystr) (hs : list Handler) :
  forall s : System,
    handlers_of nm (process s) = hs ->
    exists s',
      close_handlers nm hs s = (Returns tt, s')
      /\ held s' = held s
      /\ calls s' = calls s ++ map HandlerClose hs
      /\ handlers_of nm (process s') = [].
Proof.
  induction hs as [| h hs IH]; intros s Hs.
  - exists s. cbn. rewrite app_nil_r. auto.
  - cbn [close_handlers]. rewrite bind_run, note_run. cbn iota.
    rewrite bind_run, on_process_run, update_logger_run. cbn [fst snd]. cbn iota.
    match goal with
    | |- context [close_handlers nm hs ?q] =>
        destruct (IH q) as (s' & -> & Hh & Hc & He)
    end.
    { cbn [process set_process]. unfold handlers_of in *.
      rewrite getLogger_update. unfold removeHandler.
      cbn [set_handlers lg_handlers]. rewrite Hs. apply remove_first_head. }
    exists s'. split; [reflexivity |]. split; [exact Hh |].
    split; [| exact He]. rewrite Hc. cbn. rewrite <- app_assoc. reflexivity.
Qed.

(** [close] in full: the outcome, the calls it makes, and what it leaves. *)
Lemma close_full (pf : Platform) (i : Instance) :
  let self := self_of i in
  let s := system_of i in
  let nm := jv_name self in
  exists i',
    close pf i
    = (match _lock self, release_error pf with
       | Some _, Some e => Raises e
       | _, _ => Returns tt
       end, i')
    /\ _lock (self_of i') = None
    /\ _lifecycle (self_of i') = false
    /\ jv_name (self_of i') = nm
    /\ handlers_of nm (process (system_of i')) = []
    /\ held (system_of i')
       = match _lock self, release_error pf with
         | Some lock, None => held s ∖ {[ lock_id lock ]}
         | _, _ => held s
         end
    /\ calls (system_of i')
       = calls s
           ++ (if _lifecycle self then [LifecycleStop nm] else [])
           ++ map HandlerClose (handlers_of nm (process s))
           ++ match _lock self with
              | Some lock => [LockRelease (lock_id lock)]
              | None => []
              end.
Proof.
  intros self s nm. unfold close. rewrite bind_run, gets_run. cbn iota.
  fold self. fold nm. rewrite bind_run.
  assert (Hstep : exists q,
             (if _lifecycle self
              then on_system (note (LifecycleStop nm)) ;;
                   modify (on_self (set_lifecycle false))
              else mret tt) i = (Returns tt, q)
             /\ _lock (self_of q) = _lock self
             /\ _lifecycle (self_of q) = false
             /\ jv_name (self_of q) = nm
             /\ process (system_of q) = process s
             /\ held (system_of q) = held s
             /\ calls (system_of q)
                = calls s ++ (if _lifecycle self then [LifecycleStop nm] else [])).
  { destruct (_lifecycle self) eqn:El.
    - rewrite bind_run, on_system_run, note_run. cbn [fst snd]. cbn iota.
      rewrite modify_run. eexists. split; [reflexivity |]. repeat split.
    - rewrite mret_run. exists i. split; [reflexivity |].
      repeat split; try assumption. fold s. rewrite app_nil_r. reflexivity. }
  destruct Hstep as (q & -> & Hl & Hlc & Hn & Hp & Hh & Hc). cbn iota.
  rewrite bind_run, gets_run. cbn iota.
  rewrite bind_run, on_system_run.
  destruct (close_handlers_all nm _ (system_of q) eq_refl)
    as (s' & -> & Hh' & Hc' & He).
  cbn [fst snd]. cbn iota.
  rewrite Hp in Hc'. rewrite Hc, Hh in *.
  destruct (_lock self) as [lock |] eqn:Elock.
  - unfold try_finally. rewrite on_system_run.
    unfold release. rewrite bind_run, note_run. cbn iota.
    destruct (release_error pf) as [e |] eqn:Er.
    + eexists. split; [reflexivity |].
      cbn [snd self_of system_of on_self set_lock _lock _lifecycle jv_name
               process held calls].
      repeat split; try assumption.
      rewrite Hc', <- !app_assoc. reflexivity.
    + rewrite modify_run.
      eexists. split; [reflexivity |].
      cbn [snd self_of system_of on_self set_lock set_held _lock _lifecycle
               jv_name process held calls].
      repeat split; try assumption.
      * rewrite Hh'. reflexivity.
      * rewrite Hc', <- !app_assoc. reflexivity.
  - rewrite mret_run. eexists. split; [reflexivity |].
    cbn [snd self_of system_of].
    repeat split; try assumption; try congruence.
    rewrite Hc', app_nil_r, <- !app_assoc. reflexivity.
Qed.

(** X12.  [close] empties the logger: every handler the logger has is
    closed once, in the order of the list, and removed, so that the logger is
    left without handlers; the lifecycle logger, if any, is stopped before,
    and the lock, if any, is released after.  The wrapper is left without
    lock and without lifecycle logger. *)
Theorem close_empties_the_logger (pf : Platform) (i : Instance) :
  let self := self_of i in
  let nm := jv_name self in
  let closed := snd (close pf i) in
  handlers_of nm (process (system_of closed)) = []
  /\ new_calls (system_of i) (system_of closed)
     = (if _lifecycle self then [LifecycleStop nm] else [])
         ++ map HandlerClose (handlers_of nm (process (system_of i)))
         ++ match _lock self with
            | Some lock => [LockRelease (lock_id lock)]
            | None => []
            end
  /\ _lock (self_of closed) = None
  /\ _lifecycle (self_of closed) = false.
Proof.
  intros self nm closed.
  destruct (close_full pf i) as (i' & E & Hl & Hlc & _ & He & _ & Hc).
  unfold closed. rewrite E. cbn [snd].
  repeat split; try assumption.
  unfold new_calls. fold self nm in Hc. rewrite Hc. apply drop_app_length.
Qed.

(** X13.  When releasing the lock raises, [close] raises the same
    exception, after everything else was done: the handlers are closed and
    removed and the wrapper has let go of the lock object; the name itself
    stays held. *)
Theorem close_when_release_raises
        (pf : Platform) (i : Instance) (lock : Lock) (e : exc_class) :
  _lock (self_of i) = Some lock ->
  release_error pf = Some e ->
  let closed := snd (close pf i) in
  fst (close pf i) = Raises e
  /\ handlers_of (jv_name (self_of i)) (process (system_of closed)) = []
  /\ _lock (self_of closed) = None
  /\ held (system_of closed) = held (system_of i).
Proof.
  intros Hlock Herr closed.
  destruct (close_full pf i) as (i' & E & Hl & _ & _ & He & Hh & _).
  unfold closed. rewrite E. cbn [fst snd]. rewrite Hlock, Herr in *.
  repeat split; assumption.
Qed.

Lemma take_and_release (n : pystr) (X : gset pystr) :
  n ∉ X -> ({[ n ]} ∪ X) ∖ {[ n ]} = X.
Proof.
  intros Hn. apply set_eq. intros x.
  rewrite elem_of_difference, elem_of_union, elem_of_singleton.
  split; [intuition |].
  intros Hx. split; [auto |]. intros ->. contradiction.
Qed.

Lemma bind_post {S A B : Type} (P Q R : S -> Prop) (m : StateExc S A)
      (k : A -> StateExc S B) :
  (forall s, P s -> Q (snd (m s))) ->
  (forall a s, Q s -> R (snd (k a s))) ->
  (forall e s, Q s -> (exists s0, m s0 = (Raises e, s)) -> R s) ->
  forall s, P s -> R (snd ((m ≫= k) s)).
Proof.
  intros Hm Hk He s Hs. rewrite bind_run. specialize (Hm s Hs).
  destruct (m s) as [[a | e] s'] eqn:E; cbn [snd] in *;
    [apply Hk; exact Hm | apply (He e); eauto].
Qed.

Lemma configure_level (pf : Platform) (self : JVLogger) (level : Z)
      (ie lc : bool) (s : System) :
  lg_level (getLogger (jv_name self)
                      (process (snd (configure pf self level ie lc s))))
  = level.
Proof.
  unfold configure. set (nm := jv_name self).
  set (P := fun q : System => lg_level (getLogger nm (process q)) = level).
  change (P (snd ((on_process (update_logger nm (setLevel level)) ≫=
                   (fun _ =>
                      on_process (update_logger nm (set_propagate false)) ;;
                      handlers ← gets (fun s => handlers_of nm (process s)) ;
                      match handlers with
                      | [] => _setup_logging_from_json pf self level
                      | _ :: _ => mret tt
                      end ;;
                      on_process (modify (set_capture_warnings true)) ;;
                      (if ie
                       then on_process install_global_exception_handlers
                       else mret tt) ;;
                      (if lc
                       then note (LifecycleStart nm)
                       else on_process (emit (LogCall nm DEBUG
                                                (lit "Logger initialized") None)))))
                  s))).
  apply (bind_post (fun _ => True) P P); [| | auto | exact I].
  { intros q _. unfold P. rewrite process_on_process, getLogger_update.
    reflexivity. }
  intros _. apply bind_inv.
  { intros q Hq. unfold P in *. rewrite process_on_process, getLogger_update.
    exact Hq. }
  intros _. apply bind_inv; [intros q Hq; exact Hq |]. intros hs.
  apply bind_inv.
  { intros q Hq. destruct hs; [| exact Hq].
    unfold _setup_logging_from_json, P. rewrite process_on_process.
    rewrite bind_run, update_logger_run. cbn iota.
    rewrite getLogger_update. reflexivity. }
  intros _. apply bind_inv; [intros q Hq; exact Hq |].
  intros _. apply bind_inv; [intros q Hq; destruct ie; exact Hq |].
  intros _ q Hq. destruct lc; exact Hq.
Qed.

Section WithLib.
Context `{L : PyLib}.

Lemma construction_without_lock
        (pf : Platform) (name : option pystr) (level : Z)
        (install_excepthooks single_instance : bool) (mutex_name : option pystr)
        (sg : option Signer) (ld : option pystr) (lifecycle : bool) (s : System) :
  single_instance = false \/ lock_supported pf = false ->
  exists self s',
    JVLogger_init pf name level install_excepthooks single_instance mutex_name
                  sg ld lifecycle s = (Returns self, s')
    /\ _lock self = None
    /\ held s' = held s.
Proof.
  intros Hoff. rewrite JVLogger_init_run.
  assert (Hlock : single_instance_lock pf single_instance mutex_name
                                       (base_name_for name s) s
                  = (Returns None, s)).
  { unfold single_instance_lock, create_lock.
    destruct Hoff as [-> | ->]; [reflexivity |].
    destruct single_instance; reflexivity. }
  rewrite Hlock. cbn zeta.
  match goal with
  | |- context [configure pf ?slf level install_excepthooks lifecycle s] =>
      destruct (configure_run pf slf level install_excepthooks lifecycle s)
        as (s' & -> & Hh & _)
  end.
  eexists _, s'. split; [reflexivity |]. split; [reflexivity | exact Hh].
Qed.

(** X14.  No enforcement without a mechanism: with [single_instance] off,
    or on a platform for which [create_lock] returns [None], the constructor
    takes no lock and is never refused, even when the name is held by
    another instance: it does not raise [SingleInstanceError], the wrapper
    it returns has no lock and the set of held names is as before. *)
Theorem no_lock_no_enforcement
        (pf : Platform) (name : option pystr) (level : Z)
        (install_excepthooks single_instance : bool) (mutex_name : option pystr)
        (sg : option Signer) (ld : option pystr) (lifecycle : bool) (s : System) :
  single_instance = false \/ lock_supported pf = false ->
  let r := JVLogger_init pf name level install_excepthooks single_instance
                         mutex_name sg ld lifecycle s in
  fst r <> Raises SingleInstanceError
  /\ held (snd r) = held s
  /\ (forall self, fst r = Returns self -> _lock self = None).
Proof.
  intros Hoff r.
  destruct (construction_without_lock pf name level install_excepthooks
              single_instance mutex_name sg ld lifecycle s Hoff)
    as (self & s' & E & Hl & Hh).
  unfold r. rewrite E. cbn [fst snd].
  split; [discriminate |]. split; [exact Hh |].
  intros self' [= <-]. exact Hl.
Qed.

(** X15.  One instance at a time: once a construction with single-instance
    enforcement has returned, every further construction that asks for the
    same lock name in the system it left is refused with
    [SingleInstanceError], whatever its logger name and other arguments. *)
Theorem second_instance_refused
        (pf : Platform) (name name' : option pystr) (level level' : Z)
        (ie ie' : bool) (mutex_name mutex_name' : option pystr)
        (sg sg' : option Signer) (ld ld' : option pystr) (lc lc' : bool)
        (s s1 : System) (self : JVLogger) :
  lock_supported pf = true ->
  JVLogger_init pf name level ie true mutex_name sg ld lc s = (Returns self, s1) ->
  str_or mutex_name' (base_name_for name' s1)
  = str_or mutex_name (base_name_for name s) ->
  fst (JVLogger_init pf name' level' ie' true mutex_name' sg' ld' lc' s1)
  = Raises SingleInstanceError.
Proof.
  intros Hsup Hinit Hsame.
  assert (Hheld : str_or mutex_name (base_name_for name s) ∈ held s1).
  { rewrite JVLogger_init_run in Hinit.
    destruct (decide (str_or mutex_name (base_name_for name s) ∈ held s))
      as [Hin | Hout].
    - rewrite single_instance_lock_held in Hinit by assumption.
      discriminate Hinit.
    - rewrite single_instance_lock_free in Hinit by assumption.
      cbn zeta in Hinit.
      match type of Hinit with
      | context [configure pf ?slf level ie lc ?q] =>
          destruct (configure_run pf slf level ie lc q) as (s' & Ec & Hh & _)
      end.
      rewrite Ec in Hinit. injection Hinit as _ <-.
      rewrite Hh. cbn [held].
      apply elem_of_union_l, elem_of_singleton. reflexivity. }
  rewrite JVLogger_init_run.
  rewrite single_instance_lock_held; [reflexivity | exact Hsup |].
  rewrite Hsame. exact Hheld.
Qed.

(** X16.  Construction followed by [close] gives the lock back: when the
    name was free, the constructor took it and releasing does not raise,
    [close] returns normally, the set of held names is what it was before
    the construction, and the logger has no handlers left. *)
Theorem construct_then_close
        (pf : Platform) (name : option pystr) (level : Z) (ie : bool)
        (mutex_name : option pystr) (sg : option Signer) (ld : option pystr)
        (lc : bool) (s s1 : System) (self : JVLogger) :
  lock_supported pf = true ->
  release_error pf = None ->
  str_or mutex_name (base_name_for name s) ∉ held s ->
  JVLogger_init pf name level ie true mutex_name sg ld lc s = (Returns self, s1) ->
  let closed := snd (close pf (mkInstance self s1)) in
  fst (close pf (mkInstance self s1)) = Returns tt
  /\ held (system_of closed) = held s
  /\ handlers_of (jv_name self) (process (system_of closed)) = []
  /\ _lock (self_of closed) = None.
Proof.
  intros Hsup Hrel Hfree Hinit closed.
  rewrite JVLogger_init_run in Hinit.
  rewrite single_instance_lock_free in Hinit by assumption.
  cbn zeta in Hinit.
  match type of Hinit with
  | context [configure pf ?slf level ie lc ?q] =>
      destruct (configure_run pf slf level ie lc q) as (s' & Ec & Hh & _)
  end.
  rewrite Ec in Hinit. injection Hinit as <- <-.
  destruct (close_full pf (mkInstance
              (mkJVLogger (base_name_for name s) sg
                 (Some (mkLock (str_or mutex_name (base_name_for name s)))) lc
                 (_log_dir pf ld (process s))) s'))
    as (i' & E & Hl & _ & _ & He & Hheld & _).
  unfold closed. rewrite E. cbn [fst snd].
  cbn [self_of system_of _lock jv_name lock_id] in *.
  rewrite Hrel in *. repeat split; try assumption.
  rewrite Hheld, Hh. cbn [held]. apply take_and_release, Hfree.
Qed.

(** X17.  What a construction that returns has set: the wrapper carries
    the resolved name (the given name when it is not empty), the signer and
    the log directory; the logger of that name has the requested level,
    whether it was configured now or before; and a logger that had no handler
    has the handlers of the configuration.  (The test of the repository checks
    name, level and the number of handlers.) *)
Theorem construction_sets_name_level_handlers
        (pf : Platform) (name : option pystr) (level : Z) (ie si : bool)
        (mutex_name : option pystr) (sg : option Signer) (ld : option pystr)
        (lc : bool) (s s' : System) (self : JVLogger) :
  JVLogger_init pf name level ie si mutex_name sg ld lc s = (Returns self, s') ->
  let nm := base_name_for name s in
  jv_name self = nm
  /\ signer self = sg
  /\ log_dir self = _log_dir pf ld (process s)
  /\ lg_level (getLogger nm (process s')) = level
  /\ (handlers_of nm (process s) = [] ->
      handlers_of nm (process s')
      = configured_handlers pf nm (_log_dir pf ld (process s)) sg)
  /\ (forall c n, name = Some (c :: n) -> nm = c :: n).
Proof.
  intros Hinit nm. rewrite JVLogger_init_run in Hinit.
  pose proof (single_instance_lock_process pf si mutex_name
                (base_name_for name s) s) as Hp.
  destruct (single_instance_lock pf si mutex_name (base_name_for name s) s)
    as [[lock | e] s0]; [| discriminate Hinit].
  cbn zeta in Hinit. cbn [snd] in Hp.
  match type of Hinit with
  | context [configure pf ?slf level ie lc s0] =>
      pose proof (configure_level pf slf level ie lc s0) as Hlevel;
      destruct (configure_run pf slf level ie lc s0) as (q & Ec & _ & _ & Hh)
  end.
  rewrite Ec in Hinit, Hlevel. injection Hinit as <- <-.
  cbn [snd jv_name signer log_dir] in *. fold nm in Hlevel, Hh.
  repeat split; try assumption.
  - intros Hfresh. rewrite Hh, Hp, Hfresh. reflexivity.
  - intros c n ->. reflexivity.
Qed.

(** X18.  A wrapper can be made again after [close]: since [close] leaves
    the logger without handlers, a later construction for the same name does
    not find any and configures the logger anew, with the handlers of the
    configuration. *)
Theorem reconstruct_after_close
        (pf : Platform) (i : Instance) (name : option pystr) (level : Z)
        (ie si : bool) (mutex_name : option pystr) (sg : option Signer)
        (ld : option pystr) (lc : bool) (self' : JVLogger) (s2 : System) :
  let s1 := system_of (snd (close pf i)) in
  let nm := jv_name (self_of i) in
  base_name_for name s1 = nm ->
  JVLogger_init pf name level ie si mutex_name sg ld lc s1 = (Returns self', s2) ->
  handlers_of nm (process s2)
  = configured_handlers pf nm (_log_dir pf ld (process s1)) sg.
Proof.
  intros s1 nm Hname Hinit.
  destruct (close_full pf i) as (i' & E & _ & _ & _ & He & _).
  assert (Hempty : handlers_of nm (process s1) = [])
    by (unfold s1; rewrite E; exact He).
  destruct (JVLogger_init_cases pf name level ie si mutex_name sg ld lc s1)
    as [(e & q & E' & _) | (slf & q & E' & _ & H)];
    rewrite E' in Hinit; [discriminate Hinit |].
  injection Hinit as <- <-. rewrite Hname, Hempty in H. exact H.
Qed.

End WithLib.

(** X19.  The wrapper as a context manager: leaving the block closes the
    wrapper whether the block returned or raised.  Afterwards the wrapper
    holds no lock and its logger has no handlers; and unless releasing the
    lock itself raises, an exception of the block goes on to the caller (it
    is not suppressed) and a block that returned gives a normal return. *)
Theorem with_wrapper_always_closes
        (pf : Platform) (body : pystr -> StateExc Instance unit) (i : Instance) :
  let inside := body (jv_name (self_of i)) i in
  let after := with_wrapper pf body i in
  _lock (self_of (snd after)) = None
  /\ handlers_of (jv_name (self_of (snd inside)))
                 (process (system_of (snd after))) = []
  /\ (release_error pf = None -> fst after = fst inside).
Proof.
  intros inside after. unfold after, with_wrapper, JVLogger_enter, get_logger.
  fold inside. destruct inside as [[[] | e] i1] eqn:Ei; cbn [fst snd];
    unfold JVLogger_exit;
    destruct (close_full pf i1) as (i' & E & Hl & _ & _ & He & _);
    rewrite E; cbn [fst snd].
  - repeat split; try assumption. intros Hrel. rewrite Hrel.
    destruct (_lock (self_of i1)); reflexivity.
  - destruct (_lock (self_of i1)) as [lock |] eqn:El;
      [destruct (release_error pf) as [e' |] eqn:Er |];
      cbn [fst snd]; repeat split; try assumption; try reflexivity.
    intros Hrel. discriminate Hrel.
Qed.

Import Samples MoreSamples.

Lemma close_when_release_raises_witness :
  let pf := mkPlatform true (Some OSError) (lit "host1") None sample_handlers
                       (fun p => p) in
  let i := mkInstance sample_locked_wrapper sample_system_locked in
  _lock (self_of i) = Some (mkLock (lit "app"))
  /\ release_error pf = Some OSError
  /\ fst (close pf i) = Raises OSError.
Proof.
  intros pf i. split; [reflexivity |]. split; [reflexivity |].
  exact (proj1 (close_when_release_raises pf i (mkLock (lit "app")) OSError
                  eq_refl eq_refl)).
Defined.

Lemma no_lock_no_enforcement_witness :
  let pf := mkPlatform false None (lit "host1") None sample_handlers
                       (fun p => p) in
  let r := JVLogger_init (L := sample_lib) pf (Some (lit "app")) INFO false true
                         None None None false sample_system_locked in
  (true = false \/ lock_supported pf = false)
  /\ fst r <> Raises SingleInstanceError
  /\ held (snd r) = held sample_system_locked.
Proof.
  intros pf r.
  assert (H : true = false \/ lock_supported pf = false) by (right; reflexivity).
  split; [exact H |].
  pose proof (no_lock_no_enforcement (L := sample_lib) pf (Some (lit "app")) INFO
                false true None None None false sample_system_locked H)
    as (Hr & Hh & _).
  split; [exact Hr | exact Hh].
Defined.

Lemma second_instance_refused_witness :
  let first := JVLogger_init (L := sample_lib) sample_platform (Some (lit "app"))
                             INFO false true None None None false sample_system in
  lock_supported sample_platform = true
  /\ fst first
     = Returns (mkJVLogger (lit "app") None (Some (mkLock (lit "app"))) false
                           (lit "/srv/app/logs/host1"))
  /\ fst (JVLogger_init (L := sample_lib) sample_platform (Some (lit "worker"))
                        DEBUG true true (Some (lit "app")) None None false
                        (snd first))
     = Raises SingleInstanceError.
Proof.
  intros first.
  assert (H : first
              = (Returns (mkJVLogger (lit "app") None (Some (mkLock (lit "app")))
                                     false (lit "/srv/app/logs/host1")),
                 snd first)) by (vm_compute; reflexivity).
  split; [reflexivity |]. split; [rewrite H; reflexivity |].
  exact (second_instance_refused (L := sample_lib) sample_platform
           (Some (lit "app")) (Some (lit "worker")) INFO DEBUG false true
           None (Some (lit "app")) None None None None false false
           sample_system (snd first) _ eq_refl H eq_refl).
Defined.

Lemma construct_then_close_witness :
  let first := JVLogger_init (L := sample_lib) sample_platform (Some (lit "app"))
                             INFO false true None None None false sample_system in
  let self := mkJVLogger (lit "app") None (Some (mkLock (lit "app"))) false
                         (lit "/srv/app/logs/host1") in
  (lit "app" ∉ held sample_system)
  /\ first = (Returns self, snd first)
  /\ held (system_of (snd (close sample_platform (mkInstance self (snd first)))))
     = held sample_system.
Proof.
  intros first self.
  assert (Hfree : lit "app" ∉ held sample_system) by apply not_elem_of_empty.
  assert (H : first = (Returns self, snd first)) by (vm_compute; reflexivity).
  split; [exact Hfree |]. split; [exact H |].
  exact (proj1 (proj2 (construct_then_close (L := sample_lib) sample_platform
                         (Some (lit "app")) INFO false None None None false
                         sample_system (snd first) self eq_refl eq_refl Hfree H))).
Defined.

Lemma construction_sets_name_level_handlers_witness :
  let r := JVLogger_init (L := sample_lib) sample_platform (Some (lit "test_app"))
                         DEBUG false false None None (Some (lit "/tmp/logs"))
                         false sample_system in
  let self := mkJVLogger (lit "test_app") None None false (lit "/tmp/logs") in
  r = (Returns self, snd r)
  /\ lg_level (getLogger (lit "test_app") (process (snd r))) = DEBUG
  /\ length (handlers_of (lit "test_app") (process (snd r))) = 3%nat.
Proof.
  intros r self.
  assert (H : r = (Returns self, snd r)) by (vm_compute; reflexivity).
  split; [exact H |].
  pose proof (construction_sets_name_level_handlers (L := sample_lib)
                sample_platform (Some (lit "test_app")) DEBUG false false None
                None (Some (lit "/tmp/logs")) false sample_system (snd r) self H)
    as (_ & _ & _ & Hlevel & Hhandlers & _).
  split; [exact Hlevel |].
  exact (eq_trans (f_equal length (Hhandlers eq_refl)) eq_refl).
Defined.

Lemma reconstruct_after_close_witness :
  let i := mkInstance sample_wrapper sample_system in
  let s1 := system_of (snd (close sample_platform i)) in
  let r := JVLogger_init (L := sample_lib) sample_platform (Some (lit "app")) INFO
                         false false None None None false s1 in
  let self := mkJVLogger (lit "app") None None false (lit "/srv/app/logs/host1") in
  base_name_for (L := sample_lib) (Some (lit "app")) s1 = lit "app"
  /\ r = (Returns self, snd r)
  /\ length (handlers_of (lit "app") (process (snd r))) = 3%nat.
Proof.
  intros i s1 r self.
  assert (H : r = (Returns self, snd r)) by (vm_compute; reflexivity).
  split; [reflexivity |]. split; [exact H |].
  exact (eq_trans
           (f_equal length
              (reconstruct_after_close (L := sample_lib) sample_platform i
                 (Some (lit "app")) INFO false false None None None false self
                 (snd r) eq_refl H))
           eq_refl).
Defined.

Lemma with_wrapper_always_closes_witness :
  let i := mkInstance sample_locked_wrapper sample_system_locked in
  let body := fun _ : pystr => (raise ValueError : StateExc Instance unit) in
  release_error sample_platform = None
  /\ fst (with_wrapper sample_platform body i) = Raises ValueError.
Proof.
  intros i body. split; [reflexivity |].
  exact (proj2 (proj2 (with_wrapper_always_closes sample_platform body i))
               eq_refl).
Defined.

End MoreJVFacts.

(** ** The injection into the configuration *)

Module MoreConfigFacts.
Import MyLogger JVLogger Config.

Lemma starts_with_true (pre s : pystr) :
  starts_with pre s = true <-> exists b, s = pre ++ b.
Proof.
  revert s. induction pre as [| a pre IH]; intros s; cbn [starts_with].
  - split; [intros _; exists s; reflexivity | intros _; reflexivity].
  - destruct s as [| b s].
    + split; [discriminate | intros [x Hx]; discriminate Hx].
    + rewrite andb_true_iff, N.eqb_eq, IH. split.
      * intros [-> [x ->]]. exists x. reflexivity.
      * intros [x Hx]. injection Hx as -> ->.
        split; [reflexivity | exists x; reflexivity].
Qed.

Lemma replace_from_skip (pre old new b : pystr) :
  replace_from (length pre) old new (pre ++ b) = replace_from 0 old new b.
Proof. induction pre as [| c pre IH]; [reflexivity | exact IH]. Qed.

(** [old] written at the start is replaced, and what was written for it is
    not looked at again. *)
Lemma str_replace_at_start (old new b : pystr) :
  old <> [] -> str_replace old new (old ++ b) = new ++ str_replace old new b.
Proof.
  destruct old as [| c old]; [contradiction |]. intros _.
  unfold str_replace. change ((c :: old) ++ b) with (c :: (old ++ b)).
  cbn [replace_from].
  assert (E : starts_with (c :: old) (c :: old ++ b) = true)
    by (apply starts_with_true; exists b; reflexivity).
  rewrite E. cbn [length].
  replace (S (length old) - 1)%nat with (length old) by lia.
  rewrite replace_from_skip. reflexivity.
Qed.

(** A text in which [old] does not occur is left as it is. *)
Lemma str_replace_absent (old new s : pystr) :
  old <> [] -> (forall a b, s <> a ++ old ++ b) -> str_replace old new s = s.
Proof.
  destruct old as [| c old]; [contradiction |]. intros _.
  unfold str_replace.
  induction s as [| x s IH]; intros Habs; [reflexivity |].
  cbn [replace_from]. destruct (starts_with (c :: old) (x :: s)) eqn:E.
  - apply starts_with_true in E as [b Hb]. exfalso.
    apply (Habs [] b). exact Hb.
  - f_equal. apply IH. intros a b ->. apply (Habs (x :: a) b). reflexivity.
Qed.

Lemma filename_ok_true (h : gmap pystr conf) :
  filename_ok h = true
  <-> forall v, h !! FILENAME = Some v -> exists f, v = CStr f.
Proof.
  unfold filename_ok. destruct (h !! FILENAME) as [[] |]; split;
    try (intros _; reflexivity); try discriminate;
    try (intros _ v [= <-]; eauto);
    try (intros H; destruct (H _ eq_refl) as [f Hf]; discriminate Hf).
Qed.

Section WithLib.
Context `{L : PyLib}.

(** X20.  When the injection goes through: exactly when the configuration
    has the three sections [loggers], [handlers] and [formatters], the
    loggers have an entry [APP_LOGGER], every [filename] of a handler is a
    string, and the formatters have an entry [json].  Otherwise it raises and
    no configuration is applied. *)
Theorem inject_config_succeeds_iff (self : JVLogger) (c : config) :
  (exists c', inject_config self c = inr c')
  <-> (exists ls hs fs,
         c_loggers c = Some ls
         /\ c_handlers c = Some hs
         /\ c_formatters c = Some fs
         /\ is_Some (ls !! APP_LOGGER)
         /\ (forall k h v, hs !! k = Some h -> h !! FILENAME = Some v ->
                           exists f, v = CStr f)
         /\ is_Some (fs !! lit "json")).
Proof.
  unfold inject_config, rename_logger, set_filenames.
  destruct (c_loggers c) as [ls |]; [| split; [intros [? [=]] |
    intros (? & ? & ? & [=] & _)]].
  destruct (ls !! APP_LOGGER) as [e |] eqn:Ee; [| split; [intros [? [=]] |
    intros (? & ? & ? & [= <-] & _ & _ & [? He] & _); rewrite Ee in He;
    discriminate He]].
  destruct (c_handlers c) as [hs |]; [| split; [intros [? [=]] |
    intros (? & ? & ? & _ & [=] & _)]].
  case_bool_decide as Hall.
  - destruct (c_formatters c) as [fs |]; [| split; [intros [? [=]] |
      intros (? & ? & ? & _ & _ & [=] & _)]].
    destruct (fs !! lit "json") as [j |] eqn:Ej.
    + split; [intros _ | eauto].
      exists ls, hs, fs. repeat split; eauto.
      intros k h v Hk Hv. apply (proj1 (filename_ok_true h) (Hall k h Hk) v Hv).
    + split; [intros [? [=]] |].
      intros (? & ? & ? & _ & _ & [= <-] & _ & _ & [? Hj]).
      rewrite Ej in Hj. discriminate Hj.
  - split; [intros [? [=]] |].
    intros (? & ? & ? & _ & [= <-] & _ & _ & Hok & _).
    exfalso. apply Hall. intros k h Hk. apply filename_ok_true.
    intros v Hv. exact (Hok k h v Hk Hv).
Qed.

(** X21.  The entry of the logger is moved, not copied: after the
    injection the entry that was under [APP_LOGGER] is under the name of the
    wrapper, where it replaces an entry that was there before; unless the
    wrapper is itself named [APP_LOGGER], no entry is left under that key;
    all other loggers are as they were. *)
Theorem logger_entry_moved (self : JVLogger) (c c' : config)
        (ls : gmap pystr (gmap pystr conf)) :
  inject_config self c = inr c' ->
  c_loggers c = Some ls ->
  exists ls',
    c_loggers c' = Some ls'
    /\ ls' !! jv_name self = ls !! APP_LOGGER
    /\ is_Some (ls !! APP_LOGGER)
    /\ (jv_name self <> APP_LOGGER -> ls' !! APP_LOGGER = None)
    /\ (forall k, k <> jv_name self -> k <> APP_LOGGER -> ls' !! k = ls !! k).
Proof.
  unfold inject_config, rename_logger, set_filenames. intros H Hsec.
  rewrite Hsec in H.
  destruct (ls !! APP_LOGGER) as [e |] eqn:Ee; [| discriminate H].
  destruct (c_handlers c) as [hs |]; [| discriminate H].
  case_bool_decide; [| discriminate H].
  destruct (c_formatters c) as [fs |]; [| discriminate H].
  destruct (fs !! lit "json") as [j |]; [| discriminate H].
  injection H as <-. eexists. split; [reflexivity |].
  split; [apply lookup_insert_eq |]. split; [eauto |]. split.
  - intros Hne. rewrite lookup_insert_ne by exact Hne. apply lookup_delete_eq.
  - intros k Hk Hk'. rewrite lookup_insert_ne by congruence.
    apply lookup_delete_ne. congruence.
Qed.

(** X22.  What the loop over the handlers does: the handlers keep their
    names; a handler without [filename] is unchanged; in a handler with one,
    only that entry changes, to the file name with [APP_NAME] replaced by the
    name of the wrapper, joined to the log directory of the wrapper. *)
Theorem handler_filenames_rewritten (self : JVLogger) (c c' : config)
        (hs : gmap pystr (gmap pystr conf)) :
  inject_config self c = inr c' ->
  c_handlers c = Some hs ->
  exists hs',
    c_handlers c' = Some hs'
    /\ (forall k, hs !! k = None -> hs' !! k = None)
    /\ (forall k h, hs !! k = Some h ->
         exists h',
           hs' !! k = Some h'
           /\ (forall key, key <> FILENAME -> h' !! key = h !! key)
           /\ (h !! FILENAME = None -> h' = h)
           /\ (forall v, h !! FILENAME = Some v ->
                exists f,
                  v = CStr f
                  /\ h' !! FILENAME
                     = Some (CStr (path_join (log_dir self)
                                     (str_replace APP_NAME (jv_name self) f))))).
Proof.
  unfold inject_config, rename_logger, set_filenames. intros H Hsec.
  rewrite Hsec in H.
  destruct (c_loggers c) as [ls |]; [| discriminate H].
  destruct (ls !! APP_LOGGER) as [e |]; [| discriminate H].
  case_bool_decide as Hall; [| discriminate H].
  destruct (c_formatters c) as [fs |]; [| discriminate H].
  destruct (fs !! lit "json") as [j |]; [| discriminate H].
  injection H as <-. eexists. split; [reflexivity |]. split.
  - intros k Hk. rewrite lookup_fmap, Hk. reflexivity.
  - intros k h Hk. exists (set_filename (jv_name self) (log_dir self) h).
    split; [rewrite lookup_fmap, Hk; reflexivity |].
    pose proof (Hall k h Hk) as Hok. unfold filename_ok in Hok.
    unfold set_filename.
    destruct (h !! FILENAME) as [[f | | | |] |] eqn:Ef; try discriminate Hok.
    + split; [intros key Hkey; apply lookup_insert_ne; congruence |].
      split; [discriminate |].
      intros v [= <-]. exists f. split; [reflexivity |].
      apply lookup_insert_eq.
    + split; [reflexivity |]. split; [reflexivity |]. discriminate.
Qed.

(** X23.  The signer goes into the [json] formatter and nowhere else: its
    entry [signer] becomes the signer of the wrapper (also when that is
    [None], and whatever was configured there), its other entries and all
    other formatters are as they were. *)
Theorem signer_injected (self : JVLogger) (c c' : config)
        (fs : gmap pystr (gmap pystr conf)) :
  inject_config self c = inr c' ->
  c_formatters c = Some fs ->
  exists fs' j j',
    c_formatters c' = Some fs'
    /\ fs !! lit "json" = Some j
    /\ fs' !! lit "json" = Some j'
    /\ j' !! lit "signer" = Some (CSigner (signer self))
    /\ (forall key, key <> lit "signer" -> j' !! key = j !! key)
    /\ (forall k, k <> lit "json" -> fs' !! k = fs !! k).
Proof.
  unfold inject_config, rename_logger, set_filenames. intros H Hsec.
  rewrite Hsec in H.
  destruct (c_loggers c) as [ls |]; [| discriminate H].
  destruct (ls !! APP_LOGGER) as [e |]; [| discriminate H].
  destruct (c_handlers c) as [hs |]; [| discriminate H].
  case_bool_decide; [| discriminate H].
  destruct (fs !! lit "json") as [j |] eqn:Ej; [| discriminate H].
  injection H as <-.
  exists (<[lit "json" := <[lit "signer" := CSigner (signer self)]> j]> fs), j,
         (<[lit "signer" := CSigner (signer self)]> j).
  split; [reflexivity |]. split; [reflexivity |].
  split; [apply lookup_insert_eq |]. split; [apply lookup_insert_eq |]. split.
  - intros key Hkey. apply lookup_insert_ne. congruence.
  - intros k Hk. apply lookup_insert_ne. congruence.
Qed.

(** X24.  How the file names of the configuration come out.  A file name
    in which [APP_NAME] does not occur is only put under the log directory.
    A file name that starts with [APP_NAME] starts with the name of the
    wrapper instead, and that name is not searched again: it stays as it is
    also when it contains [APP_NAME] itself. *)
Theorem filename_template_filled (name dir : pystr) (h : gmap pystr conf)
        (f : pystr) :
  h !! FILENAME = Some (CStr f) ->
  ((forall a b, f <> a ++ APP_NAME ++ b) ->
   set_filename name dir h !! FILENAME = Some (CStr (path_join dir f)))
  /\ (forall rest, f = APP_NAME ++ rest ->
       (forall a b, rest <> a ++ APP_NAME ++ b) ->
       set_filename name dir h !! FILENAME
       = Some (CStr (path_join dir (name ++ rest)))).
Proof.
  intros Hf. unfold set_filename. rewrite Hf.
  assert (Hne : APP_NAME <> []) by discriminate.
  split.
  - intros Habs. rewrite lookup_insert_eq.
    rewrite (str_replace_absent APP_NAME name f Hne Habs). reflexivity.
  - intros rest -> Habs. rewrite lookup_insert_eq.
    rewrite (str_replace_at_start APP_NAME name rest Hne).
    rewrite (str_replace_absent APP_NAME name rest Hne Habs). reflexivity.
Qed.

End WithLib.

Import Samples MoreSamples.

Lemma inject_config_succeeds_iff_witness :
  exists c', inject_config (L := sample_lib) sample_wrapper sample_config = inr c'.
Proof.
  apply (proj2 (inject_config_succeeds_iff (L := sample_lib) sample_wrapper
                  sample_config)).
  eexists _, _, _. split; [reflexivity |]. split; [reflexivity |].
  split; [reflexivity |]. split; [eexists; reflexivity |].
  split; [| eexists; reflexivity].
  intros k h v Hk Hv.
  assert (Hall : map_Forall (fun _ h => filename_ok h = true)
                   (default ∅ (c_handlers sample_config)))
    by (apply (bool_decide_unpack _); vm_compute; exact I).
  exact (proj1 (filename_ok_true h) (Hall k h Hk) v Hv).
Defined.

Lemma logger_entry_moved_witness :
  let c' := match inject_config (L := sample_lib) sample_wrapper sample_config with
            | inr c' => c'
            | inl _ => sample_config
            end in
  inject_config (L := sample_lib) sample_wrapper sample_config = inr c'
  /\ exists ls',
       c_loggers c' = Some ls'
       /\ is_Some (ls' !! lit "app")
       /\ ls' !! APP_LOGGER = None.
Proof.
  intros c'.
  assert (H : inject_config (L := sample_lib) sample_wrapper sample_config = inr c')
    by (vm_compute; reflexivity).
  split; [exact H |].
  destruct (logger_entry_moved (L := sample_lib) sample_wrapper sample_config c' _
              H eq_refl) as (ls' & E & Hn & Hs & Ha & _).
  exists ls'. split; [exact E |]. split.
  - change (lit "app") with (jv_name sample_wrapper). rewrite Hn. exact Hs.
  - apply Ha. vm_compute. discriminate.
Defined.

Lemma handler_filenames_rewritten_witness :
  let c' := match inject_config (L := sample_lib) sample_wrapper sample_config with
            | inr c' => c'
            | inl _ => sample_config
            end in
  inject_config (L := sample_lib) sample_wrapper sample_config = inr c'
  /\ exists hs' h',
       c_handlers c' = Some hs'
       /\ hs' !! lit "json" = Some h'
       /\ h' !! FILENAME = Some (CStr (lit "/var/log/app/app.json")).
Proof.
  intros c'.
  assert (H : inject_config (L := sample_lib) sample_wrapper sample_config = inr c')
    by (vm_compute; reflexivity).
  split; [exact H |].
  destruct (handler_filenames_rewritten (L := sample_lib) sample_wrapper
              sample_config c' _ H eq_refl) as (hs' & E & _ & Hh).
  destruct (Hh (lit "json") _ eq_refl) as (h' & Eh & _ & _ & Hv).
  destruct (Hv _ eq_refl) as (f & Ef & Efile).
  injection Ef as <-.
  exists hs', h'. split; [exact E |]. split; [exact Eh | exact Efile].
Defined.

Lemma signer_injected_witness :
  let c' := match inject_config (L := sample_lib) sample_wrapper sample_config with
            | inr c' => c'
            | inl _ => sample_config
            end in
  inject_config (L := sample_lib) sample_wrapper sample_config = inr c'
  /\ exists fs' j',
       c_formatters c' = Some fs'
       /\ fs' !! lit "json" = Some j'
       /\ j' !! lit "signer" = Some (CSigner (Some (HMACSigner (lit "k")))).
Proof.
  intros c'.
  assert (H : inject_config (L := sample_lib) sample_wrapper sample_config = inr c')
    by (vm_compute; reflexivity).
  split; [exact H |].
  destruct (signer_injected (L := sample_lib) sample_wrapper sample_config c' _
              H eq_refl) as (fs' & j & j' & E & _ & Ej & Es & _).
  exists fs', j'. split; [exact E |]. split; [exact Ej | exact Es].
Defined.

Lemma filename_template_filled_witness :
  let h : gmap pystr conf := {[ FILENAME := CStr (APP_NAME ++ lit ".json") ]} in
  h !! FILENAME = Some (CStr (APP_NAME ++ lit ".json"))
  /\ (forall a b, lit ".json" <> a ++ APP_NAME ++ b)
  /\ set_filename (L := sample_lib) (lit "app") (lit "/var/log/app") h !! FILENAME
     = Some (CStr (lit "/var/log/app/app.json")).
Proof.
  intros h.
  assert (Hf : h !! FILENAME = Some (CStr (APP_NAME ++ lit ".json")))
    by reflexivity.
  assert (Habs : forall a b, lit ".json" <> a ++ APP_NAME ++ b).
  { intros a b E. apply (f_equal length) in E.
    rewrite !length_app in E. cbn in E. lia. }
  split; [exact Hf |]. split; [exact Habs |].
  exact (proj2 (filename_template_filled (L := sample_lib) (lit "app")
                  (lit "/var/log/app") h _ Hf)
               (lit ".json") eq_refl Habs).
Defined.

End MoreConfigFacts.
